(** * User-management front end: API client, view and controller

    A shallow embedding of the validation, response-handling and
    error-mapping code of [js/api.js], [js/ui.js] and [js/app.js],
    followed by the properties established for it.

    Conventions of the embedding.
    - A JavaScript string is the sequence of its code units; the model
      keeps the code units below 256, one [ascii] each.  Message literals
      are carried as they are written in the source file.
    - A Number is modelled by its mathematical value (a rational, NaN or
      an infinity).  The code does no arithmetic; it only classifies and
      compares numbers and turns them into text.  The two conversions
      between numbers and text belong to the host and are taken from it
      (class [Host]).
    - A thrown value is a [js_error]; a computation that may throw returns
      a [completion]; an asynchronous operation additionally records the
      requests, body reads and console output it performs, in order.
    - Where the program converts a value that can be an object to a
      string or to a number, the conversion is written with its error:
      it throws for an object that holds a member of its own named
      [toString] ([convertible]), and [ToString], [ToNumber] and the
      comparisons give its result when it returns. *)

From Stdlib Require Import String Ascii List ZArith QArith Bool Lia.
Import ListNotations.

(* ===================================================================== *)
(** * The host language *)
(* ===================================================================== *)

Module Js.

Local Open Scope string_scope.
Local Open Scope Z_scope.

(** ** Values *)

Inductive number :=
| Finite (q : Q)
| NaN
| Infinity (negative : bool).

#[warnings="-register-all"]
Inductive value :=
| VUndefined
| VNull
| VBool (b : bool)
| VNumber (n : number)
| VString (s : string)
| VArray (xs : list value)
| VObject (fields : list (string * value)).

Definition of_Z (z : Z) : value := VNumber (Finite (inject_Z z)).

(** ** Errors and completions *)

Inductive native_class := Error | TypeError | SyntaxError | DOMException.

(** [class ApiError extends Error]: the constructor stores [status] and
    [details] next to the inherited [message] and sets [name] to
    ['ApiError']. *)
Inductive js_error :=
| Native (cls : native_class) (name message : string)
| ApiError (message : string) (status : Z) (details : value).

Definition error_name (e : js_error) : string :=
  match e with
  | Native _ n _ => n
  | ApiError _ _ _ => "ApiError"
  end.

Definition error_message (e : js_error) : string :=
  match e with
  | Native _ _ m => m
  | ApiError m _ _ => m
  end.

Definition new_Error (m : string) : js_error := Native Error "Error" m.
Definition new_TypeError (m : string) : js_error := Native TypeError "TypeError" m.

(** [e instanceof TypeError] *)
Definition instanceof_TypeError (e : js_error) : bool :=
  match e with
  | Native TypeError _ _ => true
  | _ => false
  end.

Inductive completion (A : Type) :=
| Return (a : A)
| Throw (e : js_error).
Arguments Return {A} a.
Arguments Throw {A} e.

Definition cbind {A B} (c : completion A) (k : A -> completion B) : completion B :=
  match c with
  | Return a => k a
  | Throw e => Throw e
  end.

(** ** The host *)

Record request := mk_request {
  req_url : string;
  req_method : string;
  req_headers : list (string * string);
  req_body : option string
}.

(** What the page observes of a [Response]: its status, the value of
    [headers.get('content-type')] ([None] for [null]), what [json()]
    settles to and what [text()] resolves to. *)
Record response := mk_response {
  resp_status : Z;
  resp_content_type : option string;
  resp_json : completion value;
  resp_text : string
}.

(** [response.ok]: the status is in the range 200-299. *)
Definition resp_ok (r : response) : bool :=
  (200 <=? resp_status r) && (resp_status r <=? 299).

(** How a call of the host's [fetch] behaves when nobody aborts it: it
    settles after some milliseconds, or it stays pending. *)
Inductive settlement :=
| Settles (ms : Z) (c : completion response)
| Pending.

Class Host := {
  Number_toString : number -> string;
  String_toNumber : string -> number;
  fetch : request -> settlement
}.

(** ** Strings *)

(** White space and line terminators, as [trim] understands them. *)
Definition is_whitespace (c : ascii) : bool :=
  match N_of_ascii c with
  | 9%N | 10%N | 11%N | 12%N | 13%N | 32%N | 160%N => true
  | _ => false
  end.

Fixpoint trimStart (s : string) : string :=
  match s with
  | String c s' => if is_whitespace c then trimStart s' else s
  | EmptyString => EmptyString
  end.

(** [trimEnd] drops a character when it is white space and everything
    after it has been dropped. *)
Fixpoint trimEnd (s : string) : string :=
  match s with
  | String c s' =>
      match trimEnd s' with
      | EmptyString => if is_whitespace c then EmptyString else String c EmptyString
      | t => String c t
      end
  | EmptyString => EmptyString
  end.

Definition trim (s : string) : string := trimEnd (trimStart s).

Fixpoint startsWith (p s : string) : bool :=
  match p, s with
  | EmptyString, _ => true
  | String a p', String b s' => Ascii.eqb a b && startsWith p' s'
  | String _ _, EmptyString => false
  end.

Fixpoint includes (p s : string) : bool :=
  startsWith p s ||
  match s with
  | String _ s' => includes p s'
  | EmptyString => false
  end.

Fixpoint endsWith (p s : string) : bool :=
  String.eqb p s ||
  match s with
  | String _ s' => endsWith p s'
  | EmptyString => false
  end.

(** [s.split(sep)] for a separator of one character. *)
Fixpoint split (sep : ascii) (s : string) : list string :=
  match s with
  | EmptyString => [EmptyString]
  | String c s' =>
      if Ascii.eqb c sep then EmptyString :: split sep s'
      else match split sep s' with
           | p :: ps => String c p :: ps
           | [] => [String c EmptyString]
           end
  end.

Fixpoint intercalate (sep : string) (xs : list string) : string :=
  match xs with
  | [] => EmptyString
  | [x] => x
  | x :: rest => x ++ sep ++ intercalate sep rest
  end.

(** ** Conversions *)

Definition number_is_zero (n : number) : bool :=
  match n with
  | Finite q => Qnum q =? 0
  | _ => false
  end.

Definition ToBoolean (v : value) : bool :=
  match v with
  | VUndefined | VNull => false
  | VBool b => b
  | VNumber NaN => false
  | VNumber n => negb (number_is_zero n)
  | VString EmptyString => false
  | VString _ => true
  | VArray _ | VObject _ => true
  end.

Definition typeof (v : value) : string :=
  match v with
  | VUndefined => "undefined"
  | VNull | VArray _ | VObject _ => "object"
  | VBool _ => "boolean"
  | VNumber _ => "number"
  | VString _ => "string"
  end.

(** ** Conversion of an object to a primitive

    Converting an object to a string or to a number calls its
    [toString].  A plain object and an array inherit one.  An object
    that holds a member of its own named [toString] has that member in
    its place; the member is data, not a function, so there is nothing
    to call ([valueOf] gives back the object itself) and the conversion
    throws a [TypeError].  An array converts its elements in turn, but
    for [undefined] and [null]. *)
Definition has_own (k : string) (fields : list (string * value)) : bool :=
  existsb (fun member => String.eqb k (fst member)) fields.

Fixpoint convertible (v : value) : bool :=
  match v with
  | VArray xs =>
      (fix elements (l : list value) : bool :=
         match l with
         | [] => true
         | x :: l' => convertible x && elements l'
         end) xs
  | VObject fields => negb (has_own "toString" fields)
  | _ => true
  end.

Definition conversion_TypeError : js_error :=
  new_TypeError "Cannot convert object to primitive value".

Section WithHost.
Context {host : Host}.

(** The string that [ToString] gives when the conversion returns; an
    array prints as its elements joined by commas, with [undefined] and
    [null] elements printing as nothing. *)
Fixpoint ToString (v : value) : string :=
  match v with
  | VUndefined => "undefined"
  | VNull => "null"
  | VBool true => "true"
  | VBool false => "false"
  | VNumber n => Number_toString n
  | VString s => s
  | VArray xs =>
      intercalate ","
        ((fix elements (l : list value) : list string :=
            match l with
            | [] => []
            | VUndefined :: l' | VNull :: l' => EmptyString :: elements l'
            | x :: l' => ToString x :: elements l'
            end) xs)
  | VObject _ => "[object Object]"
  end.

Definition join_element (v : value) : string :=
  match v with
  | VUndefined | VNull => EmptyString
  | _ => ToString v
  end.

(** The string that [xs.join(sep)] gives when the conversions of the
    elements return. *)
Definition join (sep : string) (xs : list value) : string :=
  intercalate sep (map join_element xs).

(** [ToString] as it runs: the string, or the error of the conversion. *)
Definition ToString_completion (v : value) : completion string :=
  if convertible v then Return (ToString v) else Throw conversion_TypeError.

(** The number that [ToNumber] gives when the conversion returns. *)
Definition ToNumber (v : value) : number :=
  match v with
  | VUndefined => NaN
  | VNull => Finite 0
  | VBool true => Finite 1
  | VBool false => Finite 0
  | VNumber n => n
  | VString s => String_toNumber s
  | VArray _ | VObject _ => String_toNumber (ToString v)
  end.

End WithHost.

(** [a < b], [a <= b] and [a > b] on numbers; anything against NaN is
    false. *)
Definition number_lt (a b : number) : bool :=
  match a, b with
  | NaN, _ | _, NaN => false
  | Finite p, Finite q => Qle_bool p q && negb (Qeq_bool p q)
  | Infinity true, Infinity true => false
  | Infinity true, _ => true
  | _, Infinity false => match a with Infinity false => false | _ => true end
  | Infinity false, _ => false
  | Finite _, Infinity true => false
  end.

Definition number_le (a b : number) : bool :=
  match a, b with
  | NaN, _ | _, NaN => false
  | Finite p, Finite q => Qle_bool p q
  | Infinity true, _ => true
  | _, Infinity false => true
  | Infinity false, _ => false
  | Finite _, Infinity true => false
  end.

(** [Number.isInteger(v)] *)
Definition Number_isInteger (v : value) : bool :=
  match v with
  | VNumber (Finite q) => Qnum q mod Zpos (Qden q) =? 0
  | _ => false
  end.

(** ** Property access *)

Fixpoint lookup (k : string) (fields : list (string * value)) : value :=
  match fields with
  | [] => VUndefined
  | (k', v) :: rest => if String.eqb k k' then v else lookup k rest
  end.

Definition string_length (s : string) : value := of_Z (Z.of_nat (String.length s)).

(** [v.k] for a data property [k]: reading a property of [undefined] or
    [null] throws; strings and arrays have [length]; objects have their
    own fields. *)
Definition get (v : value) (k : string) : completion value :=
  match v with
  | VUndefined =>
      Throw (new_TypeError ("Cannot read properties of undefined (reading '" ++ k ++ "')"))
  | VNull =>
      Throw (new_TypeError ("Cannot read properties of null (reading '" ++ k ++ "')"))
  | VString s => Return (if String.eqb k "length" then string_length s else VUndefined)
  | VArray xs => Return (if String.eqb k "length" then of_Z (Z.of_nat (List.length xs)) else VUndefined)
  | VObject fields => Return (lookup k fields)
  | VBool _ | VNumber _ => Return VUndefined
  end.

(** ** JSON.stringify *)

Definition dquote : ascii := ascii_of_N 34.
Definition backslash : ascii := ascii_of_N 92.

Definition hex_digit (n : N) : ascii :=
  nth (N.to_nat n) (list_ascii_of_string "0123456789abcdef") "0"%char.

Definition quote_char (c : ascii) : string :=
  let n := N_of_ascii c in
  match n with
  | 8%N => String backslash "b"
  | 9%N => String backslash "t"
  | 10%N => String backslash "n"
  | 12%N => String backslash "f"
  | 13%N => String backslash "r"
  | 34%N => String backslash (String dquote EmptyString)
  | 92%N => String backslash (String backslash EmptyString)
  | _ =>
      if (n <? 32)%N
      then String backslash "u00" ++
           String (hex_digit (n / 16)) (String (hex_digit (n mod 16)) EmptyString)
      else String c EmptyString
  end.

Fixpoint quote_chars (s : string) : string :=
  match s with
  | EmptyString => EmptyString
  | String c s' => quote_char c ++ quote_chars s'
  end.

(** [QuoteJSONString] *)
Definition quote (s : string) : string :=
  String dquote (quote_chars s ++ String dquote EmptyString).

Section Stringify.
Context {host : Host}.

(** [JSON.stringify(v)]; [None] stands for the result [undefined].
    Members whose value is [undefined] are left out of an object and print
    as [null] in an array; numbers that are not finite print as [null]. *)
Fixpoint JSON_stringify (v : value) : option string :=
  match v with
  | VUndefined => None
  | VNull => Some "null"
  | VBool true => Some "true"
  | VBool false => Some "false"
  | VNumber (Finite q) => Some (Number_toString (Finite q))
  | VNumber _ => Some "null"
  | VString s => Some (quote s)
  | VArray xs =>
      Some ("[" ++ intercalate ","
        ((fix elements (l : list value) : list string :=
            match l with
            | [] => []
            | x :: l' =>
                match JSON_stringify x with
                | Some t => t :: elements l'
                | None => "null" :: elements l'
                end
            end) xs) ++ "]")
  | VObject fields =>
      Some ("{" ++ intercalate ","
        ((fix members (l : list (string * value)) : list string :=
            match l with
            | [] => []
            | (k, x) :: l' =>
                match JSON_stringify x with
                | Some t => (quote k ++ ":" ++ t) :: members l'
                | None => members l'
                end
            end) fields) ++ "}")
  end.

End Stringify.

End Js.

Import Js.

(* ===================================================================== *)
(** * Regular expressions *)
(* ===================================================================== *)

Module RegExp.

Local Open Scope char_scope.

(** The fragment of the pattern language that the source uses: character
    classes, sequence, alternation and repetition.  Groups [(?: )] only
    bracket; the quantifiers are the derived forms below. *)
Inductive regex :=
| Void
| Eps
| Class (p : ascii -> bool)
| Seq (r1 r2 : regex)
| Alt (r1 r2 : regex)
| Star (r : regex).

Definition char (c : ascii) : regex := Class (Ascii.eqb c).

(** [r+], [r?] and [r{0,n}] *)
Definition plus (r : regex) : regex := Seq r (Star r).
Definition opt (r : regex) : regex := Alt r Eps.
Fixpoint upto (n : nat) (r : regex) : regex :=
  match n with
  | O => Eps
  | S n' => opt (Seq r (upto n' r))
  end.

Fixpoint nullable (r : regex) : bool :=
  match r with
  | Void => false
  | Eps => true
  | Class _ => false
  | Seq r1 r2 => nullable r1 && nullable r2
  | Alt r1 r2 => nullable r1 || nullable r2
  | Star _ => true
  end.

Definition seq' (r1 r2 : regex) : regex :=
  match r1, r2 with
  | Void, _ | _, Void => Void
  | Eps, _ => r2
  | _, _ => Seq r1 r2
  end.

Definition alt' (r1 r2 : regex) : regex :=
  match r1, r2 with
  | Void, _ => r2
  | _, Void => r1
  | _, _ => Alt r1 r2
  end.

(** The residual of [r] after reading [c]. *)
Fixpoint deriv (c : ascii) (r : regex) : regex :=
  match r with
  | Void | Eps => Void
  | Class p => if p c then Eps else Void
  | Seq r1 r2 =>
      alt' (seq' (deriv c r1) r2) (if nullable r1 then deriv c r2 else Void)
  | Alt r1 r2 => alt' (deriv c r1) (deriv c r2)
  | Star r1 => seq' (deriv c r1) (Star r1)
  end.

Fixpoint residual (r : regex) (s : string) : regex :=
  match s with
  | EmptyString => r
  | String c s' => residual (deriv c r) s'
  end.

(** [/^r$/.test(s)]: without the [m] flag the anchors are the two ends of
    the input, so the whole of [s] has to match [r]. *)
Definition test_anchored (r : regex) (s : string) : bool :=
  nullable (residual r s).

(** What it means for a whole string to match, independently of how
    [test_anchored] computes it. *)
Inductive matches : regex -> string -> Prop :=
| m_eps : matches Eps EmptyString
| m_class p c : p c = true -> matches (Class p) (String c EmptyString)
| m_seq r1 r2 s1 s2 :
    matches r1 s1 -> matches r2 s2 -> matches (Seq r1 r2) (s1 ++ s2)
| m_alt_l r1 r2 s : matches r1 s -> matches (Alt r1 r2) s
| m_alt_r r1 r2 s : matches r2 s -> matches (Alt r1 r2) s
| m_star_nil r : matches (Star r) EmptyString
| m_star_app r s1 s2 :
    matches r s1 -> matches (Star r) s2 -> matches (Star r) (s1 ++ s2).

Definition in_range (lo hi c : ascii) : bool :=
  (N_of_ascii lo <=? N_of_ascii c)%N && (N_of_ascii c <=? N_of_ascii hi)%N.

Definition one_of (set : string) (c : ascii) : bool :=
  existsb (Ascii.eqb c) (list_ascii_of_string set).

End RegExp.

(* ===================================================================== *)
(** * Asynchronous operations *)
(* ===================================================================== *)

(** What an operation does to the outside, in order: a call of [fetch], a
    read of a response body, a line on the console. *)
Inductive event :=
| Fetched (req : request)
| ReadJson
| ReadText
| ConsoleError (label : string) (e : js_error).

(** An [async] function that has run to settlement: what it did and how
    it settled. *)
Definition async (A : Type) : Type := (list event * completion A)%type.

Definition resolve {A} (a : A) : async A := ([], Return a).
Definition reject {A} (e : js_error) : async A := ([], Throw e).
Definition emit (ev : event) : async unit := ([ev], Return tt).
Definition lift {A} (c : completion A) : async A := ([], c).

Definition await {A B} (m : async A) (k : A -> async B) : async B :=
  match m with
  | (t, Return a) => let (t', c) := k a in (t ++ t', c)
  | (t, Throw e) => (t, Throw e)
  end.

(** [try { m } catch (error) { handler(error) }] *)
Definition try_catch {A} (m : async A) (handler : js_error -> async A) : async A :=
  match m with
  | (t, Throw e) => let (t', c) := handler e in (t ++ t', c)
  | settled => settled
  end.

(** [throw new C(...)]: what is thrown is the object that the
    constructor builds, or what evaluating the call throws. *)
Definition throw_new {A} (constructed : completion js_error) : async A :=
  match constructed with
  | Return e | Throw e => reject e
  end.

Definition trace {A} (m : async A) : list event := fst m.
Definition outcome {A} (m : async A) : completion A := snd m.

Declare Scope async_scope.
Delimit Scope async_scope with async.
Notation "x <- m ;; k" := (await m (fun x => k))
  (at level 61, m at next level, right associativity) : async_scope.
Notation "m ;;; k" := (await m (fun _ => k))
  (at level 61, right associativity) : async_scope.

Declare Scope completion_scope.
Delimit Scope completion_scope with completion.
Notation "x <~ c ;; k" := (cbind c (fun x => k))
  (at level 61, c at next level, right associativity) : completion_scope.

(** Comparisons of a value with a numeric literal: what the comparison
    answers when the conversion of the value to a number returns. *)
Section Compare.
Context {host : Host}.

Definition lt_lit (a : value) (n : Z) : bool :=
  number_lt (ToNumber a) (Finite (inject_Z n)).
Definition gt_lit (a : value) (n : Z) : bool :=
  number_lt (Finite (inject_Z n)) (ToNumber a).
Definition le_lit (a : value) (n : Z) : bool :=
  number_le (ToNumber a) (Finite (inject_Z n)).

(** A comparison as it runs: it converts [a] to a number and answers,
    or throws where the conversion does. *)
Definition compare (a : value) (answer : bool) : completion bool :=
  if convertible a then Return answer else Throw conversion_TypeError.

End Compare.

(* ===================================================================== *)
(** * js/api.js *)
(* ===================================================================== *)

Module API_CONFIG.
Local Open Scope string_scope.
Definition BASE_URL : string := "https://usuarios-mvgv.onrender.com/api/usuarios".
Definition HEADERS : list (string * string) := [("Content-Type", "application/json")].
Definition TIMEOUT : Z := 10000.
Definition DEBUG_MODE : bool := true.
End API_CONFIG.

Module Logger.
(** [Logger.error(label, e)] *)
Definition error (label : string) (e : js_error) : async unit :=
  if API_CONFIG.DEBUG_MODE then emit (ConsoleError label e) else resolve tt.
End Logger.

Section ApiJs.
Context {host : Host}.
Local Open Scope string_scope.
Local Open Scope Z_scope.

(** [new ApiError(message, status, details = null)]; [super(message)]
    converts the message to a string, which can throw, and stores none
    for [undefined]. *)
Definition new_ApiError (message : value) (status : Z) (details : value)
  : completion js_error :=
  (text <~ match message with
           | VUndefined => Return EmptyString
           | _ => ToString_completion message
           end ;;
   Return (ApiError text status (match details with VUndefined => VNull | _ => details end))
  )%completion.

(** [detalles.join(', ')]: only an array has a [join] to call, and
    [join] converts the elements to strings. *)
Definition call_join (detalles : value) (sep : string) : completion value :=
  match detalles with
  | VArray xs =>
      if convertible detalles then Return (VString (join sep xs))
      else Throw conversion_TypeError
  | VUndefined | VNull =>
      Throw (new_TypeError "Cannot read properties of undefined (reading 'join')")
  | _ => Throw (new_TypeError "data.detalles.join is not a function")
  end.

Definition is_json (contentType : option string) : bool :=
  match contentType with
  | Some ct => ToBoolean (VString ct) && includes "application/json" ct
  | None => false
  end.

Definition handleResponse (response : response) : async value :=
  (if resp_status response =? 204 then resolve (VObject [("success", VBool true)])
   else
     data <- (if is_json (resp_content_type response)
              then emit ReadJson ;;; lift (resp_json response)
              else emit ReadText ;;; resolve (VString (resp_text response))) ;;
     if negb (resp_ok response) then
       errorMessage <- lift (detalles <~ get data "detalles" ;;
                             if ToBoolean detalles then call_join detalles ", "
                             else (error <~ get data "error" ;;
                                   Return (if ToBoolean error then error
                                           else VString "Error desconocido")))%completion ;;
       throw_new (new_ApiError errorMessage (resp_status response) data)
     else resolve data)%async.

(** The [catch] block of [fetchWithTimeout]. *)
Definition fetchWithTimeout_catch (error : js_error) : async response :=
  if String.eqb (error_name error) "AbortError"
  then throw_new (new_ApiError (VString "La petición excedió el tiempo de espera") 408 VUndefined)
  else reject error.

(** What [fetch] rejects with once its signal is aborted. *)
Definition abort_error : js_error :=
  Native DOMException "AbortError" "signal is aborted without reason".

(** [fetchWithTimeout(url, options)], with [req] for the pair of its
    arguments.  The timer aborts the request [TIMEOUT] milliseconds after
    the call unless [fetch] has settled before and the timer was cleared. *)
Definition fetchWithTimeout (req : request) : async response :=
  (emit (Fetched req) ;;;
   match fetch req with
   | Settles ms settled =>
       if ms <? API_CONFIG.TIMEOUT then
         match settled with
         | Return response => resolve response
         | Throw error => fetchWithTimeout_catch error
         end
       else fetchWithTimeout_catch abort_error
   | Pending => fetchWithTimeout_catch abort_error
   end)%async.

End ApiJs.

Module API.
Section Methods.
Context {host : Host}.
Local Open Scope string_scope.
Local Open Scope Z_scope.

Import RegExp.

Definition alnum (c : ascii) : bool :=
  in_range "a" "z" c || in_range "A" "Z" c || in_range "0" "9" c.

(** [[a-zA-Z0-9.!#$%&'*+\/=?^_`{|}~-]] *)
Definition local_char (c : ascii) : bool :=
  alnum c || one_of ".!#$%&'*+/=?^_`{|}~-" c.

(** [[a-zA-Z0-9-]] *)
Definition label_char (c : ascii) : bool :=
  alnum c || Ascii.eqb c "-".

(** [[a-zA-Z0-9](?:[a-zA-Z0-9-]{0,61}[a-zA-Z0-9])?] *)
Definition label : regex :=
  Seq (Class alnum) (opt (Seq (upto 61 (Class label_char)) (Class alnum))).

(** The pattern of [esEmailValido], between [^] and [$]. *)
Definition email_pattern : regex :=
  Seq (plus (Class local_char))
      (Seq (char "@") (Seq label (Star (Seq (char ".") label)))).

(** The checks of [esEmailValido] that follow the pattern test; there
    [email] has answered [split], so it is a string. *)
Definition additional_checks (email : string) : bool :=
  match split "@" email with
  | [localPart; domain] =>
      if (64 <? String.length localPart)%nat then false
      else
        let domainParts := split "." domain in
        if (List.length domainParts <? 2)%nat then false
        else
          let tld := last domainParts EmptyString in
          if (String.length tld <? 2)%nat then false
          else if includes ".." email then false
          else if startsWith "." localPart || endsWith "." localPart then false
          else true
  | _ => false
  end.

Definition esEmailValido (email : value) : completion bool :=
  (if negb (ToBoolean email) then Return false
   else
     len <~ get email "length" ;;
     largo <~ compare len (gt_lit len 254) ;;
     if largo : bool then Return false
     else
       texto <~ ToString_completion email ;;
       if negb (test_anchored email_pattern texto) then Return false
       else
         match email with
         | VString s => Return (additional_checks s)
         | _ => Throw (new_TypeError "email.split is not a function")
         end)%completion.

(** [nombre.trim()]: only a string has a [trim] to call. *)
Definition call_trim (nombre : value) : completion value :=
  match nombre with
  | VString s => Return (VString (trim s))
  | VUndefined | VNull =>
      Throw (new_TypeError "Cannot read properties of undefined (reading 'trim')")
  | _ => Throw (new_TypeError "usuario.nombre.trim is not a function")
  end.

Definition strict_equal_null (v : value) : bool :=
  match v with
  | VNull => true
  | _ => false
  end.

Definition validarDatosUsuario (usuario : value) (esEdicion : bool) : completion unit :=
  (nombre <~ get usuario "nombre" ;;
   nombre_corto <~ (if negb (ToBoolean nombre) then Return true
                    else (recortado <~ call_trim nombre ;;
                          len <~ get recortado "length" ;;
                          compare len (lt_lit len 2))) ;;
   if nombre_corto : bool
   then Throw (new_Error "El nombre debe tener al menos 2 caracteres")
   else
     email <~ get usuario "email" ;;
     email_invalido <~ (if negb (ToBoolean email) then Return true
                        else (valido <~ esEmailValido email ;; Return (negb valido))) ;;
     if email_invalido : bool
     then Throw (new_Error "El email no es válido")
     else
       password <~ get usuario "password" ;;
       if esEdicion then
         password_corto <~ (if negb (strict_equal_null password)
                            then (len <~ get password "length" ;; compare len (lt_lit len 6))
                            else Return false) ;;
         if password_corto : bool
         then Throw (new_Error "La contraseña debe tener al menos 6 caracteres (o déjela vacía para no cambiarla)")
         else Return tt
       else
         password_corto <~ (if negb (ToBoolean password) then Return true
                            else (len <~ get password "length" ;; compare len (lt_lit len 6))) ;;
         if password_corto : bool
         then Throw (new_Error "La contraseña es obligatoria y debe tener al menos 6 caracteres")
         else Return tt)%completion.

(** The guard that opens each operation on a single record:
    [!Number.isInteger(id) || id <= 0]. *)
Definition id_invalido (id : value) : bool :=
  negb (Number_isInteger id) || le_lit id 0.

(** [new TypeError(`... Recibido: ${typeof id} (${id})`)]: the template
    literal converts [id] to a string, which can throw. *)
Definition id_TypeError (id : value) : completion js_error :=
  (text <~ ToString_completion id ;;
   Return (new_TypeError ("El ID debe ser un número entero positivo. Recibido: "
                          ++ typeof id ++ " (" ++ text ++ ")")))%completion.

Definition url_of (id : value) : string :=
  API_CONFIG.BASE_URL ++ "/" ++ ToString id.

Definition log_and_rethrow {A} (label : string) (error : js_error) : async A :=
  (Logger.error label error ;;; reject error)%async.

Definition obtenerUsuarios : async value :=
  try_catch
    (response <- fetchWithTimeout
                   (mk_request API_CONFIG.BASE_URL "GET" API_CONFIG.HEADERS None) ;;
     handleResponse response)%async
    (log_and_rethrow "Error al obtener usuarios:").

Definition obtenerUsuarioPorId (id : value) : async value :=
  if id_invalido id then throw_new (id_TypeError id)
  else
    try_catch
      (response <- fetchWithTimeout
                     (mk_request (url_of id) "GET" API_CONFIG.HEADERS None) ;;
       handleResponse response)%async
      (log_and_rethrow ("Error al obtener usuario " ++ ToString id ++ ":")).

Definition crearUsuario (usuario : value) : async value :=
  try_catch
    (lift (validarDatosUsuario usuario false) ;;;
     response <- fetchWithTimeout
                   (mk_request API_CONFIG.BASE_URL "POST" API_CONFIG.HEADERS
                               (JSON_stringify usuario)) ;;
     handleResponse response)%async
    (log_and_rethrow "Error al crear usuario:").

Definition actualizarUsuario (id usuario : value) : async value :=
  if id_invalido id then throw_new (id_TypeError id)
  else
    try_catch
      (lift (validarDatosUsuario usuario true) ;;;
       response <- fetchWithTimeout
                     (mk_request (url_of id) "PUT" API_CONFIG.HEADERS
                                 (JSON_stringify usuario)) ;;
       handleResponse response)%async
      (log_and_rethrow ("Error al actualizar usuario " ++ ToString id ++ ":")).

Definition eliminarUsuario (id : value) : async value :=
  if id_invalido id then throw_new (id_TypeError id)
  else
    try_catch
      (response <- fetchWithTimeout
                     (mk_request (url_of id) "DELETE" API_CONFIG.HEADERS None) ;;
       handleResponse response)%async
      (log_and_rethrow ("Error al eliminar usuario " ++ ToString id ++ ":")).

Definition verificarConexion : async bool :=
  try_catch
    (response <- fetchWithTimeout
                   (mk_request API_CONFIG.BASE_URL "GET" API_CONFIG.HEADERS None) ;;
     resolve (resp_ok response))%async
    (fun error => Logger.error "Error de conexión con la API:" error ;;; resolve false)%async.

End Methods.
End API.

(* ===================================================================== *)
(** * js/ui.js *)
(* ===================================================================== *)

(** The [value] of the inputs of the form that [obtenerDatosFormulario]
    reads, as cached in [DOM]. *)
Record form := mk_form {
  nombre_value : string;
  email_value : string;
  password_value : string
}.

Module UI.
Section Methods.
Context {host : Host}.
Local Open Scope string_scope.

(** [div.textContent = texto]: the attribute is a nullable string, so
    [null] and [undefined] leave the element empty and every other value
    becomes a text node holding its string. *)
Definition set_textContent (texto : value) : string :=
  match texto with
  | VUndefined | VNull => EmptyString
  | _ => ToString texto
  end.

(** How the fragment serializer of the browser writes one character of a
    text node: it rewrites the ampersand, the no-break space and the two
    angle brackets, and copies every other character. *)
Definition serialize_text_char (c : ascii) : string :=
  match N_of_ascii c with
  | 38%N => "&amp;"
  | 160%N => "&nbsp;"
  | 60%N => "&lt;"
  | 62%N => "&gt;"
  | _ => String c EmptyString
  end.

(** [div.innerHTML] of an element whose only child is a text node. *)
Fixpoint innerHTML_of_text (data : string) : string :=
  match data with
  | EmptyString => EmptyString
  | String c rest => serialize_text_char c ++ innerHTML_of_text rest
  end.

(** The text that [escaparHTML(texto)] returns. *)
Definition escaparHTML (texto : value) : string :=
  innerHTML_of_text (set_textContent texto).

(** The call [escaparHTML(texto)]: assigning [texto] to [textContent]
    converts it to a string, and the call throws where the conversion
    does. *)
Definition call_escaparHTML (texto : value) : completion string :=
  if convertible texto then Return (escaparHTML texto) else Throw conversion_TypeError.

(** [passwordValue || null] *)
Definition or_null (passwordValue : string) : value :=
  if ToBoolean (VString passwordValue) then VString passwordValue else VNull.

Definition obtenerDatosFormulario (f : form) : value :=
  let passwordValue := trim (password_value f) in
  VObject [("nombre", VString (trim (nombre_value f)));
           ("email", VString (trim (email_value f)));
           ("password", or_null passwordValue)].

End Methods.
End UI.

(* ===================================================================== *)
(** * js/app.js *)
(* ===================================================================== *)

(** A call of [UI.mostrarAlerta(mensaje, tipo)]. *)
Inductive alert := MostrarAlerta (mensaje tipo : string).

Module App.
Local Open Scope string_scope.
Local Open Scope Z_scope.

(** [error instanceof ApiError] is the first branch of the match; the
    chain of tests on [status] is the [switch], whose default leaves
    [error.message] in place. *)
Definition manejarError (error : js_error) (mensajeGenerico : string) : alert :=
  let mensaje :=
    match error with
    | ApiError message status _ =>
        if status =? 400 then "Error de validación: " ++ message
        else if status =? 404 then "Usuario no encontrado"
        else if status =? 409 then message
        else if status =? 500 then "Error interno del servidor. Intente nuevamente."
        else message
    | Native _ _ message =>
        if ToBoolean (VString message) then message else mensajeGenerico
    end in
  MostrarAlerta mensaje "danger".

End App.

(* ===================================================================== *)
(** * A host for the examples *)
(* ===================================================================== *)

Module Examples.
Local Open Scope string_scope.

Fixpoint digits (fuel : nat) (n : N) (acc : string) : string :=
  match fuel with
  | O => acc
  | S fuel' =>
      let acc' := String (ascii_of_N (48 + n mod 10)) acc in
      if (n <? 10)%N then acc' else digits fuel' (n / 10) acc'
  end.

Definition decimal (z : Z) : string :=
  let body := digits (S (N.to_nat (N.log2 (Z.abs_N z)))) (Z.abs_N z) EmptyString in
  if (z <? 0)%Z then String "-" body else body.

(** Prints the integral numbers the examples use; answers every [fetch]
    with the given behaviour. *)
Definition host_with (behaviour : settlement) : Host := {|
  Number_toString n :=
    match n with
    | Finite q => decimal (Qnum q / Zpos (Qden q))
    | NaN => "NaN"
    | Infinity true => "-Infinity"
    | Infinity false => "Infinity"
    end;
  String_toNumber _ := NaN;
  fetch _ := behaviour
|}.

Definition dq : string := String dquote EmptyString.

(** The body [{"error": "not found"}]. *)
Definition not_found_body : value := VObject [("error", VString "not found")].

Definition json_response (status : Z) (body : value) : response :=
  mk_response status (Some "application/json") (Return body) EmptyString.

Definition usuario (nombre email : string) (password : value) : value :=
  VObject [("nombre", VString nombre); ("email", VString email); ("password", password)].

Definition juan (password : value) : value :=
  usuario "Juan" "juan@example.com" password.

(** The same record without a [password] member. *)
Definition juan_sin_password : value :=
  VObject [("nombre", VString "Juan"); ("email", VString "juan@example.com")].

(** An edit form whose password field holds two blanks. *)
Definition edit_form : form := mk_form " Juan " "juan@example.com" "  ".

(** A host whose [fetch] never settles. *)
Definition silent : Host := host_with Pending.

End Examples.

(* ===================================================================== *)
(** * Vocabulary of the specification *)
(* ===================================================================== *)

Module Spec.
Local Open Scope string_scope.

Fixpoint occurrences (c : ascii) (s : string) : nat :=
  match s with
  | EmptyString => 0
  | String a s' => (if Ascii.eqb a c then 1 else 0) + occurrences c s'
  end.

(** [t] is the final label of the domain [d]: the part after its last
    dot, or all of it when it has no dot. *)
Definition final_label (t d : string) : Prop :=
  occurrences "." t = 0%nat /\ (d = t \/ exists p, d = p ++ "." ++ t).

(** The defects of an address that the specification lists.  The local
    part and the domain are what stands before and after an [@]. *)
Inductive malformed (s : string) : Prop :=
| too_long :
    (254 < String.length s)%nat -> malformed s
| consecutive_dots a b :
    s = a ++ ".." ++ b -> malformed s
| not_exactly_one_at :
    occurrences "@" s <> 1%nat -> malformed s
| local_part_too_long l d :
    s = l ++ "@" ++ d -> (64 < String.length l)%nat -> malformed s
| local_part_starts_with_dot l d :
    s = ("." ++ l) ++ "@" ++ d -> malformed s
| local_part_ends_with_dot l d :
    s = (l ++ ".") ++ "@" ++ d -> malformed s
| short_tld l d t :
    s = l ++ "@" ++ d -> final_label t d -> (String.length t < 2)%nat -> malformed s.

(** An integer strictly greater than zero. *)
Definition positive_integer (v : value) : Prop :=
  exists q z, v = VNumber (Finite q) /\ (q == inject_Z z)%Q /\ (0 < z)%Z.

(** A record whose name and email checks pass: the name is a string of
    at least two characters once trimmed, the email is a string that
    [esEmailValido] accepts. *)
Definition valid_shaped {host : Host} (usuario : value) : Prop :=
  exists nombre email,
    get usuario "nombre" = Return (VString nombre) /\
    (2 <= String.length (trim nombre))%nat /\
    get usuario "email" = Return (VString email) /\
    API.esEmailValido (VString email) = Return true.

(** [data] is what [handleResponse] reads from the body of [r]: the
    parsed JSON under a JSON content type, the raw text otherwise. *)
Definition parsed_body (r : response) (data : value) : Prop :=
  if is_json (resp_content_type r)
  then resp_json r = Return data
  else data = VString (resp_text r).

(** The JSON text of a record whose password is [null]. *)
Definition body_with_null_password (nombre email : string) : string :=
  "{" ++ quote "nombre" ++ ":" ++ quote nombre ++ ","
      ++ quote "email" ++ ":" ++ quote email ++ ","
      ++ quote "password" ++ ":null}".

(** The operation threw a [TypeError] before doing anything else. *)
Definition rejects_id {A} (m : async A) : Prop :=
  exists e, instanceof_TypeError e = true /\ m = ([], Throw e).

End Spec.

(* ===================================================================== *)
(** * Shapes of addresses and traces *)
(* ===================================================================== *)

Module Shape.
Local Open Scope string_scope.

Fixpoint all_chars (p : ascii -> bool) (s : string) : bool :=
  match s with
  | EmptyString => true
  | String c s' => p c && all_chars p s'
  end.

(** A domain label: 1 to 63 letters, digits and hyphens, no hyphen at
    either end. *)
Definition label_ok (lab : string) : Prop :=
  (1 <= String.length lab <= 63)%nat /\
  all_chars API.label_char lab = true /\
  startsWith "-" lab = false /\
  endsWith "-" lab = false.

(** The addresses that pass: a local part and a domain around one [@],
    at most 254 characters in all; a local part of 1 to 64 allowed
    characters with no dot at either end; no two dots in a row; a domain
    of at least two labels, the last one of at least two characters. *)
Definition address_ok (s : string) : Prop :=
  exists l d,
    s = l ++ "@" ++ d /\
    (String.length s <= 254)%nat /\
    (1 <= String.length l <= 64)%nat /\
    all_chars API.local_char l = true /\
    startsWith "." l = false /\
    endsWith "." l = false /\
    includes ".." s = false /\
    (2 <= List.length (split "." d))%nat /\
    Forall label_ok (split "." d) /\
    (2 <= String.length (last (split "." d) EmptyString))%nat.

(** The requests of a trace, in order. *)
Fixpoint requests (t : list event) : list request :=
  match t with
  | [] => []
  | Fetched req :: t' => req :: requests t'
  | _ :: t' => requests t'
  end.

(** The errors written to the console along a trace, in order. *)
Fixpoint logged (t : list event) : list js_error :=
  match t with
  | [] => []
  | ConsoleError _ e :: t' => e :: logged t'
  | _ :: t' => logged t'
  end.

End Shape.

(* ===================================================================== *)
(** * Reporting of failures *)
(* ===================================================================== *)

Module Report.


(** The members [detalles] and [error] of a body that [handleResponse]
    can turn into a message: an array of details whose elements convert
    to strings, or no details and an error that converts to a string. *)
Definition usable_details (detalles error : value) : Prop :=
  (exists xs, detalles = VArray xs /\ convertible detalles = true) \/
  (ToBoolean detalles = false /\ convertible error = true).

End Report.

(* ===================================================================== *)
(** * Text and markup *)
(* ===================================================================== *)

Module Markup.

(** The characters that the serializer of the browser rewrites. *)
Definition rewritten (c : ascii) : bool :=
  match N_of_ascii c with
  | 38%N | 60%N | 62%N | 160%N => true
  | _ => false
  end.

Definition plain (c : ascii) : bool := negb (rewritten c).

(** A string that is empty or starts with something else than white
    space, and the same for its end. *)
Definition starts_clean (s : string) : Prop :=
  match s with
  | EmptyString => True
  | String c _ => is_whitespace c = false
  end.

End Markup.

(* ===================================================================== *)
(** * js/app.js: debounce *)
(* ===================================================================== *)

(** [debounce(func, wait)] against the timers of the host.  A timer is a
    handle, the time from which the host may run it and the arguments
    that its callback [later] has captured.  The state is the clock, the
    handle that [setTimeout] gives out next, the timers that are set, the
    variable [timeout] of the closure, and the history of what has
    happened: the calls of the debounced function and the applications of
    [func], newest first. *)
Module Timers.
Local Open Scope Z_scope.

(** The conversion of an integer to a signed integer of 32 bits. *)
Definition ToInt32 (z : Z) : Z := (z + 2 ^ 31) mod 2 ^ 32 - 2 ^ 31.

Section Debounce.
Variable A : Type.
Variable wait : Z.

Record timer := mk_timer { handle : nat; due : Z; captured : A }.

Inductive entry :=
| Invoked (at_ms : Z) (args : A)
| Applied (at_ms : Z) (args : A).

Record state := mk_state {
  now : Z;
  next_handle : nat;
  pending : list timer;
  timeout : option nat;
  history : list entry
}.

Definition initial : state := mk_state 0 0 [] None [].

(** [setTimeout] takes its delay as a signed integer of 32 bits, and a
    negative one for zero: a [wait] of 2^31 or more wraps around. *)
Definition delay : Z := Z.max 0 (ToInt32 wait).

(** [clearTimeout(timeout)]; nothing happens for [undefined] or for a
    handle that is no longer set. *)
Definition clearTimeout (h : option nat) (timers : list timer) : list timer :=
  match h with
  | None => timers
  | Some n => filter (fun tm => negb (Nat.eqb (handle tm) n)) timers
  end.

(** A call [executedFunction(...args)]. *)
Definition executedFunction (args : A) (s : state) : state :=
  let cleared := clearTimeout (timeout s) (pending s) in
  mk_state (now s) (S (next_handle s))
           (mk_timer (next_handle s) (now s + delay) args :: cleared)
           (Some (next_handle s))
           (Invoked (now s) args :: history s).

(** The host runs a timer: it takes it off its list and calls [later],
    which clears [timeout] and applies [func]. *)
Definition later (tm : timer) (s : state) : state :=
  let others := clearTimeout (Some (handle tm)) (pending s) in
  mk_state (now s) (next_handle s)
           (clearTimeout (timeout s) others)
           (timeout s)
           (Applied (now s) (captured tm) :: history s).

Definition advance (t : Z) (s : state) : state :=
  mk_state t (next_handle s) (pending s) (timeout s) (history s).

(** What can happen next: time passes, the debounced function is
    called, or the host runs a timer that is set and due. *)
Inductive step : state -> state -> Prop :=
| step_time s t : now s <= t -> step s (advance t s)
| step_call s args : step s (executedFunction args s)
| step_timer s tm : In tm (pending s) -> due tm <= now s -> step s (later tm s).

Inductive reachable : state -> Prop :=
| reach_initial : reachable initial
| reach_step s s' : reachable s -> step s s' -> reachable s'.

(** Every application of [func] stands directly on the call that set
    its timer: it has the arguments of that call, it comes at least the
    delay after it, and nothing happened in between. *)
Fixpoint quiet (h : list entry) : Prop :=
  match h with
  | [] => True
  | Invoked _ _ :: h' => quiet h'
  | Applied t args :: h' =>
      match h' with
      | Invoked t0 args0 :: _ => args0 = args /\ t0 + delay <= t
      | _ => False
      end /\ quiet h'
  end.

(** At most one timer is set; it is the one [timeout] names and it
    belongs to the newest entry of the history, a call. *)
Definition single_timer (s : state) : Prop :=
  match pending s with
  | [] => True
  | [tm] =>
      timeout s = Some (handle tm) /\
      exists h', history s = Invoked (due tm - delay) (captured tm) :: h'
  | _ => False
  end.

Fixpoint applications (h : list entry) : nat :=
  match h with
  | [] => 0
  | Applied _ _ :: h' => S (applications h')
  | Invoked _ _ :: h' => applications h'
  end.

Fixpoint invocations (h : list entry) : nat :=
  match h with
  | [] => 0
  | Invoked _ _ :: h' => S (invocations h')
  | Applied _ _ :: h' => invocations h'
  end.

(** While the newest entry is a call, its timer is set: due the delay
    after the call and holding its arguments. *)
Definition armed (s : state) : Prop :=
  match history s with
  | Invoked t args :: _ => exists h, pending s = [mk_timer h (t + delay) args]
  | _ => True
  end.

(** The run of the examples: a call, another one 100 ms later, and the
    timer of the second run 400 ms after the start. *)
Definition example_run (first second : A) : state :=
  let s1 := executedFunction first initial in
  let s2 := executedFunction second (advance 100 s1) in
  let s3 := advance 400 s2 in
  later (mk_timer 1 (100 + delay) second) s3.

End Debounce.

Arguments armed {A}.
Arguments example_run {A}.
Arguments mk_timer {A}.
Arguments handle {A}.
Arguments due {A}.
Arguments captured {A}.
Arguments Invoked {A}.
Arguments Applied {A}.
Arguments mk_state {A}.
Arguments now {A}.
Arguments next_handle {A}.
Arguments pending {A}.
Arguments timeout {A}.
Arguments history {A}.
Arguments initial {A}.
Arguments clearTimeout {A}.
Arguments executedFunction {A}.
Arguments later {A}.
Arguments advance {A}.
Arguments step {A}.
Arguments reachable {A}.
Arguments quiet {A}.
Arguments single_timer {A}.
Arguments applications {A}.
Arguments invocations {A}.

End Timers.

(* ===================================================================== *)
(** * js/ui.js: rendering of the list *)
(* ===================================================================== *)

(** A computation that may throw and that records what it does, over
    any kind of record. *)
Module Eff.

Definition eff (E A : Type) : Type := (list E * completion A)%type.

Definition ret {E A} (a : A) : eff E A := ([], Return a).
Definition throw {E A} (e : js_error) : eff E A := ([], Throw e).
Definition emit {E} (ev : E) : eff E unit := ([ev], Return tt).
Definition of_completion {E A} (c : completion A) : eff E A := ([], c).

Definition bind {E A B} (m : eff E A) (k : A -> eff E B) : eff E B :=
  match m with
  | (t, Return a) => let (t', c) := k a in (t ++ t', c)
  | (t, Throw e) => (t, Throw e)
  end.

End Eff.

Declare Scope eff_scope.
Delimit Scope eff_scope with eff.
Notation "x <- m ;; k" := (Eff.bind m (fun x => k))
  (at level 61, m at next level, right associativity) : eff_scope.
Notation "m ;;; k" := (Eff.bind m (fun _ => k))
  (at level 61, right associativity) : eff_scope.

Module Render.

Inductive elemento := tablaUsuarios | emptyState | loadingSpinner | totalUsuarios.

(** The row that [crearFilaUsuario] builds, by the values that it puts
    into its fixed markup: the attribute [data-usuario-id] of the row,
    the text of the three cells, and the attributes [data-id],
    [data-nombre] and [data-email] that the two buttons share. *)
Record fila := mk_fila {
  data_usuario_id : string;
  celda_id : string;
  celda_nombre : string;
  celda_email : string;
  boton_data_id : string;
  boton_data_nombre : string;
  boton_data_email : string
}.

(** What the rendering functions do to the page. *)
Inductive dom_op :=
| VaciarFilas
| AgregarFila (f : fila)
| AgregarClase (el : elemento) (clase : string)
| QuitarClase (el : elemento) (clase : string)
| Opacidad (el : elemento) (valor : string)
| Texto (el : elemento) (texto : string).

(** [v === n] for a numeric literal [n]. *)
Definition strict_equal_lit (v : value) (n : Z) : bool :=
  match v with
  | VNumber (Finite q) => Qeq_bool q (inject_Z n)
  | _ => false
  end.

Section Methods.
Context {host : Host}.
Local Open Scope string_scope.

Definition mostrarCargando : Eff.eff dom_op unit :=
  (Eff.emit (QuitarClase loadingSpinner "d-none") ;;;
   Eff.emit (Opacidad tablaUsuarios "0.5"))%eff.

Definition ocultarCargando : Eff.eff dom_op unit :=
  (Eff.emit (AgregarClase loadingSpinner "d-none") ;;;
   Eff.emit (Opacidad tablaUsuarios "1"))%eff.

Definition mostrarEstadoVacio : Eff.eff dom_op unit :=
  (Eff.emit (QuitarClase emptyState "d-none") ;;;
   Eff.emit (AgregarClase tablaUsuarios "d-none"))%eff.

Definition ocultarEstadoVacio : Eff.eff dom_op unit :=
  (Eff.emit (AgregarClase emptyState "d-none") ;;;
   Eff.emit (QuitarClase tablaUsuarios "d-none"))%eff.

Definition actualizarContador (total : value) : Eff.eff dom_op unit :=
  Eff.emit (Texto totalUsuarios
              ("Total: " ++ ToString total ++ " usuario"
               ++ (if negb (strict_equal_lit total 1) then "s" else EmptyString))).

(** [crearFilaUsuario(usuario)].  Reading [usuario.id] is the first
    thing it does; [setAttribute] and the template literal then convert
    the id, and the calls of [escaparHTML] the three members, to text.
    The values that the buttons repeat have been converted by then. *)
Definition crearFilaUsuario (usuario : value) : completion fila :=
  (id <~ get usuario "id" ;;
   data_usuario_id <~ ToString_completion id ;;
   celda_id <~ UI.call_escaparHTML id ;;
   nombre <~ get usuario "nombre" ;;
   celda_nombre <~ UI.call_escaparHTML nombre ;;
   email <~ get usuario "email" ;;
   celda_email <~ UI.call_escaparHTML email ;;
   Return (mk_fila data_usuario_id celda_id celda_nombre celda_email
                   data_usuario_id celda_nombre celda_email))%completion.

(** The body of [usuarios.forEach]. *)
Fixpoint agregar_filas (usuarios : list value) : Eff.eff dom_op unit :=
  match usuarios with
  | [] => Eff.ret tt
  | usuario :: resto =>
      (fila <- Eff.of_completion (crearFilaUsuario usuario) ;;
       Eff.emit (AgregarFila fila) ;;;
       agregar_filas resto)%eff
  end.

(** [usuarios.forEach(...)]: only an array has a [forEach] to call. *)
Definition call_forEach (usuarios : value) : Eff.eff dom_op unit :=
  match usuarios with
  | VArray xs => agregar_filas xs
  | _ => Eff.throw (new_TypeError "usuarios.forEach is not a function")
  end.

Definition renderizarUsuarios (usuarios : value) : Eff.eff dom_op unit :=
  (Eff.emit VaciarFilas ;;;
   vacio <- Eff.of_completion
              (if negb (ToBoolean usuarios) then Return true
               else (len <~ get usuarios "length" ;;
                     Return (strict_equal_lit len 0))%completion) ;;
   if vacio : bool then
     mostrarEstadoVacio ;;; actualizarContador (of_Z 0)
   else
     ocultarEstadoVacio ;;;
     call_forEach usuarios ;;;
     len <- Eff.of_completion (get usuarios "length") ;;
     actualizarContador len)%eff.

End Methods.

(** The rows that a sequence of operations leaves in the table, and the
    texts it writes to the counter. *)
Fixpoint filas (ops : list dom_op) (antes : list fila) : list fila :=
  match ops with
  | [] => antes
  | VaciarFilas :: ops' => filas ops' []
  | AgregarFila f :: ops' => filas ops' (antes ++ [f])
  | _ :: ops' => filas ops' antes
  end.

Fixpoint contador (ops : list dom_op) (antes : string) : string :=
  match ops with
  | [] => antes
  | Texto totalUsuarios texto :: ops' => contador ops' texto
  | _ :: ops' => contador ops' antes
  end.

(** Whether the empty state is shown after the operations. *)
Fixpoint vacio_visible (ops : list dom_op) (antes : bool) : bool :=
  match ops with
  | [] => antes
  | QuitarClase emptyState _ :: ops' => vacio_visible ops' true
  | AgregarClase emptyState _ :: ops' => vacio_visible ops' false
  | _ :: ops' => vacio_visible ops' antes
  end.

(** [usuarios.length] is the number zero. *)
Definition length_is_zero (usuarios : value) : Prop :=
  exists q, get usuarios "length"%string = Return (VNumber (Finite q)) /\ (q == 0)%Q.

(** A record that [crearFilaUsuario] can read and write out: anything
    but [null] and [undefined], with an id, a name and an email that
    convert to text. *)
Definition legible (usuario : value) : bool :=
  match get usuario "id", get usuario "nombre", get usuario "email" with
  | Return id, Return nombre, Return email =>
      convertible id && convertible nombre && convertible email
  | _, _, _ => false
  end.

End Render.

(* ===================================================================== *)
(** * js/app.js: the controller *)
(* ===================================================================== *)

(** [parseInt] of the host, on the string form of its argument. *)
Class Globals := {
  parseInt : string -> number
}.

Inductive boton := btnGuardarUsuario | btnConfirmarEliminar.

(** What a method of [App] does, in order: what the client does for it,
    a line of [Logger.log], and the calls of the view. *)
Inductive action :=
| Api (ev : event)
| ConsoleLog (mensaje : string)
| Alerta (a : alert)
| MostrarCargando
| OcultarCargando
| Renderizar (usuarios : value)
| DeshabilitarBoton (b : boton) (textoOriginal : string)
| HabilitarBoton (b : boton)
| CerrarModalUsuario
| CerrarModalConfirmar
| MostrarModalNuevoUsuario
| MostrarModalEditarUsuario (usuario : value)
| MostrarModalConfirmarEliminar (usuario : value)
| MarcarValidado
| ConfigurarEventListeners
| InicializarTogglePassword.

(** What a handler reads from the page when it starts: the fields of the
    form, the hidden id, the answer of [checkValidity()] and the markup
    of the two buttons. *)
Record page := mk_page {
  formulario : form;
  usuarioId_value : string;
  checkValidity : bool;
  btnGuardarUsuario_innerHTML : string;
  btnConfirmarEliminar_innerHTML : string
}.

(** The three [data-] attributes of a button of the table, as
    [getAttribute] gives them: [None] for [null]. *)
Record fila_boton := mk_fila_boton {
  data_id : option string;
  data_nombre : option string;
  data_email : option string
}.

(** The two fields of an [App]. *)
Record app_fields := mk_app {
  usuarioEnEdicion : value;
  usuarioAEliminar : value
}.

(** A method of [App] that has run to its end from a state of the
    object: what it did, the state it leaves, how it settled. *)
Module Proc.

Definition proc (A : Type) : Type := app_fields -> (list action * app_fields * completion A).

Definition ret {A} (a : A) : proc A := fun s => ([], s, Return a).
Definition act (a : action) : proc unit := fun s => ([a], s, Return tt).
Definition of_completion {A} (c : completion A) : proc A := fun s => ([], s, c).
Definition of_async {A} (m : async A) : proc A := fun s => (map Api (fst m), s, snd m).
Definition this : proc app_fields := fun s => ([], s, Return s).
Definition assign (s' : app_fields) : proc unit := fun _ => ([], s', Return tt).

Definition bind {A B} (m : proc A) (k : A -> proc B) : proc B :=
  fun s =>
    match m s with
    | (t, s1, Return a) => let '(t', s2, c) := k a s1 in (t ++ t', s2, c)
    | (t, s1, Throw e) => (t, s1, Throw e)
    end.

(** [try { m } catch (error) { handler(error) }] *)
Definition catch {A} (m : proc A) (handler : js_error -> proc A) : proc A :=
  fun s =>
    match m s with
    | (t, s1, Throw e) => let '(t', s2, c) := handler e s1 in (t ++ t', s2, c)
    | settled => settled
    end.

(** [try { m } finally { f }]: [f] runs however [m] settles, and the
    outcome is that of [m] unless [f] throws. *)
Definition finally {A} (m : proc A) (f : proc unit) : proc A :=
  fun s =>
    let '(t, s1, c) := m s in
    let '(t', s2, c') := f s1 in
    (t ++ t', s2, match c' with Throw e => Throw e | Return _ => c end).

End Proc.

Declare Scope proc_scope.
Delimit Scope proc_scope with proc.
Notation "x <- m ;; k" := (Proc.bind m (fun x => k))
  (at level 61, m at next level, right associativity) : proc_scope.
Notation "m ;;; k" := (Proc.bind m (fun _ => k))
  (at level 61, right associativity) : proc_scope.

Module Controller.
Section Methods.
Context {host : Host} {globals : Globals}.
Local Open Scope string_scope.

(** [Logger.log(mensaje)] *)
Definition Logger_log (mensaje : string) : Proc.proc unit :=
  if API_CONFIG.DEBUG_MODE then Proc.act (ConsoleLog mensaje) else Proc.ret tt.

(** [UI.validarFormulario()] *)
Definition validarFormulario (p : page) : Proc.proc bool :=
  if negb (checkValidity p)
  then (Proc.act MarcarValidado ;;; Proc.ret false)%proc
  else Proc.ret true.

(** [UI.obtenerIdUsuario()] *)
Definition obtenerIdUsuario (p : page) : value :=
  let id := usuarioId_value p in
  if ToBoolean (VString id) then VNumber (parseInt id) else VNull.

(** The value of an attribute, and the string that [parseInt] makes of
    it. *)
Definition attribute (a : option string) : value :=
  match a with
  | Some s => VString s
  | None => VNull
  end.

Definition attribute_text (a : option string) : string :=
  match a with
  | Some s => s
  | None => "null"
  end.

(** The record [{ id, nombre, email }] that the handlers of the table
    read from a button. *)
Definition usuario_de_boton (b : fila_boton) : value :=
  VObject [("id", VNumber (parseInt (attribute_text (data_id b))));
           ("nombre", attribute (data_nombre b));
           ("email", attribute (data_email b))].

(** The call of [UI.renderizarUsuarios]: the call is recorded and it
    settles as the rendering does. *)
Definition renderizar (usuarios : value) : Proc.proc unit :=
  (Proc.act (Renderizar usuarios) ;;;
   Proc.of_completion (snd (Render.renderizarUsuarios usuarios)))%proc.

Definition manejarError (error : js_error) (mensajeGenerico : string) : Proc.proc unit :=
  Proc.act (Alerta (App.manejarError error mensajeGenerico)).

Definition mostrarAlerta (mensaje tipo : string) : Proc.proc unit :=
  Proc.act (Alerta (MostrarAlerta mensaje tipo)).

Definition verificarConexion : Proc.proc unit :=
  Proc.catch
    (conectado <- Proc.of_async API.verificarConexion ;;
     if negb conectado
     then mostrarAlerta "No se pudo conectar con el servidor. Verifique que la API esté disponible en https://usuarios-mvgv.onrender.com" "warning"
     else Proc.ret tt)%proc
    (fun error =>
       Proc.of_async (Logger.error "Error al verificar conexión:" error) ;;;
       mostrarAlerta "Error de conexión con el servidor" "danger")%proc.

Definition cargarUsuarios : Proc.proc unit :=
  Proc.finally
    (Proc.catch
       (Proc.act MostrarCargando ;;;
        usuarios <- Proc.of_async API.obtenerUsuarios ;;
        renderizar usuarios ;;;
        len <- Proc.of_completion (get usuarios "length") ;;
        Logger_log ("✅ " ++ ToString len ++ " usuarios cargados"))%proc
       (fun error =>
          Proc.of_async (Logger.error "Error al cargar usuarios:" error) ;;;
          manejarError error "Error al cargar los usuarios")%proc)
    (Proc.act OcultarCargando).

Definition handleNuevoUsuario : Proc.proc unit :=
  (s <- Proc.this ;;
   Proc.assign (mk_app VNull (usuarioAEliminar s)) ;;;
   Proc.act MostrarModalNuevoUsuario)%proc.

Definition handleEditarUsuario (b : fila_boton) : Proc.proc unit :=
  (s <- Proc.this ;;
   Proc.assign (mk_app (usuario_de_boton b) (usuarioAEliminar s)) ;;;
   Proc.act (MostrarModalEditarUsuario (usuario_de_boton b)))%proc.

(** The text of a success alert: [Usuario "<nombre>" <hecho>
    correctamente]. *)
Definition exito (nombre : value) (hecho : string) : string :=
  "Usuario " ++ String dquote (ToString nombre
     ++ String dquote (" " ++ hecho ++ " correctamente")).

(** The template literal that makes that text: it converts [nombre] to
    a string and throws where the conversion does. *)
Definition plantilla_exito (nombre : value) (hecho : string) : completion string :=
  if convertible nombre then Return (exito nombre hecho) else Throw conversion_TypeError.

Definition handleGuardarUsuario (p : page) : Proc.proc unit :=
  (valido <- validarFormulario p ;;
   if negb valido then
     mostrarAlerta "Por favor, complete todos los campos correctamente" "warning"
   else
     let datosUsuario := UI.obtenerDatosFormulario (formulario p) in
     let usuarioId := obtenerIdUsuario p in
     Proc.finally
       (Proc.catch
          (Proc.act (DeshabilitarBoton btnGuardarUsuario (btnGuardarUsuario_innerHTML p)) ;;;
           (if ToBoolean usuarioId then
              resultado <- Proc.of_async (API.actualizarUsuario usuarioId datosUsuario) ;;
              nombre <- Proc.of_completion (get resultado "nombre") ;;
              mensaje <- Proc.of_completion (plantilla_exito nombre "actualizado") ;;
              mostrarAlerta mensaje "success"
            else
              resultado <- Proc.of_async (API.crearUsuario datosUsuario) ;;
              nombre <- Proc.of_completion (get resultado "nombre") ;;
              mensaje <- Proc.of_completion (plantilla_exito nombre "creado") ;;
              mostrarAlerta mensaje "success") ;;;
           Proc.act CerrarModalUsuario ;;;
           cargarUsuarios)
          (fun error =>
             Proc.of_async (Logger.error "Error al guardar usuario:" error) ;;;
             manejarError error "Error al guardar el usuario"))
       (Proc.act (HabilitarBoton btnGuardarUsuario)))%proc.

Definition handleEliminarUsuario (b : fila_boton) : Proc.proc unit :=
  (s <- Proc.this ;;
   Proc.assign (mk_app (usuarioEnEdicion s) (usuario_de_boton b)) ;;;
   Proc.act (MostrarModalConfirmarEliminar (usuario_de_boton b)))%proc.


Definition init : Proc.proc unit :=
  (Logger_log "🚀 Iniciando aplicación..." ;;;
   verificarConexion ;;;
   Proc.act ConfigurarEventListeners ;;;
   cargarUsuarios ;;;
   Proc.act InicializarTogglePassword ;;;
   Logger_log "✅ Aplicación iniciada correctamente")%proc.

(** The call of the client that [handleGuardarUsuario] makes for a
    page: the update when the hidden id is truthy, the create
    otherwise. *)
Definition llamada_guardar (p : page) : async value :=
  if ToBoolean (obtenerIdUsuario p)
  then API.actualizarUsuario (obtenerIdUsuario p) (UI.obtenerDatosFormulario (formulario p))
  else API.crearUsuario (UI.obtenerDatosFormulario (formulario p)).

Definition hecho_guardar (p : page) : string :=
  if ToBoolean (obtenerIdUsuario p) then "actualizado" else "creado".

End Methods.

(** The requests among the actions, and the alerts, in order. *)
Fixpoint peticiones (t : list action) : list request :=
  match t with
  | [] => []
  | Api (Fetched req) :: t' => req :: peticiones t'
  | _ :: t' => peticiones t'
  end.

Fixpoint alertas (t : list action) : list alert :=
  match t with
  | [] => []
  | Alerta a :: t' => a :: alertas t'
  | _ :: t' => alertas t'
  end.

End Controller.

(** A host for the examples of the controller: [parseInt] of a string of
    decimal digits. *)
Module ControllerExamples.

Fixpoint digits_value (s : string) (acc : Z) : option Z :=
  match s with
  | EmptyString => Some acc
  | String c s' =>
      let n := N_of_ascii c in
      if ((48 <=? n) && (n <=? 57))%N
      then digits_value s' (10 * acc + Z.of_N (n - 48))
      else None
  end.

Definition decimal_parseInt : Globals := {|
  parseInt s :=
    match s with
    | EmptyString => NaN
    | _ => match digits_value s 0 with
           | Some z => Finite (inject_Z z)
           | None => NaN
           end
    end
|}.

(** A host that answers each request by its method. *)
Definition host_by_method (answer : string -> settlement) : Host := {|
  Number_toString := @Number_toString Examples.silent;
  String_toNumber := @String_toNumber Examples.silent;
  fetch req := answer (req_method req)
|}.

(** A backend holding one record: it answers a [GET] with the list, a
    [POST] or a [PUT] with the record and a [DELETE] with 204, each
    after 50 ms. *)
Definition registro : value :=
  VObject [("id", of_Z 1); ("nombre", VString "Juan Perez");
           ("email", VString "juan@example.com")]%string.

(** A record whose name holds a member of its own named [toString], as
    the JSON text [{"toString": 1}] gives: it cannot be converted to
    text. *)
Definition sin_texto : value :=
  VObject [("id", of_Z 2); ("nombre", VObject [("toString", of_Z 1)]);
           ("email", VString "ana@example.com")]%string.

Definition backend : Host :=
  host_by_method
    (fun method =>
       if String.eqb method "GET"
       then Settles 50 (Return (Examples.json_response 200 (VArray [registro])))
       else if String.eqb method "DELETE"
       then Settles 50 (Return (mk_response 204 None (Return VNull) EmptyString))
       else Settles 50 (Return (Examples.json_response 200 registro))).

Definition pagina (id password : string) : page :=
  mk_page (mk_form "Juan Perez" "juan@example.com" password) id true
          "Guardar" "Eliminar Usuario".

End ControllerExamples.

(* ===================================================================== *)
(** * Facts about the host language *)
(* ===================================================================== *)

Section NumberFacts.
Local Open Scope Z_scope.

Lemma number_lt_Z (a b : Z) :
  number_lt (Finite (inject_Z a)) (Finite (inject_Z b)) = (a <? b).
Proof.
  unfold number_lt, Qle_bool, Qeq_bool; simpl.
  rewrite !Z.mul_1_r.
  destruct (Z.leb_spec a b), (Z.ltb_spec a b), (Z.eqb_spec a b);
    simpl; try reflexivity; lia.
Qed.

Lemma number_le_Z (a b : Z) :
  number_le (Finite (inject_Z a)) (Finite (inject_Z b)) = (a <=? b).
Proof.
  unfold number_le, Qle_bool; simpl. now rewrite !Z.mul_1_r.
Qed.

Context {host : Host}.

Lemma lt_lit_length (s : string) (n : Z) :
  lt_lit (string_length s) n = (Z.of_nat (String.length s) <? n).
Proof. apply number_lt_Z. Qed.

Lemma gt_lit_length (s : string) (n : Z) :
  gt_lit (string_length s) n = (n <? Z.of_nat (String.length s)).
Proof. apply number_lt_Z. Qed.

(** The length of a string is a number: comparing it never throws. *)
Lemma compare_length (s : string) (answer : bool) :
  compare (string_length s) answer = Return answer.
Proof. reflexivity. Qed.

End NumberFacts.

Section StringFacts.
Local Open Scope string_scope.

Lemma append_assoc (a b c : string) : (a ++ b) ++ c = a ++ (b ++ c).
Proof. induction a as [|x a IH]; simpl; [reflexivity | now rewrite IH]. Qed.

Lemma startsWith_app (p s : string) : startsWith p (p ++ s) = true.
Proof.
  induction p as [|x p IH]; simpl; [reflexivity|].
  now rewrite Ascii.eqb_refl, IH.
Qed.

Lemma includes_app (p a b : string) : includes p (a ++ p ++ b) = true.
Proof.
  induction a as [|x a IH]; simpl.
  - destruct (p ++ b) eqn:E; simpl; rewrite <- E, startsWith_app; reflexivity.
  - rewrite IH. apply orb_true_r.
Qed.

Lemma endsWith_app (p a : string) : endsWith p (a ++ p) = true.
Proof.
  induction a as [|x a IH]; simpl.
  - destruct p; cbn -[String.eqb]; now rewrite String.eqb_refl.
  - rewrite IH. apply orb_true_r.
Qed.

Lemma split_nonempty (c : ascii) (s : string) : split c s <> [].
Proof.
  destruct s as [|a s]; simpl; [discriminate|].
  destruct (Ascii.eqb a c); [discriminate|].
  destruct (split c s); discriminate.
Qed.

Lemma split_length (c : ascii) (s : string) :
  List.length (split c s) = S (Spec.occurrences c s).
Proof.
  induction s as [|a s IH]; simpl; [reflexivity|].
  destruct (Ascii.eqb a c); simpl; [now rewrite IH|].
  destruct (split c s) eqn:E; simpl in *; [discriminate IH | exact IH].
Qed.

Lemma split_without (c : ascii) (s : string) :
  Spec.occurrences c s = 0%nat -> split c s = [s].
Proof.
  induction s as [|a s IH]; simpl; [reflexivity|].
  destruct (Ascii.eqb a c); simpl; [discriminate|].
  intros H. now rewrite (IH H).
Qed.

Lemma split_app (c : ascii) (p t : string) :
  split c (p ++ String c t) = (split c p ++ split c t)%list.
Proof.
  induction p as [|a p IH]; simpl.
  - now rewrite Ascii.eqb_refl.
  - destruct (Ascii.eqb a c); simpl; [now rewrite IH|].
    rewrite IH. destruct (split c p) eqn:E; [|reflexivity].
    now apply split_nonempty in E.
Qed.

Lemma last_app_nonempty {A} (l1 l2 : list A) (d : A) :
  l2 <> [] -> last (l1 ++ l2)%list d = last l2 d.
Proof.
  intros H. induction l1 as [|x l1 IH]; simpl; [reflexivity|].
  destruct (l1 ++ l2)%list eqn:E; [|exact IH].
  apply app_eq_nil in E. tauto.
Qed.

Lemma occurrences_app (c : ascii) (a b : string) :
  Spec.occurrences c (a ++ b) = (Spec.occurrences c a + Spec.occurrences c b)%nat.
Proof. induction a as [|x a IH]; simpl; [reflexivity | rewrite IH; lia]. Qed.

Lemma final_label_last (t d : string) :
  Spec.final_label t d -> last (split "." d) EmptyString = t.
Proof.
  intros [Ht [-> | [p ->]]].
  - now rewrite (split_without _ _ Ht).
  - simpl. rewrite split_app, last_app_nonempty by apply split_nonempty.
    now rewrite (split_without _ _ Ht).
Qed.

End StringFacts.

(* ===================================================================== *)
(** * The matcher decides matching *)
(* ===================================================================== *)

Section RegExpFacts.
Import RegExp.
Local Open Scope string_scope.

Lemma append_empty (a b : string) : a ++ b = EmptyString -> a = EmptyString /\ b = EmptyString.
Proof. destruct a; simpl; [auto | discriminate]. Qed.

Lemma matches_Void (s : string) : ~ matches Void s.
Proof. intros H. inversion H. Qed.

Lemma matches_Eps (s : string) : matches Eps s -> s = EmptyString.
Proof. intros H. now inversion H. Qed.

Lemma matches_Seq (r1 r2 : regex) (s : string) :
  matches (Seq r1 r2) s -> exists s1 s2, s = s1 ++ s2 /\ matches r1 s1 /\ matches r2 s2.
Proof. intros H. inversion H; subst. eauto. Qed.

Lemma matches_Alt (r1 r2 : regex) (s : string) :
  matches (Alt r1 r2) s -> matches r1 s \/ matches r2 s.
Proof. intros H. inversion H; subst; auto. Qed.

Lemma nullable_matches (r : regex) : nullable r = true <-> matches r EmptyString.
Proof.
  split.
  - induction r as [| | p | r1 IH1 r2 IH2 | r1 IH1 r2 IH2 | r IH]; simpl; intros H;
      try discriminate H.
    + constructor.
    + apply andb_prop in H as [H1 H2].
      change EmptyString with (EmptyString ++ EmptyString). constructor; auto.
    + apply orb_prop in H as [H | H]; [apply m_alt_l | apply m_alt_r]; auto.
    + constructor.
  - intros H. remember EmptyString as s eqn:E.
    induction H as [| p c Hc | r1 r2 s1 s2 _ IH1 _ IH2 | r1 r2 s _ IH | r1 r2 s _ IH
                    | r | r s1 s2 _ _ _ _]; simpl; try reflexivity; try discriminate E.
    + apply append_empty in E as [E1 E2]. now rewrite IH1, IH2.
    + now rewrite IH.
    + rewrite IH by assumption. apply orb_true_r.
Qed.

Lemma seq'_matches (r1 r2 : regex) (s : string) :
  matches (seq' r1 r2) s <-> matches (Seq r1 r2) s.
Proof.
  assert (L : matches (Seq Void r2) s -> False).
  { intros H. apply matches_Seq in H as (? & ? & _ & H & _). now apply matches_Void in H. }
  assert (R : matches (Seq r1 Void) s -> False).
  { intros H. apply matches_Seq in H as (? & ? & _ & _ & H). now apply matches_Void in H. }
  assert (E : r1 = Eps -> (matches r2 s <-> matches (Seq r1 r2) s)).
  { intros ->. split.
    - intros H. change s with (EmptyString ++ s). constructor; [constructor | exact H].
    - intros H. apply matches_Seq in H as (s1 & s2 & -> & H1 & H2).
      apply matches_Eps in H1. now subst. }
  destruct r1, r2; simpl; try reflexivity;
    try (split; intros H; [now apply matches_Void in H | now (apply L in H || apply R in H)]);
    try (now apply E).
Qed.

Lemma alt'_matches (r1 r2 : regex) (s : string) :
  matches (alt' r1 r2) s <-> matches (Alt r1 r2) s.
Proof.
  assert (L : r1 = Void -> (matches r2 s <-> matches (Alt r1 r2) s)).
  { intros ->. split; [apply m_alt_r|].
    intros H. apply matches_Alt in H as [H | H]; [now apply matches_Void in H | exact H]. }
  assert (R : r2 = Void -> (matches r1 s <-> matches (Alt r1 r2) s)).
  { intros ->. split; [apply m_alt_l|].
    intros H. apply matches_Alt in H as [H | H]; [exact H | now apply matches_Void in H]. }
  destruct r1, r2; simpl; try reflexivity; try (now apply L); try (now apply R).
Qed.

(** A non-empty match of a repetition starts with a non-empty match of
    its body. *)
Lemma matches_Star_cons (r : regex) (c : ascii) (s : string) :
  matches (Star r) (String c s) ->
  exists s1 s2, s = s1 ++ s2 /\ matches r (String c s1) /\ matches (Star r) s2.
Proof.
  intros H. remember (Star r) as r' eqn:Er. remember (String c s) as w eqn:Ew.
  induction H as [| | | | | | r0 s1 s2 H1 _ H2 IH2]; try discriminate Er; try discriminate Ew.
  injection Er as ->.
  destruct s1 as [|a s1]; simpl in Ew.
  - now apply IH2.
  - injection Ew as Ea Es. subst a s. exists s1, s2. auto.
Qed.

Lemma deriv_matches (c : ascii) (r : regex) (s : string) :
  matches (deriv c r) s <-> matches r (String c s).
Proof.
  revert s. induction r as [| | p | r1 IH1 r2 IH2 | r1 IH1 r2 IH2 | r IH]; intros s; simpl.
  - split; intros H; inversion H.
  - split; intros H; inversion H.
  - destruct (p c) eqn:Hp; split; intros H.
    + apply matches_Eps in H as ->. now constructor.
    + inversion H; subst. constructor.
    + now apply matches_Void in H.
    + inversion H; subst. congruence.
  - rewrite alt'_matches. split.
    + intros H. apply matches_Alt in H as [H | H].
      * apply seq'_matches, matches_Seq in H as (s1 & s2 & -> & H1 & H2).
        apply IH1 in H1. change (String c (s1 ++ s2)) with (String c s1 ++ s2).
        now constructor.
      * destruct (nullable r1) eqn:N; [|now apply matches_Void in H].
        apply nullable_matches in N. apply IH2 in H.
        change (String c s) with (EmptyString ++ String c s). now constructor.
    + intros H. apply matches_Seq in H as (s1 & s2 & E & H1 & H2).
      destruct s1 as [|a s1]; simpl in E.
      * subst s2. apply m_alt_r. apply nullable_matches in H1. rewrite H1. now apply IH2.
      * injection E as <- ->. apply m_alt_l, seq'_matches. constructor; [now apply IH1 | exact H2].
  - rewrite alt'_matches. split; intros H.
    + apply matches_Alt in H as [H | H]; [apply m_alt_l, IH1 | apply m_alt_r, IH2]; exact H.
    + apply matches_Alt in H as [H | H]; [apply m_alt_l, IH1 | apply m_alt_r, IH2]; exact H.
  - rewrite seq'_matches. split; intros H.
    + apply matches_Seq in H as (s1 & s2 & -> & H1 & H2).
      apply IH in H1. change (String c (s1 ++ s2)) with (String c s1 ++ s2).
      now constructor.
    + apply matches_Star_cons in H as (s1 & s2 & -> & H1 & H2).
      constructor; [now apply IH | exact H2].
Qed.

(** The matcher answers [true] exactly on the strings that match. *)
Lemma test_anchored_matches (r : regex) (s : string) :
  test_anchored r s = true <-> matches r s.
Proof.
  unfold test_anchored. revert r.
  induction s as [|c s IH]; intros r; simpl.
  - apply nullable_matches.
  - rewrite IH. apply deriv_matches.
Qed.

End RegExpFacts.

(* ===================================================================== *)
(** * Email validation *)
(* ===================================================================== *)

Section EmailFacts.
Context {host : Host}.
Local Open Scope string_scope.

Lemma get_length (s : string) :
  get (VString s) "length" = Return (string_length s).
Proof. reflexivity. Qed.

(** On a string the validator is the conjunction of its checks. *)
Lemma esEmailValido_string (s : string) :
  API.esEmailValido (VString s) =
  Return (ToBoolean (VString s)
          && negb (254 <? Z.of_nat (String.length s))%Z
          && RegExp.test_anchored API.email_pattern s
          && API.additional_checks s).
Proof.
  unfold API.esEmailValido.
  destruct (ToBoolean (VString s)); [|reflexivity].
  cbn [negb andb]. rewrite get_length. cbn [cbind].
  rewrite gt_lit_length, compare_length. cbn [cbind].
  destruct (254 <? Z.of_nat (String.length s))%Z; [reflexivity|].
  unfold ToString_completion. cbn [convertible ToString negb andb cbind].
  destruct (RegExp.test_anchored API.email_pattern s); reflexivity.
Qed.

(** What the pattern asks of the shape of an address: a local part that
    is not empty, an [@], a domain. *)
Lemma email_pattern_shape (s : string) :
  RegExp.test_anchored API.email_pattern s = true ->
  exists l d, s = l ++ "@" ++ d /\ l <> EmptyString.
Proof.
  intros H. apply test_anchored_matches in H. unfold API.email_pattern in H.
  apply matches_Seq in H as (l & rest & -> & Hl & Hrest).
  apply matches_Seq in Hrest as (a & d & -> & Ha & _).
  inversion Ha as [| p c Hc | | | | |]; subst.
  apply Ascii.eqb_eq in Hc as <-.
  exists l, d. split; [reflexivity|].
  apply matches_Seq in Hl as (l1 & l2 & -> & H1 & _).
  inversion H1; subst. discriminate.
Qed.

Lemma split_at (l d : string) :
  Spec.occurrences "@" (l ++ "@" ++ d) = 1%nat ->
  split "@" (l ++ "@" ++ d) = [l; d].
Proof.
  intros H. change ("@" ++ d) with (String "@" d) in *.
  rewrite occurrences_app in H. cbn [Spec.occurrences] in H.
  rewrite Ascii.eqb_refl in H.
  rewrite split_app, !split_without by lia. reflexivity.
Qed.

Ltac decide_checks :=
  repeat match goal with
         | |- context [if ?b then _ else _] => destruct b eqn:?
         end;
  try reflexivity; try discriminate.

Lemma additional_checks_consecutive_dots (s : string) :
  includes ".." s = true -> API.additional_checks s = false.
Proof.
  intros H. unfold API.additional_checks. rewrite H.
  destruct (split "@" s) as [|l [|d [|? ?]]]; decide_checks.
Qed.

Lemma additional_checks_at_count (s : string) :
  Spec.occurrences "@" s <> 1%nat -> API.additional_checks s = false.
Proof.
  intros H. unfold API.additional_checks.
  pose proof (split_length "@" s) as L.
  destruct (split "@" s) as [|l [|d [|? ?]]]; try reflexivity.
  simpl in L. congruence.
Qed.

(** With exactly one [@] the code sees the same local part and domain
    as the specification. *)
Lemma additional_checks_parts (l d : string) :
  Spec.occurrences "@" (l ++ "@" ++ d) = 1%nat ->
  API.additional_checks (l ++ "@" ++ d) =
  negb (64 <? String.length l)%nat
  && negb (List.length (split "." d) <? 2)%nat
  && negb (String.length (last (split "." d) EmptyString) <? 2)%nat
  && negb (includes ".." (l ++ "@" ++ d))
  && negb (startsWith "." l || endsWith "." l).
Proof.
  intros H. unfold API.additional_checks. rewrite (split_at _ _ H).
  decide_checks.
Qed.

Lemma additional_checks_malformed (s : string) :
  Spec.malformed s ->
  (254 < String.length s)%nat \/ API.additional_checks s = false.
Proof.
  intros [H | a b -> | H | l d -> H | l d -> | l d -> | l d t -> Ht H].
  - now left.
  - right. apply additional_checks_consecutive_dots, includes_app.
  - right. now apply additional_checks_at_count.
  - right. destruct (Nat.eq_dec (Spec.occurrences "@" (l ++ "@" ++ d)) 1) as [E|E];
      [|now apply additional_checks_at_count].
    rewrite (additional_checks_parts _ _ E).
    apply Nat.ltb_lt in H. now rewrite H.
  - right. destruct (Nat.eq_dec (Spec.occurrences "@" (("." ++ l) ++ "@" ++ d)) 1) as [E|E];
      [|now apply additional_checks_at_count].
    rewrite (additional_checks_parts _ _ E).
    rewrite startsWith_app. cbn [orb negb]. now rewrite andb_false_r.
  - right. destruct (Nat.eq_dec (Spec.occurrences "@" ((l ++ ".") ++ "@" ++ d)) 1) as [E|E];
      [|now apply additional_checks_at_count].
    rewrite (additional_checks_parts _ _ E).
    rewrite endsWith_app, orb_true_r. cbn [negb]. now rewrite andb_false_r.
  - right. destruct (Nat.eq_dec (Spec.occurrences "@" (l ++ "@" ++ d)) 1) as [E|E];
      [|now apply additional_checks_at_count].
    rewrite (additional_checks_parts _ _ E).
    rewrite (final_label_last t d Ht).
    apply Nat.ltb_lt in H. rewrite H. cbn [negb].
    now rewrite andb_false_r.
Qed.

End EmailFacts.

(** The addresses that the documentation of [esEmailValido] and the test
    instructions list, with the answers they give. *)
Example esEmailValido_documented :
  map (fun s => @API.esEmailValido Examples.silent (VString s))
      ["juan@example.com"; "juan.perez@subdomain.example.com";
       "user+tag@example.co.uk"; "user@mail.example.com";
       "invalido.com"; "sin@dominio"; "test@@example.com"; "user@.com";
       "user@domain.c"; "user..name@example.com"]%string
  = [Return true; Return true; Return true; Return true;
     Return false; Return false; Return false; Return false;
     Return false; Return false].
Proof. vm_compute. reflexivity. Qed.

(** C3. For every string, [esEmailValido] answers [false] as soon as one
    of the listed defects holds: more than 254 characters, two
    consecutive dots anywhere, a number of [@] other than one, a local
    part longer than 64 characters or starting or ending with a dot, a
    final domain label shorter than two characters. *)
Theorem esEmailValido_rejects_malformed {host : Host} (s : string) :
  Spec.malformed s -> API.esEmailValido (VString s) = Return false.
Proof.
  intros H. rewrite esEmailValido_string.
  destruct (additional_checks_malformed s H) as [L | C].
  - assert (E : (254 <? Z.of_nat (String.length s))%Z = true)
      by (apply Z.ltb_lt; lia).
    rewrite E. cbn [negb]. now rewrite andb_false_r.
  - rewrite C. now rewrite andb_false_r.
Qed.

Lemma esEmailValido_rejects_malformed_witness :
  Spec.malformed "user@domain.c" /\
  @API.esEmailValido Examples.silent (VString "user@domain.c") = Return false.
Proof.
  assert (H : Spec.malformed "user@domain.c").
  { apply Spec.short_tld with (l := "user"%string) (d := "domain.c"%string) (t := "c"%string).
    - reflexivity.
    - split; [reflexivity | right; exists "domain"%string; reflexivity].
    - simpl; lia. }
  split; [exact H | exact (@esEmailValido_rejects_malformed Examples.silent _ H)].
Defined.

(** C10, counterexample. An array is truthy, its string form passes the
    pattern, and then [email.split] is not a function. *)
Lemma esEmailValido_raises_on_array :
  @API.esEmailValido Examples.silent (VArray [VString "a@b.co"])
  = Throw (new_TypeError "email.split is not a function").
Proof. vm_compute. reflexivity. Qed.

(** C10, as amended. On every input of its declared type, a string, and
    on [null] and [undefined], [esEmailValido] returns a boolean and never
    raises; [null], [undefined] and the empty string are answered [false]
    by the initial guard. *)
Theorem esEmailValido_total_on_strings {host : Host} :
  API.esEmailValido VNull = Return false /\
  API.esEmailValido VUndefined = Return false /\
  API.esEmailValido (VString EmptyString) = Return false /\
  forall s : string, exists b : bool, API.esEmailValido (VString s) = Return b.
Proof.
  repeat split; try reflexivity.
  intros s. rewrite esEmailValido_string. eauto.
Qed.

(* ===================================================================== *)
(** * Validation of a user record *)
(* ===================================================================== *)

Section RecordFacts.
Context {host : Host}.
Local Open Scope string_scope.

Lemma trim_nonempty (s : string) :
  (2 <= String.length (trim s))%nat -> ToBoolean (VString s) = true.
Proof. destruct s; simpl; [lia | reflexivity]. Qed.

Lemma esEmailValido_true_nonempty (s : string) :
  API.esEmailValido (VString s) = Return true -> ToBoolean (VString s) = true.
Proof.
  rewrite esEmailValido_string. intros H.
  destruct (ToBoolean (VString s)); [reflexivity | discriminate H].
Qed.

(** Once the name and the email have passed, what is left of
    [validarDatosUsuario] is the password rule of the mode. *)
Lemma validarDatosUsuario_valid_shaped (usuario : value) (esEdicion : bool) :
  Spec.valid_shaped usuario ->
  API.validarDatosUsuario usuario esEdicion =
  (password <~ get usuario "password" ;;
   if esEdicion then
     password_corto <~ (if negb (API.strict_equal_null password)
                        then (len <~ get password "length" ;; compare len (lt_lit len 6))
                        else Return false) ;;
     if password_corto : bool
     then Throw (new_Error "La contraseña debe tener al menos 6 caracteres (o déjela vacía para no cambiarla)")
     else Return tt
   else
     password_corto <~ (if negb (ToBoolean password) then Return true
                        else (len <~ get password "length" ;; compare len (lt_lit len 6))) ;;
     if password_corto : bool
     then Throw (new_Error "La contraseña es obligatoria y debe tener al menos 6 caracteres")
     else Return tt)%completion.
Proof.
  intros (nombre & email & Hn & Hlen & He & Hv).
  unfold API.validarDatosUsuario.
  rewrite Hn. cbn [cbind]. rewrite (trim_nonempty _ Hlen).
  cbn [negb API.call_trim cbind]. rewrite get_length. cbn [cbind].
  rewrite lt_lit_length.
  replace (Z.of_nat (String.length (trim nombre)) <? 2)%Z with false
    by (symmetry; apply Z.ltb_ge; lia).
  rewrite He. cbn [cbind]. rewrite (esEmailValido_true_nonempty _ Hv), Hv.
  reflexivity.
Qed.

Lemma short_string_lt_6 (s : string) :
  (String.length s < 6)%nat ->
  (len <~ get (VString s) "length" ;; compare len (lt_lit len 6))%completion = Return true.
Proof.
  intros H. rewrite get_length. cbn [cbind]. rewrite lt_lit_length, compare_length.
  f_equal. apply Z.ltb_lt. lia.
Qed.

Lemma validarDatosUsuario_null_password_edit (usuario : value) :
  Spec.valid_shaped usuario ->
  get usuario "password" = Return VNull ->
  API.validarDatosUsuario usuario true = Return tt.
Proof.
  intros Hu Hp. now rewrite (validarDatosUsuario_valid_shaped _ _ Hu), Hp.
Qed.

Lemma validarDatosUsuario_accepts_password (usuario : value) (s : string) (esEdicion : bool) :
  Spec.valid_shaped usuario ->
  get usuario "password" = Return (VString s) ->
  (6 <= String.length s)%nat ->
  API.validarDatosUsuario usuario esEdicion = Return tt.
Proof.
  intros Hu Hp Hs. rewrite (validarDatosUsuario_valid_shaped _ _ Hu), Hp.
  assert (T : ToBoolean (VString s) = true) by (destruct s; simpl in *; [lia | reflexivity]).
  assert (L : (len <~ get (VString s) "length" ;; compare len (lt_lit len 6))%completion
              = Return false).
  { rewrite get_length. cbn [cbind]. rewrite lt_lit_length, compare_length.
    f_equal. apply Z.ltb_ge. lia. }
  destruct esEdicion; cbn [cbind API.strict_equal_null negb]; rewrite ?T; cbn [negb];
    rewrite L; reflexivity.
Qed.

End RecordFacts.

(** C1, counterexample. A record without a [password] member, in edit
    mode: the comparison with [null] lets [undefined] through and reading
    its [length] raises. *)
Lemma validarDatosUsuario_absent_password_edit :
  @API.validarDatosUsuario Examples.silent Examples.juan_sin_password true
  = Throw (new_TypeError "Cannot read properties of undefined (reading 'length')").
Proof. vm_compute. reflexivity. Qed.

(** C1, as amended. For every record whose name and email checks pass:
    in edit mode a [null] password is accepted and a string password
    shorter than 6 characters is rejected; in create mode a [null] or
    absent password and a password shorter than 6 characters are
    rejected. *)
Theorem validarDatosUsuario_password_rule {host : Host} (usuario : value) :
  Spec.valid_shaped usuario ->
  (get usuario "password" = Return VNull ->
   API.validarDatosUsuario usuario true = Return tt) /\
  (forall s, get usuario "password" = Return (VString s) ->
             (String.length s < 6)%nat ->
             API.validarDatosUsuario usuario true =
             Throw (new_Error "La contraseña debe tener al menos 6 caracteres (o déjela vacía para no cambiarla)")) /\
  (forall p, get usuario "password" = Return p ->
             p = VNull \/ p = VUndefined ->
             API.validarDatosUsuario usuario false =
             Throw (new_Error "La contraseña es obligatoria y debe tener al menos 6 caracteres")) /\
  (forall s, get usuario "password" = Return (VString s) ->
             (String.length s < 6)%nat ->
             API.validarDatosUsuario usuario false =
             Throw (new_Error "La contraseña es obligatoria y debe tener al menos 6 caracteres")).
Proof.
  intros Hu. repeat split.
  - now apply validarDatosUsuario_null_password_edit.
  - intros s Hp Hs. rewrite (validarDatosUsuario_valid_shaped _ _ Hu), Hp.
    cbn [cbind API.strict_equal_null negb]. now rewrite (short_string_lt_6 _ Hs).
  - intros p Hp [-> | ->]; now rewrite (validarDatosUsuario_valid_shaped _ _ Hu), Hp.
  - intros s Hp Hs. rewrite (validarDatosUsuario_valid_shaped _ _ Hu), Hp.
    cbn [cbind]. destruct (ToBoolean (VString s)); cbn [negb cbind]; [|reflexivity].
    now rewrite (short_string_lt_6 _ Hs).
Qed.

Lemma validarDatosUsuario_password_rule_witness :
  @Spec.valid_shaped Examples.silent (Examples.juan VNull) /\
  @Spec.valid_shaped Examples.silent (Examples.juan (VString "abc")) /\
  @Spec.valid_shaped Examples.silent Examples.juan_sin_password /\
  @API.validarDatosUsuario Examples.silent (Examples.juan VNull) true = Return tt /\
  @API.validarDatosUsuario Examples.silent (Examples.juan (VString "abc")) true =
    Throw (new_Error "La contraseña debe tener al menos 6 caracteres (o déjela vacía para no cambiarla)") /\
  @API.validarDatosUsuario Examples.silent (Examples.juan VNull) false =
    Throw (new_Error "La contraseña es obligatoria y debe tener al menos 6 caracteres") /\
  @API.validarDatosUsuario Examples.silent Examples.juan_sin_password false =
    Throw (new_Error "La contraseña es obligatoria y debe tener al menos 6 caracteres") /\
  @API.validarDatosUsuario Examples.silent (Examples.juan (VString "abc")) false =
    Throw (new_Error "La contraseña es obligatoria y debe tener al menos 6 caracteres").
Proof.
  assert (shaped : forall campos,
             @Spec.valid_shaped Examples.silent
               (VObject (("nombre", VString "Juan") :: ("email", VString "juan@example.com") :: campos)%string)).
  { intros campos. exists "Juan"%string, "juan@example.com"%string.
    split; [reflexivity|]. split; [simpl; lia|].
    split; [reflexivity | vm_compute; reflexivity]. }
  pose proof (shaped [("password", VNull)]%string) as Hn.
  pose proof (shaped [("password", VString "abc")]%string) as Hc.
  pose proof (shaped []) as Ha.
  split; [exact Hn|]. split; [exact Hc|]. split; [exact Ha|].
  split; [|split; [|split; [|split]]].
  - apply (proj1 (@validarDatosUsuario_password_rule Examples.silent _ Hn)). reflexivity.
  - apply (proj1 (proj2 (@validarDatosUsuario_password_rule Examples.silent _ Hc)) "abc"%string);
      [reflexivity | simpl; lia].
  - apply (proj1 (proj2 (proj2 (@validarDatosUsuario_password_rule Examples.silent _ Hn))) VNull);
      [reflexivity | now left].
  - apply (proj1 (proj2 (proj2 (@validarDatosUsuario_password_rule Examples.silent _ Ha))) VUndefined);
      [reflexivity | now right].
  - apply (proj2 (proj2 (proj2 (@validarDatosUsuario_password_rule Examples.silent _ Hc))) "abc"%string);
      [reflexivity | simpl; lia].
Defined.

(* ===================================================================== *)
(** * Handling of responses *)
(* ===================================================================== *)

Section ResponseFacts.
Context {host : Host}.
Local Open Scope string_scope.
Local Open Scope Z_scope.

Lemma not_ok_not_204 (r : response) : resp_ok r = false -> (resp_status r =? 204) = false.
Proof.
  unfold resp_ok. intros H. apply Z.eqb_neq. intros E. rewrite E in H. discriminate H.
Qed.

(** A response that is not ok, once its body is read: the message is
    computed from the body and the error is thrown. *)
Lemma handleResponse_not_ok (r : response) (data : value) :
  resp_ok r = false ->
  Spec.parsed_body r data ->
  outcome (handleResponse r) =
  cbind (detalles <~ get data "detalles" ;;
         if ToBoolean detalles then call_join detalles ", "
         else (error <~ get data "error" ;;
               Return (if ToBoolean error then error else VString "Error desconocido")))%completion
        (fun errorMessage =>
           outcome (throw_new (A := value)
                      (new_ApiError errorMessage (resp_status r) data))).
Proof.
  intros Hok Hbody. unfold handleResponse, Spec.parsed_body in *.
  rewrite (not_ok_not_204 _ Hok), Hok.
  destruct (is_json (resp_content_type r)); [rewrite Hbody | subst data];
    cbn [emit lift resolve await app negb];
    match goal with
    | |- _ = cbind ?c _ => destruct c as [errorMessage | e]
    end; cbn [cbind]; try reflexivity;
    destruct (new_ApiError errorMessage (resp_status r) _); reflexivity.
Qed.

(** The constructor, given a message whose conversion returns. *)
Lemma new_ApiError_convertible (message : value) (status : Z) (details : value) :
  convertible message = true -> details <> VUndefined ->
  new_ApiError message status details
  = Return (ApiError (match message with VUndefined => EmptyString | _ => ToString message end)
                     status details).
Proof.
  intros C D. unfold new_ApiError, ToString_completion. rewrite C.
  destruct message; destruct details; try contradiction; reflexivity.
Qed.

End ResponseFacts.

(** C4, counterexample. An error status under a JSON content type with a
    body that is not JSON: [response.json()] rejects and that rejection,
    not an [ApiError], is what [handleResponse] raises. *)
Lemma handleResponse_unparsable_body :
  @handleResponse Examples.silent
     (mk_response 500 (Some "application/json"%string)
        (Throw (Native SyntaxError "SyntaxError" "Unexpected end of JSON input"))
        EmptyString)
  = ([ReadJson], Throw (Native SyntaxError "SyntaxError" "Unexpected end of JSON input")).
Proof. vm_compute. reflexivity. Qed.

(** A JSON body that is [null]: reading [data.detalles] raises before
    any [ApiError] is built. *)
Example handleResponse_null_body :
  @handleResponse Examples.silent (Examples.json_response 500 VNull)
  = ([ReadJson],
     Throw (new_TypeError "Cannot read properties of null (reading 'detalles')")).
Proof. vm_compute. reflexivity. Qed.

(** A [detalles] member that is not an array has no [join]. *)
Example handleResponse_detalles_not_array :
  @handleResponse Examples.silent
     (Examples.json_response 400 (VObject [("detalles", VString "nombre")]%string))
  = ([ReadJson], Throw (new_TypeError "data.detalles.join is not a function")).
Proof. vm_compute. reflexivity. Qed.

(** A member [error] that holds a member of its own named [toString]:
    [super(message)] cannot convert it, and what [handleResponse] raises
    is the [TypeError] of the conversion. *)
Example handleResponse_error_not_convertible :
  @handleResponse Examples.silent
     (Examples.json_response 500
        (VObject [("error", VObject [("toString", of_Z 1)])]%string))
  = ([ReadJson], Throw conversion_TypeError).
Proof. vm_compute. reflexivity. Qed.

(** C4, as amended. For every response whose status is outside 200-299
    and whose body is read to a value [data] with readable members:
    when [data.detalles] is an array whose elements convert to strings
    the error is an [ApiError] whose message is the array joined with a
    comma and a space; when it is falsy the message is the string form
    of a truthy [data.error] that converts to a string, and the fixed
    fallback for a falsy one.  In each case the code of the error is the
    status and its details are [data]. *)
Theorem handleResponse_raises_ApiError {host : Host} (r : response) (data : value) :
  resp_ok r = false ->
  Spec.parsed_body r data ->
  (forall xs, get data "detalles" = Return (VArray xs) ->
     convertible (VArray xs) = true ->
     outcome (handleResponse r) =
     Throw (ApiError (join ", " xs) (resp_status r) data)) /\
  (forall detalles error,
     get data "detalles" = Return detalles -> ToBoolean detalles = false ->
     get data "error" = Return error -> ToBoolean error = true ->
     convertible error = true ->
     outcome (handleResponse r) =
     Throw (ApiError (ToString error) (resp_status r) data)) /\
  (forall detalles error,
     get data "detalles" = Return detalles -> ToBoolean detalles = false ->
     get data "error" = Return error -> ToBoolean error = false ->
     outcome (handleResponse r) =
     Throw (ApiError "Error desconocido" (resp_status r) data)).
Proof.
  intros Hok Hbody. rewrite (handleResponse_not_ok r data Hok Hbody).
  split; [|split].
  - intros xs Hd Cx. rewrite Hd. cbn [cbind ToBoolean call_join]. rewrite Cx.
    cbn [cbind]. rewrite new_ApiError_convertible;
      [reflexivity | reflexivity | destruct data; discriminate].
  - intros detalles error Hd Fd He Te Ce. rewrite Hd. cbn [cbind]. rewrite Fd, He.
    cbn [cbind]. rewrite Te. cbn [cbind].
    rewrite (new_ApiError_convertible error _ data Ce);
      [|destruct data; discriminate].
    destruct error; try discriminate Te; reflexivity.
  - intros detalles error Hd Fd He Fe. rewrite Hd. cbn [cbind]. rewrite Fd, He.
    cbn [cbind]. rewrite Fe. cbn [cbind].
    rewrite new_ApiError_convertible;
      [reflexivity | reflexivity | destruct data; discriminate].
Qed.

(** A 404 response with the JSON body [{"error": "not found"}]. *)
Lemma handleResponse_raises_ApiError_witness :
  resp_ok (Examples.json_response 404 Examples.not_found_body) = false /\
  Spec.parsed_body (Examples.json_response 404 Examples.not_found_body)
                   Examples.not_found_body /\
  outcome (@handleResponse Examples.silent
             (Examples.json_response 404 Examples.not_found_body))
  = Throw (ApiError "not found" 404 Examples.not_found_body) /\
  outcome (@handleResponse Examples.silent
             (Examples.json_response 500
                (VObject [("detalles", VArray [VString "a"; VString "b"])]%string)))
  = Throw (ApiError "a, b" 500 (VObject [("detalles", VArray [VString "a"; VString "b"])]%string)) /\
  outcome (@handleResponse Examples.silent
             (mk_response 502 (Some "text/html"%string) (Throw (new_Error "no json")) "Bad Gateway"))
  = Throw (ApiError "Error desconocido" 502 (VString "Bad Gateway")).
Proof.
  split; [reflexivity|]. split; [reflexivity|].
  split; [|split].
  - exact (proj1 (proj2 (@handleResponse_raises_ApiError Examples.silent
                           (Examples.json_response 404 Examples.not_found_body)
                           Examples.not_found_body eq_refl eq_refl))
             VUndefined (VString "not found") eq_refl eq_refl eq_refl eq_refl eq_refl).
  - exact (proj1 (@handleResponse_raises_ApiError Examples.silent
                    (Examples.json_response 500
                       (VObject [("detalles", VArray [VString "a"; VString "b"])]%string))
                    (VObject [("detalles", VArray [VString "a"; VString "b"])]%string)
                    eq_refl eq_refl)
             [VString "a"; VString "b"] eq_refl eq_refl).
  - exact (proj2 (proj2 (@handleResponse_raises_ApiError Examples.silent
                           (mk_response 502 (Some "text/html"%string)
                                        (Throw (new_Error "no json")) "Bad Gateway")
                           (VString "Bad Gateway") eq_refl eq_refl))
             VUndefined VUndefined eq_refl eq_refl eq_refl eq_refl).
Defined.

(** C8. A response with status 204 gives the success sentinel
    [{success: true}] whatever its body is, and the body is neither
    parsed nor read. *)
Theorem handleResponse_no_content {host : Host} (r : response) :
  resp_status r = 204%Z ->
  handleResponse r = ([], Return (VObject [("success", VBool true)]%string)).
Proof. intros H. unfold handleResponse. now rewrite H. Qed.

Lemma handleResponse_no_content_witness :
  resp_status (Examples.json_response 204 VNull) = 204%Z /\
  @handleResponse Examples.silent (Examples.json_response 204 VNull)
  = ([], Return (VObject [("success", VBool true)]%string)) /\
  @handleResponse Examples.silent
     (mk_response 204 None (Throw (new_Error "Unexpected end of JSON input")) EmptyString)
  = ([], Return (VObject [("success", VBool true)]%string)).
Proof.
  split; [reflexivity|]. split.
  - exact (@handleResponse_no_content Examples.silent (Examples.json_response 204 VNull) eq_refl).
  - exact (@handleResponse_no_content Examples.silent
             (mk_response 204 None (Throw (new_Error "Unexpected end of JSON input")) EmptyString)
             eq_refl).
Defined.

(* ===================================================================== *)
(** * Requests *)
(* ===================================================================== *)

Section RequestFacts.
Context {host : Host}.
Local Open Scope string_scope.
Local Open Scope Z_scope.

Lemma fetchWithTimeout_catch_settles (error : js_error) :
  exists e, fetchWithTimeout_catch error = ([], Throw e).
Proof.
  unfold fetchWithTimeout_catch.
  destruct (String.eqb (error_name error) "AbortError"); eexists; reflexivity.
Qed.

(** [fetchWithTimeout] calls [fetch] once and does nothing else to the
    outside. *)
Lemma fetchWithTimeout_trace (req : request) :
  exists c, fetchWithTimeout req = ([Fetched req], c).
Proof.
  unfold fetchWithTimeout.
  assert (A : exists e, fetchWithTimeout_catch abort_error = ([], Throw e))
    by apply fetchWithTimeout_catch_settles.
  destruct A as [e A].
  destruct (fetch req) as [ms [response | error] |]; cbn [emit await];
    try destruct (ms <? API_CONFIG.TIMEOUT); rewrite ?A;
    try (eexists; reflexivity).
  destruct (fetchWithTimeout_catch_settles error) as [e' ->]. eexists; reflexivity.
Qed.

Lemma await_first {A B} (ev : event) (m : async A) (k : A -> async B) :
  (exists t c, m = (ev :: t, c)) -> exists t c, await m k = (ev :: t, c).
Proof.
  intros (t & c & ->). destruct c as [a | e]; cbn [await].
  - destruct (k a) as [t' c']. eexists _, _. reflexivity.
  - eexists _, _. reflexivity.
Qed.

Lemma try_catch_first {A} (ev : event) (m : async A) (handler : js_error -> async A) :
  (exists t c, m = (ev :: t, c)) -> exists t c, try_catch m handler = (ev :: t, c).
Proof.
  intros (t & c & ->). destruct c as [a | e]; cbn [try_catch].
  - eexists _, _. reflexivity.
  - destruct (handler e) as [t' c']. eexists _, _. reflexivity.
Qed.

(** A request followed by the handling of its response, inside the
    [try] of an operation. *)
Lemma request_first (req : request) (handler : js_error -> async value) :
  exists t c,
    try_catch (response <- fetchWithTimeout req ;; handleResponse response)%async handler
    = (Fetched req :: t, c).
Proof.
  apply try_catch_first, await_first.
  destruct (fetchWithTimeout_trace req) as [c ->]. eexists _, _. reflexivity.
Qed.

(** The guard lets through the integers above zero and nothing else. *)
Lemma id_invalido_false (id : value) :
  API.id_invalido id = false <-> Spec.positive_integer id.
Proof.
  unfold API.id_invalido, Spec.positive_integer. split.
  - intros H. apply orb_false_elim in H as [I L].
    apply negb_false_iff in I.
    destruct id as [| | |[q| |]| | |]; try discriminate I.
    cbn [Number_isInteger] in I. apply Z.eqb_eq in I.
    unfold le_lit, number_le, Qle_bool in L. cbn in L.
    rewrite Z.mul_1_r in L. apply Z.leb_gt in L.
    exists q, (Qnum q / Zpos (Qden q)). split; [reflexivity|]. split.
    + unfold Qeq. cbn. rewrite Z.mul_1_r.
      rewrite Z.mul_comm. apply Z_div_exact_full_2; [lia | exact I].
    + apply Z.div_str_pos. split; [lia|].
      apply Z.divide_pos_le; [lia|]. apply Z.mod_divide; [lia | exact I].
  - intros (q & z & -> & E & Hz).
    unfold Qeq in E. cbn in E. rewrite Z.mul_1_r in E.
    apply orb_false_intro.
    + apply negb_false_iff. cbn [Number_isInteger]. apply Z.eqb_eq.
      rewrite E. apply Z_mod_mult.
    + unfold le_lit, number_le, Qle_bool. cbn. rewrite Z.mul_1_r.
      apply Z.leb_gt. rewrite E. lia.
Qed.

Lemma id_invalido_true (id : value) :
  API.id_invalido id = true <-> ~ Spec.positive_integer id.
Proof.
  rewrite <- id_invalido_false. destruct (API.id_invalido id); split; congruence.
Qed.

(** An update whose id and record pass: the first thing it does is the
    [PUT] of the serialized record. *)
Lemma actualizarUsuario_request (id usuario : value) :
  Spec.positive_integer id ->
  API.validarDatosUsuario usuario true = Return tt ->
  exists t c,
    API.actualizarUsuario id usuario =
    (Fetched (mk_request (API.url_of id) "PUT" API_CONFIG.HEADERS (JSON_stringify usuario)) :: t, c).
Proof.
  intros Hid Hv. unfold API.actualizarUsuario.
  apply id_invalido_false in Hid. rewrite Hid, Hv.
  apply try_catch_first. cbn [lift await].
  match goal with
  | |- context [await (fetchWithTimeout ?req) ?k] =>
      destruct (await_first (Fetched req) (fetchWithTimeout req) k) as (t & c & E)
  end.
  - destruct (fetchWithTimeout_trace
                (mk_request (API.url_of id) "PUT" API_CONFIG.HEADERS (JSON_stringify usuario)))
      as [c ->]. eexists _, _. reflexivity.
  - rewrite E. eexists _, _. reflexivity.
Qed.

(** What the guard throws is a [TypeError], whether the message can be
    written or not. *)
Lemma throw_new_id_TypeError {A} (id : value) :
  exists e, instanceof_TypeError e = true /\
            throw_new (A := A) (API.id_TypeError id) = ([], Throw e).
Proof.
  unfold API.id_TypeError, ToString_completion.
  destruct (convertible id); eexists; (split; [|reflexivity]); reflexivity.
Qed.

End RequestFacts.

(** C6. When the time bound is reached before [fetch] settles, the
    request is aborted and [fetchWithTimeout] raises the [ApiError] with
    code 408; an error of [fetch] that is not an abort is raised again as
    it is. *)
Theorem fetchWithTimeout_errors {host : Host} (req : request) :
  (forall ms c, fetch req = Settles ms c -> (API_CONFIG.TIMEOUT <= ms)%Z ->
     outcome (fetchWithTimeout req) =
     Throw (ApiError "La petición excedió el tiempo de espera" 408 VNull)) /\
  (fetch req = Pending ->
     outcome (fetchWithTimeout req) =
     Throw (ApiError "La petición excedió el tiempo de espera" 408 VNull)) /\
  (forall ms error, fetch req = Settles ms (Throw error) -> (ms < API_CONFIG.TIMEOUT)%Z ->
     error_name error <> "AbortError"%string ->
     outcome (fetchWithTimeout req) = Throw error).
Proof.
  unfold fetchWithTimeout. split; [|split].
  - intros ms c E H. rewrite E.
    replace (ms <? API_CONFIG.TIMEOUT)%Z with false by (symmetry; apply Z.ltb_ge; exact H).
    reflexivity.
  - intros E. rewrite E. reflexivity.
  - intros ms error E H N. rewrite E.
    replace (ms <? API_CONFIG.TIMEOUT)%Z with true by (symmetry; apply Z.ltb_lt; exact H).
    unfold fetchWithTimeout_catch. apply String.eqb_neq in N. rewrite N. reflexivity.
Qed.

Lemma fetchWithTimeout_errors_witness :
  outcome (@fetchWithTimeout
             (Examples.host_with (Settles 10000 (Return (Examples.json_response 200 VNull))))
             (mk_request API_CONFIG.BASE_URL "GET" API_CONFIG.HEADERS None))
  = Throw (ApiError "La petición excedió el tiempo de espera" 408 VNull) /\
  outcome (@fetchWithTimeout Examples.silent
             (mk_request API_CONFIG.BASE_URL "GET" API_CONFIG.HEADERS None))
  = Throw (ApiError "La petición excedió el tiempo de espera" 408 VNull) /\
  outcome (@fetchWithTimeout
             (Examples.host_with (Settles 35 (Throw (new_TypeError "Failed to fetch"))))
             (mk_request API_CONFIG.BASE_URL "GET" API_CONFIG.HEADERS None))
  = Throw (new_TypeError "Failed to fetch").
Proof.
  split; [|split].
  - apply (proj1 (@fetchWithTimeout_errors
                    (Examples.host_with (Settles 10000 (Return (Examples.json_response 200 VNull))))
                    (mk_request API_CONFIG.BASE_URL "GET" API_CONFIG.HEADERS None))
             10000%Z (Return (Examples.json_response 200 VNull)));
      [reflexivity | unfold API_CONFIG.TIMEOUT; lia].
  - apply (proj1 (proj2 (@fetchWithTimeout_errors Examples.silent
                           (mk_request API_CONFIG.BASE_URL "GET" API_CONFIG.HEADERS None)))).
    reflexivity.
  - apply (proj2 (proj2 (@fetchWithTimeout_errors
                           (Examples.host_with (Settles 35 (Throw (new_TypeError "Failed to fetch"))))
                           (mk_request API_CONFIG.BASE_URL "GET" API_CONFIG.HEADERS None)))
             35%Z (new_TypeError "Failed to fetch"));
      [reflexivity | unfold API_CONFIG.TIMEOUT; lia | discriminate].
Defined.

(** C5. For every value that is not an integer above zero, each of
    [obtenerUsuarioPorId], [actualizarUsuario] and [eliminarUsuario]
    raises a [TypeError] and does nothing else: no request is issued.
    The error is the one of the guard, or the one of the conversion
    when the value cannot be written into the message of the guard.
    For every integer above zero none of them raises that way: the read
    and the delete start with their request, and the update either
    starts with its request or fails on the record, which it logs. *)
Theorem id_guard {host : Host} (id : value) :
  (~ Spec.positive_integer id ->
     Spec.rejects_id (API.obtenerUsuarioPorId id) /\
     (forall usuario, Spec.rejects_id (API.actualizarUsuario id usuario)) /\
     Spec.rejects_id (API.eliminarUsuario id)) /\
  (Spec.positive_integer id ->
     (exists t c, API.obtenerUsuarioPorId id =
        (Fetched (mk_request (API.url_of id) "GET" API_CONFIG.HEADERS None) :: t, c)) /\
     (forall usuario,
        ~ Spec.rejects_id (API.actualizarUsuario id usuario) /\
        match API.validarDatosUsuario usuario true with
        | Return _ =>
            exists t c, API.actualizarUsuario id usuario =
              (Fetched (mk_request (API.url_of id) "PUT" API_CONFIG.HEADERS
                                   (JSON_stringify usuario)) :: t, c)
        | Throw e =>
            API.actualizarUsuario id usuario =
              ([ConsoleError ("Error al actualizar usuario " ++ ToString id ++ ":") e], Throw e)
        end) /\
     (exists t c, API.eliminarUsuario id =
        (Fetched (mk_request (API.url_of id) "DELETE" API_CONFIG.HEADERS None) :: t, c))).
Proof.
  split.
  - intros H. apply id_invalido_true in H.
    pose proof (throw_new_id_TypeError (A := value) id) as (e & T & E).
    unfold Spec.rejects_id, API.obtenerUsuarioPorId, API.actualizarUsuario,
      API.eliminarUsuario.
    rewrite H, E.
    split; [|split]; try intros usuario; exists e; split; solve [exact T | reflexivity].
  - intros P. pose proof (proj2 (id_invalido_false id) P) as H.
    split; [|split].
    + unfold API.obtenerUsuarioPorId. rewrite H. apply request_first.
    + intros usuario.
      assert (M : match API.validarDatosUsuario usuario true with
                  | Return _ =>
                      exists t c, API.actualizarUsuario id usuario =
                        (Fetched (mk_request (API.url_of id) "PUT" API_CONFIG.HEADERS
                                             (JSON_stringify usuario)) :: t, c)
                  | Throw e =>
                      API.actualizarUsuario id usuario =
                        ([ConsoleError ("Error al actualizar usuario " ++ ToString id ++ ":") e],
                         Throw e)
                  end).
      { destruct (API.validarDatosUsuario usuario true) as [[] | e] eqn:V.
        - now apply actualizarUsuario_request.
        - unfold API.actualizarUsuario. rewrite H, V. reflexivity. }
      split; [|exact M].
      unfold Spec.rejects_id. intros (e0 & _ & R).
      destruct (API.validarDatosUsuario usuario true).
      * destruct M as (t & c & M). rewrite M in R. discriminate R.
      * rewrite M in R. discriminate R.
    + unfold API.eliminarUsuario. rewrite H. apply request_first.
Qed.

Lemma id_guard_witness :
  ~ Spec.positive_integer (of_Z 0) /\
  ~ Spec.positive_integer (VString "abc") /\
  ~ Spec.positive_integer (VObject [("toString", of_Z 1)]%string) /\
  Spec.positive_integer (of_Z 7) /\
  Spec.rejects_id (@API.obtenerUsuarioPorId Examples.silent (of_Z 0)) /\
  Spec.rejects_id (@API.eliminarUsuario Examples.silent (VString "abc")) /\
  Spec.rejects_id (@API.actualizarUsuario Examples.silent
                     (VObject [("toString", of_Z 1)]%string) (Examples.juan VNull)) /\
  (exists t c, @API.eliminarUsuario Examples.silent (of_Z 7) =
     (Fetched (mk_request (@API.url_of Examples.silent (of_Z 7)) "DELETE" API_CONFIG.HEADERS None)
        :: t, c)) /\
  ~ Spec.rejects_id (@API.actualizarUsuario Examples.silent (of_Z 7) (Examples.juan VNull)).
Proof.
  assert (Z0 : ~ Spec.positive_integer (of_Z 0))
    by (apply (@id_invalido_true Examples.silent); reflexivity).
  assert (Zs : ~ Spec.positive_integer (VString "abc"))
    by (apply (@id_invalido_true Examples.silent); reflexivity).
  assert (Zo : ~ Spec.positive_integer (VObject [("toString", of_Z 1)]%string))
    by (apply (@id_invalido_true Examples.silent); reflexivity).
  assert (Z7 : Spec.positive_integer (of_Z 7))
    by (apply (@id_invalido_false Examples.silent); reflexivity).
  split; [exact Z0|]. split; [exact Zs|]. split; [exact Zo|]. split; [exact Z7|].
  split; [|split; [|split; [|split]]].
  - exact (proj1 (proj1 (@id_guard Examples.silent (of_Z 0)) Z0)).
  - exact (proj2 (proj2 (proj1 (@id_guard Examples.silent (VString "abc")) Zs))).
  - exact (proj1 (proj2 (proj1 (@id_guard Examples.silent
                                   (VObject [("toString", of_Z 1)]%string)) Zo))
                 (Examples.juan VNull)).
  - exact (proj2 (proj2 (proj2 (@id_guard Examples.silent (of_Z 7)) Z7))).
  - exact (proj1 (proj1 (proj2 (proj2 (@id_guard Examples.silent (of_Z 7)) Z7))
                   (Examples.juan VNull))).
Defined.

(* ===================================================================== *)
(** * Error messages of the controller *)
(* ===================================================================== *)

(** C7. The message that [manejarError] shows: for an [ApiError] with
    status 400 the error's message behind the validation prefix, with 404
    the fixed not-found text, with 409 the error's message unchanged,
    with 500 the fixed internal-error text, with any other status the
    error's message; for another error its message when it has one and
    the given generic message otherwise. *)
Theorem manejarError_message (message generic name : string) (details : value)
        (cls : native_class) :
  App.manejarError (ApiError message 400 details) generic =
    MostrarAlerta ("Error de validación: " ++ message) "danger" /\
  App.manejarError (ApiError message 404 details) generic =
    MostrarAlerta "Usuario no encontrado" "danger" /\
  App.manejarError (ApiError message 409 details) generic =
    MostrarAlerta message "danger" /\
  App.manejarError (ApiError message 500 details) generic =
    MostrarAlerta "Error interno del servidor. Intente nuevamente." "danger" /\
  (forall status : Z,
     status <> 400%Z -> status <> 404%Z -> status <> 409%Z -> status <> 500%Z ->
     App.manejarError (ApiError message status details) generic =
       MostrarAlerta message "danger") /\
  (message <> EmptyString ->
     App.manejarError (Native cls name message) generic = MostrarAlerta message "danger") /\
  App.manejarError (Native cls name EmptyString) generic = MostrarAlerta generic "danger".
Proof.
  repeat split.
  - intros status H1 H2 H3 H4. unfold App.manejarError.
    apply Z.eqb_neq in H1, H2, H3, H4. now rewrite H1, H2, H3, H4.
  - intros H. destruct message; [contradiction | reflexivity].
Qed.

Lemma manejarError_message_witness :
  App.manejarError (ApiError "timeout" 408 VNull) "Error al guardar el usuario" =
    MostrarAlerta "timeout" "danger" /\
  App.manejarError (new_Error "El email no es válido") "Error al guardar el usuario" =
    MostrarAlerta "El email no es válido" "danger".
Proof.
  split.
  - apply (proj1 (proj2 (proj2 (proj2 (proj2
             (manejarError_message "timeout" "Error al guardar el usuario" "Error" VNull Error)))))
             408%Z); lia.
  - apply (proj1 (proj2 (proj2 (proj2 (proj2 (proj2
             (manejarError_message "El email no es válido" "Error al guardar el usuario"
                                   "Error" VNull Error))))))).
    discriminate.
Defined.

(* ===================================================================== *)
(** * Editing without a new password *)
(* ===================================================================== *)

Section FormFacts.
Context {host : Host}.
Local Open Scope string_scope.

Lemma JSON_stringify_null_password (nombre email : string) :
  JSON_stringify (VObject [("nombre", VString nombre); ("email", VString email);
                           ("password", VNull)])
  = Some (Spec.body_with_null_password nombre email).
Proof.
  unfold Spec.body_with_null_password. cbn [JSON_stringify intercalate].
  rewrite !append_assoc. reflexivity.
Qed.

End FormFacts.

(** C9. On a submit whose password field is empty once trimmed,
    [obtenerDatosFormulario] gives a record whose password is [null];
    when its name and email pass, [validarDatosUsuario] accepts it in edit
    mode and, for an id that passes the guard, [actualizarUsuario] sends a
    [PUT] whose body carries [password: null]. *)
Theorem edit_with_empty_password {host : Host} (f : form) (id : value) :
  trim (password_value f) = EmptyString ->
  get (UI.obtenerDatosFormulario f) "password" = Return VNull /\
  (Spec.valid_shaped (UI.obtenerDatosFormulario f) ->
     API.validarDatosUsuario (UI.obtenerDatosFormulario f) true = Return tt /\
     (Spec.positive_integer id ->
        exists t c,
          API.actualizarUsuario id (UI.obtenerDatosFormulario f) =
          (Fetched (mk_request (API.url_of id) "PUT" API_CONFIG.HEADERS
                      (Some (Spec.body_with_null_password (trim (nombre_value f))
                                                          (trim (email_value f)))))
             :: t, c))).
Proof.
  intros E.
  assert (P : get (UI.obtenerDatosFormulario f) "password" = Return VNull)
    by (unfold UI.obtenerDatosFormulario; rewrite E; reflexivity).
  split; [exact P|]. intros Hu.
  assert (V : API.validarDatosUsuario (UI.obtenerDatosFormulario f) true = Return tt)
    by (apply validarDatosUsuario_null_password_edit; assumption).
  split; [exact V|]. intros Hid.
  destruct (actualizarUsuario_request id _ Hid V) as (t & c & R).
  exists t, c. rewrite R. unfold UI.obtenerDatosFormulario. rewrite E.
  cbn [UI.or_null ToBoolean]. now rewrite JSON_stringify_null_password.
Qed.

Lemma edit_with_empty_password_witness :
  trim (password_value Examples.edit_form) = EmptyString /\
  @Spec.valid_shaped Examples.silent (UI.obtenerDatosFormulario Examples.edit_form) /\
  Spec.positive_integer (of_Z 12) /\
  @API.validarDatosUsuario Examples.silent
     (UI.obtenerDatosFormulario Examples.edit_form) true = Return tt /\
  exists t c,
    @API.actualizarUsuario Examples.silent (of_Z 12)
       (UI.obtenerDatosFormulario Examples.edit_form) =
    (Fetched (mk_request "https://usuarios-mvgv.onrender.com/api/usuarios/12" "PUT"
                [("Content-Type", "application/json")]%string
                (Some (Spec.body_with_null_password "Juan" "juan@example.com")))
       :: t, c).
Proof.
  assert (E : trim (password_value Examples.edit_form) = EmptyString) by reflexivity.
  assert (Hu : @Spec.valid_shaped Examples.silent
                 (UI.obtenerDatosFormulario Examples.edit_form)).
  { exists "Juan"%string, "juan@example.com"%string.
    split; [reflexivity|]. split; [simpl; lia|].
    split; [reflexivity | vm_compute; reflexivity]. }
  assert (Hid : Spec.positive_integer (of_Z 12))
    by (apply (@id_invalido_false Examples.silent); reflexivity).
  split; [exact E|]. split; [exact Hu|]. split; [exact Hid|].
  split.
  - exact (proj1 (proj2 (@edit_with_empty_password Examples.silent Examples.edit_form
                           (of_Z 12) E) Hu)).
  - exact (proj2 (proj2 (@edit_with_empty_password Examples.silent Examples.edit_form
                           (of_Z 12) E) Hu) Hid).
Defined.

(* ===================================================================== *)
(** * Escaping of text for the page *)
(* ===================================================================== *)

Section EscapeFacts.
Context {host : Host}.
Local Open Scope string_scope.

(** The characters that the serializer rewrites. *)
Lemma escaparHTML_entities :
  UI.escaparHTML (VString "<") = "&lt;" /\
  UI.escaparHTML (VString ">") = "&gt;" /\
  UI.escaparHTML (VString "&") = "&amp;".
Proof. repeat split. Qed.

Lemma serialize_text_char_other (c : ascii) :
  c <> "&"%char -> c <> "<"%char -> c <> ">"%char -> c <> ascii_of_N 160 ->
  UI.serialize_text_char c = String c EmptyString.
Proof.
  intros H1 H2 H3 H4. unfold UI.serialize_text_char.
  destruct c as [[] [] [] [] [] [] [] []]; try reflexivity;
    try congruence; exfalso; apply H4; reflexivity.
Qed.

End EscapeFacts.

(** C2, on the code. [escaparHTML] returns the double quote and the
    single quote as they are: the text of the documentation example
    keeps its quotes, where the documentation of the function announces
    [&quot;] and [&#39;]. *)
Theorem escaparHTML_keeps_quotes {host : Host} :
  UI.escaparHTML (VString (String dquote EmptyString)) = String dquote EmptyString /\
  UI.escaparHTML (VString "'") = "'"%string /\
  UI.escaparHTML
    (VString ("<script>alert(" ++ Examples.dq ++ "XSS" ++ Examples.dq ++ ")</script>"))
  = ("&lt;script&gt;alert(" ++ Examples.dq ++ "XSS" ++ Examples.dq ++ ")&lt;/script&gt;")%string.
Proof. repeat split. Qed.

(* ===================================================================== *)
(** * The addresses that the validator accepts *)
(* ===================================================================== *)

Section PatternFacts.
Import RegExp.
Local Open Scope string_scope.

Lemma append_nil_r (s : string) : s ++ EmptyString = s.
Proof. induction s as [|c s IH]; simpl; [reflexivity | now rewrite IH]. Qed.

Lemma length_append (a b : string) :
  String.length (a ++ b) = (String.length a + String.length b)%nat.
Proof. induction a as [|c a IH]; simpl; [reflexivity | now rewrite IH]. Qed.

Lemma all_chars_app (p : ascii -> bool) (a b : string) :
  Shape.all_chars p (a ++ b) = Shape.all_chars p a && Shape.all_chars p b.
Proof.
  induction a as [|c a IH]; simpl; [reflexivity|].
  now rewrite IH, andb_assoc.
Qed.

Lemma all_chars_occurrences (p : ascii -> bool) (c : ascii) (s : string) :
  p c = false -> Shape.all_chars p s = true -> Spec.occurrences c s = 0%nat.
Proof.
  intros Hc. induction s as [|a s IH]; simpl; [reflexivity|].
  intros H. apply andb_prop in H as [Ha Hs].
  destruct (Ascii.eqb_spec a c) as [-> |]; [congruence | now apply IH].
Qed.

Lemma matches_Class (p : ascii -> bool) (s : string) :
  matches (Class p) s <-> exists c, s = String c EmptyString /\ p c = true.
Proof.
  split.
  - intros H. inversion H; subst. eauto.
  - intros (c & -> & H). now constructor.
Qed.

Lemma matches_char (c : ascii) (s : string) :
  matches (char c) s <-> s = String c EmptyString.
Proof.
  unfold char. rewrite matches_Class. split.
  - intros (a & -> & H). apply Ascii.eqb_eq in H. now subst.
  - intros ->. exists c. split; [reflexivity | apply Ascii.eqb_refl].
Qed.

Lemma matches_Seq_iff (r1 r2 : regex) (s : string) :
  matches (Seq r1 r2) s <-> exists s1 s2, s = s1 ++ s2 /\ matches r1 s1 /\ matches r2 s2.
Proof.
  split; [apply matches_Seq|]. intros (s1 & s2 & -> & H1 & H2). now constructor.
Qed.

Lemma matches_Star_Class (p : ascii -> bool) (s : string) :
  matches (Star (Class p)) s <-> Shape.all_chars p s = true.
Proof.
  split.
  - intros H. remember (Star (Class p)) as r eqn:Er.
    induction H as [| | | | | | r0 s1 s2 H1 _ _ IH2]; try discriminate Er.
    + reflexivity.
    + injection Er as ->. apply matches_Class in H1 as (c & -> & Hc).
      simpl. rewrite Hc. now apply IH2.
  - induction s as [|c s IH]; simpl; intros H; [constructor|].
    apply andb_prop in H as [Hc Hs].
    change (String c s) with (String c EmptyString ++ s).
    constructor; [now constructor | now apply IH].
Qed.

Lemma matches_plus_Class (p : ascii -> bool) (s : string) :
  matches (plus (Class p)) s <-> s <> EmptyString /\ Shape.all_chars p s = true.
Proof.
  unfold plus. rewrite matches_Seq_iff. split.
  - intros (s1 & s2 & -> & H1 & H2).
    apply matches_Class in H1 as (c & -> & Hc). apply matches_Star_Class in H2.
    split; [discriminate | simpl; now rewrite Hc].
  - intros [Hn H]. destruct s as [|c s]; [contradiction|].
    simpl in H. apply andb_prop in H as [Hc Hs].
    exists (String c EmptyString), s. split; [reflexivity|].
    split; [now constructor | now apply matches_Star_Class].
Qed.

Lemma matches_upto_Class (p : ascii -> bool) (n : nat) (s : string) :
  matches (upto n (Class p)) s <->
  (String.length s <= n)%nat /\ Shape.all_chars p s = true.
Proof.
  revert s. induction n as [|n IH]; intros s; simpl.
  - split.
    + intros H. apply matches_Eps in H as ->. simpl. auto.
    + intros [H _]. destruct s; simpl in H; [constructor | lia].
  - unfold opt. split.
    + intros H. apply matches_Alt in H as [H | H].
      * apply matches_Seq in H as (s1 & s2 & -> & H1 & H2).
        apply matches_Class in H1 as (c & -> & Hc). apply IH in H2 as [L A].
        simpl. rewrite Hc. split; [lia | exact A].
      * apply matches_Eps in H as ->. simpl. split; [lia | reflexivity].
    + intros [L A]. destruct s as [|c s]; [apply m_alt_r; constructor|].
      simpl in L, A. apply andb_prop in A as [Hc A].
      apply m_alt_l. change (String c s) with (String c EmptyString ++ s).
      constructor; [now constructor | apply IH; split; [lia | exact A]].
Qed.

(** A string that is not empty ends with a last character. *)
Lemma string_snoc (c : ascii) (s : string) :
  exists mid z, String c s = mid ++ String z EmptyString.
Proof.
  revert c. induction s as [|a s IH]; intros c.
  - exists EmptyString, c. reflexivity.
  - destruct (IH a) as (mid & z & E). exists (String c mid), z. simpl. now rewrite E.
Qed.

Lemma endsWith_char (a z : ascii) (s : string) :
  endsWith (String a EmptyString) (s ++ String z EmptyString) = Ascii.eqb a z.
Proof.
  induction s as [|x s IH].
  - simpl. destruct (Ascii.eqb a z); reflexivity.
  - cbn [append endsWith]. rewrite IH.
    replace (String.eqb (String a EmptyString) (String x (s ++ String z EmptyString)))
      with false; [reflexivity|].
    simpl. destruct (Ascii.eqb a x); [|reflexivity]. destruct s; reflexivity.
Qed.

Lemma alnum_label_char (c : ascii) :
  API.alnum c = API.label_char c && negb (Ascii.eqb "-" c).
Proof.
  unfold API.label_char. destruct (Ascii.eqb_spec "-"%char c) as [<- | N].
  - reflexivity.
  - rewrite andb_true_r. destruct (API.alnum c); [reflexivity|].
    simpl. symmetry. apply Ascii.eqb_neq. congruence.
Qed.

(** The pattern of a label and its description agree. *)
Lemma matches_label (s : string) : matches API.label s <-> Shape.label_ok s.
Proof.
  unfold API.label, opt, Shape.label_ok. split.
  - intros H. apply matches_Seq in H as (s1 & s2 & -> & H1 & H2).
    apply matches_Class in H1 as (c & -> & Hc).
    rewrite alnum_label_char in Hc. apply andb_prop in Hc as [Lc Nc].
    apply negb_true_iff in Nc.
    apply matches_Alt in H2 as [H2 | H2].
    + apply matches_Seq in H2 as (mid & s3 & -> & Hm & Hz).
      apply matches_upto_Class in Hm as [Lm Am].
      apply matches_Class in Hz as (z & -> & Hz).
      rewrite alnum_label_char in Hz. apply andb_prop in Hz as [Lz Nz].
      apply negb_true_iff in Nz.
      change (String c EmptyString ++ mid ++ String z EmptyString)
        with (String c mid ++ String z EmptyString).
      split; [split | split; [|split]].
      * rewrite length_append. simpl. lia.
      * rewrite length_append. simpl. lia.
      * rewrite all_chars_app. simpl. now rewrite Lc, Am, Lz.
      * cbn [append startsWith]. now rewrite Nc.
      * now rewrite endsWith_char.
    + apply matches_Eps in H2 as ->.
      cbn [append String.length Shape.all_chars startsWith].
      rewrite Lc, Nc. split; [lia|]. split; [reflexivity|]. split; [reflexivity|].
      change (String c EmptyString) with (EmptyString ++ String c EmptyString).
      now rewrite endsWith_char.
  - intros ([L1 L2] & A & S & E).
    destruct s as [|c s]; [simpl in L1; lia|].
    simpl in A. apply andb_prop in A as [Lc A].
    assert (Nc : Ascii.eqb "-" c = false).
    { cbn [startsWith] in S. destruct (Ascii.eqb "-" c); [discriminate S | reflexivity]. }
    change (String c s) with (String c EmptyString ++ s).
    constructor.
    + constructor. rewrite alnum_label_char, Lc, Nc. reflexivity.
    + destruct s as [|a s]; [apply m_alt_r; constructor|].
      destruct (string_snoc a s) as (mid & z & Es).
      assert (Ec : String c (String a s) = String c mid ++ String z EmptyString)
        by (simpl; now rewrite Es).
      rewrite Ec, endsWith_char in E.
      rewrite Es in A |- *. rewrite all_chars_app in A. apply andb_prop in A as [Am Az].
      simpl in Az. rewrite andb_true_r in Az.
      apply m_alt_l. constructor.
      * apply matches_upto_Class. split; [|exact Am].
        rewrite Ec, length_append in L2. simpl in L2. lia.
      * constructor. rewrite alnum_label_char, Az, E. reflexivity.
Qed.

Lemma label_ok_no_dot (lab : string) :
  Shape.label_ok lab -> Spec.occurrences "." lab = 0%nat.
Proof. intros (_ & A & _). now apply (all_chars_occurrences API.label_char). Qed.

Lemma label_ok_no_at (lab : string) :
  Shape.label_ok lab -> Spec.occurrences "@" lab = 0%nat.
Proof. intros (_ & A & _). now apply (all_chars_occurrences API.label_char). Qed.

End PatternFacts.

Section DomainFacts.
Import RegExp.
Local Open Scope string_scope.

(** Joining the parts of a split gives the string back. *)
Lemma intercalate_split (c : ascii) (s : string) :
  intercalate (String c EmptyString) (split c s) = s.
Proof.
  induction s as [|a s IH]; [reflexivity|].
  cbn [split]. destruct (Ascii.eqb_spec a c) as [-> | N].
  - destruct (split c s) as [|p ps] eqn:E; [now apply split_nonempty in E|].
    cbn [intercalate]. cbn [intercalate] in IH. rewrite IH. reflexivity.
  - destruct (split c s) as [|p ps] eqn:E; [now apply split_nonempty in E|].
    destruct ps as [|q ps]; cbn [intercalate] in *; now rewrite <- IH.
Qed.

Lemma occurrences_split (c sep : ascii) (s : string) :
  c <> sep ->
  Forall (fun p => Spec.occurrences c p = 0%nat) (split sep s) ->
  Spec.occurrences c s = 0%nat.
Proof.
  intros N. induction s as [|a s IH]; intros H; [reflexivity|].
  cbn [split] in H. cbn [Spec.occurrences].
  destruct (Ascii.eqb_spec a sep) as [-> | Na].
  - inversion H; subst.
    replace (Ascii.eqb sep c) with false by (symmetry; apply Ascii.eqb_neq; congruence).
    now apply IH.
  - destruct (split sep s) as [|p ps] eqn:E; [now apply split_nonempty in E|].
    inversion H as [|? ? Hp Hps]; subst. cbn [Spec.occurrences] in Hp.
    destruct (Ascii.eqb a c); [discriminate Hp|].
    apply IH. constructor; assumption.
Qed.

(** The labels after the first, each behind its dot. *)
Lemma matches_more_labels (t : string) :
  matches (Star (Seq (char ".") API.label)) t ->
  exists labs,
    Forall Shape.label_ok labs /\
    forall lab, Spec.occurrences "." lab = 0%nat -> split "." (lab ++ t) = lab :: labs.
Proof.
  intros H. remember (Star (Seq (char ".") API.label)) as r eqn:Er.
  induction H as [| | | | | | r0 s1 s2 H1 _ _ IH2]; try discriminate Er.
  - exists []. split; [constructor|]. intros lab Hl.
    now rewrite append_nil_r, split_without.
  - injection Er as ->. destruct (IH2 eq_refl) as (labs & Hlabs & Hsplit).
    apply matches_Seq in H1 as (dot & l1 & -> & Hdot & Hl1).
    apply matches_char in Hdot as ->. apply matches_label in Hl1.
    exists (l1 :: labs). split; [now constructor|]. intros lab Hl.
    change ((String "." EmptyString ++ l1) ++ s2) with (String "." (l1 ++ s2)).
    rewrite split_app, (split_without _ _ Hl), (Hsplit l1 (label_ok_no_dot _ Hl1)).
    reflexivity.
Qed.

Lemma more_labels_match (labs : list string) :
  Forall Shape.label_ok labs ->
  matches (Star (Seq (char ".") API.label))
          (fold_right (fun lab rest => String "." (lab ++ rest)) EmptyString labs).
Proof.
  induction 1 as [|lab labs Hl _ IH]; cbn [fold_right]; [constructor|].
  match goal with
  | |- matches _ (String "." (lab ++ ?rest)) =>
      change (String "." (lab ++ rest)) with ((String "." EmptyString ++ lab) ++ rest)
  end.
  constructor; [|exact IH].
  constructor; [now apply matches_char | now apply matches_label].
Qed.

Lemma intercalate_dots (lab : string) (labs : list string) :
  intercalate "." (lab :: labs) =
  lab ++ fold_right (fun l rest => String "." (l ++ rest)) EmptyString labs.
Proof.
  revert lab. induction labs as [|l labs IH]; intros lab.
  - cbn. now rewrite append_nil_r.
  - change (intercalate "." (lab :: l :: labs))
      with (lab ++ "." ++ intercalate "." (l :: labs)).
    now rewrite IH.
Qed.

(** The pattern of a domain and the description of its labels agree. *)
Lemma matches_domain (d : string) :
  matches (Seq API.label (Star (Seq (char ".") API.label))) d <->
  Forall Shape.label_ok (split "." d).
Proof.
  split.
  - intros H. apply matches_Seq in H as (l0 & t & -> & H0 & Ht).
    apply matches_label in H0.
    apply matches_more_labels in Ht as (labs & Hlabs & Hsplit).
    rewrite (Hsplit l0 (label_ok_no_dot _ H0)). now constructor.
  - intros H. rewrite <- (intercalate_split "." d).
    destruct (split "." d) as [|l0 labs] eqn:E; [now apply split_nonempty in E|].
    inversion H; subst. rewrite intercalate_dots.
    constructor; [now apply matches_label | now apply more_labels_match].
Qed.

Lemma matches_email_pattern (s : string) :
  matches API.email_pattern s <->
  exists l d,
    s = l ++ "@" ++ d /\ l <> EmptyString /\
    Shape.all_chars API.local_char l = true /\
    Forall Shape.label_ok (split "." d).
Proof.
  unfold API.email_pattern. split.
  - intros H. apply matches_Seq in H as (l & rest & -> & Hl & Hrest).
    apply matches_Seq in Hrest as (a & d & -> & Ha & Hd).
    apply matches_char in Ha as ->. apply matches_plus_Class in Hl as [Hn Hl].
    apply matches_domain in Hd. eauto 8.
  - intros (l & d & -> & Hn & Hl & Hd).
    constructor; [now apply matches_plus_Class|].
    constructor; [now apply matches_char | now apply matches_domain].
Qed.

Lemma one_at (l d : string) :
  Shape.all_chars API.local_char l = true ->
  Forall Shape.label_ok (split "." d) ->
  Spec.occurrences "@" (l ++ "@" ++ d) = 1%nat.
Proof.
  intros Hl Hd. rewrite occurrences_app. cbn [append Spec.occurrences].
  rewrite Ascii.eqb_refl.
  rewrite (all_chars_occurrences API.local_char "@" l eq_refl Hl).
  rewrite (occurrences_split "@" "." d); [reflexivity | discriminate |].
  eapply Forall_impl; [|exact Hd]. apply label_ok_no_at.
Qed.

End DomainFacts.

(** X1. [esEmailValido] answers [true] on a string exactly when the
    string is an address of the accepted shape. *)
Theorem esEmailValido_accepts_exactly {host : Host} (s : string) :
  API.esEmailValido (VString s) = Return true <-> Shape.address_ok s.
Proof.
  rewrite esEmailValido_string. split.
  - intros H. injection H as H.
    apply andb_prop in H as [H Hchecks]. apply andb_prop in H as [H Hpat].
    apply andb_prop in H as [_ Hlen].
    apply negb_true_iff, Z.ltb_ge in Hlen.
    apply test_anchored_matches, matches_email_pattern in Hpat
      as (l & d & -> & Hn & Hl & Hd).
    rewrite (additional_checks_parts l d (one_at l d Hl Hd)) in Hchecks.
    apply andb_prop in Hchecks as [Hchecks Hends].
    apply andb_prop in Hchecks as [Hchecks Hdots].
    apply andb_prop in Hchecks as [Hchecks Htld].
    apply andb_prop in Hchecks as [Hlocal Hparts].
    apply negb_true_iff in Hends, Hdots, Htld, Hlocal, Hparts.
    apply orb_false_elim in Hends as [Hstart Hend].
    apply Nat.ltb_ge in Htld, Hlocal, Hparts.
    exists l, d. split; [reflexivity|]. split; [lia|].
    split; [destruct l; [contradiction | simpl; simpl in Hlocal; lia]|].
    auto 10.
  - intros (l & d & -> & Hlen & [Hl1 Hl64] & Hl & Hstart & Hend & Hdots & Hparts & Hd & Htld).
    assert (Hn : l <> EmptyString) by (destruct l; [simpl in Hl1; lia | discriminate]).
    assert (Hpat : RegExp.test_anchored API.email_pattern (l ++ "@" ++ d) = true).
    { apply test_anchored_matches, matches_email_pattern. eauto 8. }
    rewrite Hpat, (additional_checks_parts l d (one_at l d Hl Hd)).
    rewrite Hstart, Hend, Hdots.
    replace (64 <? String.length l)%nat with false by (symmetry; apply Nat.ltb_ge; lia).
    replace (List.length (split "." d) <? 2)%nat with false
      by (symmetry; apply Nat.ltb_ge; lia).
    replace (String.length (last (split "." d) EmptyString) <? 2)%nat with false
      by (symmetry; apply Nat.ltb_ge; lia).
    replace (254 <? Z.of_nat (String.length (l ++ "@" ++ d)))%Z with false
      by (symmetry; apply Z.ltb_ge; lia).
    destruct l; [contradiction | reflexivity].
Qed.

Lemma esEmailValido_accepts_exactly_witness :
  Shape.address_ok "user+tag@example.co.uk" /\
  @API.esEmailValido Examples.silent (VString "user+tag@example.co.uk") = Return true.
Proof.
  assert (H : Shape.address_ok "user+tag@example.co.uk").
  { exists "user+tag"%string, "example.co.uk"%string.
    split; [reflexivity|]. split; [simpl; lia|]. split; [simpl; lia|].
    split; [reflexivity|]. split; [reflexivity|]. split; [reflexivity|].
    split; [reflexivity|]. split; [simpl; lia|]. split; [|simpl; lia].
    repeat constructor; simpl; lia. }
  split; [exact H|].
  exact (proj2 (@esEmailValido_accepts_exactly Examples.silent _) H).
Defined.

(* ===================================================================== *)
(** * The order of the checks on a record *)
(* ===================================================================== *)

Section RecordOrder.
Context {host : Host}.
Local Open Scope string_scope.

Lemma validarDatosUsuario_name_error (usuario nombre : value) (esEdicion : bool) :
  get usuario "nombre" = Return nombre ->
  ToBoolean nombre = false \/
  (exists s, nombre = VString s /\ (String.length (trim s) < 2)%nat) ->
  API.validarDatosUsuario usuario esEdicion =
  Throw (new_Error "El nombre debe tener al menos 2 caracteres").
Proof.
  intros Hn H. unfold API.validarDatosUsuario. rewrite Hn. cbn [cbind].
  destruct H as [F | (s & -> & L)].
  - rewrite F. reflexivity.
  - destruct (ToBoolean (VString s)); [|reflexivity].
    cbn [negb API.call_trim cbind]. rewrite get_length. cbn [cbind].
    rewrite lt_lit_length.
    replace (Z.of_nat (String.length (trim s)) <? 2)%Z with true
      by (symmetry; apply Z.ltb_lt; lia).
    reflexivity.
Qed.

Lemma validarDatosUsuario_email_error (usuario email : value) (nombre : string)
      (esEdicion : bool) :
  get usuario "nombre" = Return (VString nombre) ->
  (2 <= String.length (trim nombre))%nat ->
  get usuario "email" = Return email ->
  ToBoolean email = false \/ API.esEmailValido email = Return false ->
  API.validarDatosUsuario usuario esEdicion = Throw (new_Error "El email no es válido").
Proof.
  intros Hn Hlen He H. unfold API.validarDatosUsuario.
  rewrite Hn. cbn [cbind]. rewrite (trim_nonempty _ Hlen).
  cbn [negb API.call_trim cbind]. rewrite get_length. cbn [cbind].
  rewrite lt_lit_length.
  replace (Z.of_nat (String.length (trim nombre)) <? 2)%Z with false
    by (symmetry; apply Z.ltb_ge; lia).
  rewrite He. cbn [cbind].
  destruct H as [F | F].
  - rewrite F. reflexivity.
  - destruct (ToBoolean email); [|reflexivity]. cbn [negb]. rewrite F. reflexivity.
Qed.

Lemma get_usuario (nombre email : string) (password : value) :
  get (Examples.usuario nombre email password) "nombre" = Return (VString nombre) /\
  get (Examples.usuario nombre email password) "email" = Return (VString email) /\
  get (Examples.usuario nombre email password) "password" = Return password.
Proof. repeat split. Qed.

(** A record of a name, an email and a password passes or fails on the
    first of its three checks that fails. *)
Lemma validarDatosUsuario_cases (nombre email : string) (password : value)
      (esEdicion : bool) :
  ((String.length (trim nombre) < 2)%nat /\
   API.validarDatosUsuario (Examples.usuario nombre email password) esEdicion =
   Throw (new_Error "El nombre debe tener al menos 2 caracteres")) \/
  ((2 <= String.length (trim nombre))%nat /\
   API.esEmailValido (VString email) = Return false /\
   API.validarDatosUsuario (Examples.usuario nombre email password) esEdicion =
   Throw (new_Error "El email no es válido")) \/
  ((2 <= String.length (trim nombre))%nat /\
   API.esEmailValido (VString email) = Return true /\
   Spec.valid_shaped (Examples.usuario nombre email password)).
Proof.
  destruct (get_usuario nombre email password) as (Gn & Ge & _).
  destruct (le_lt_dec 2 (String.length (trim nombre))) as [L | L].
  - right. destruct (API.esEmailValido (VString email)) as [[|] | e] eqn:V.
    + right. split; [exact L|]. split; [reflexivity|].
      exists nombre, email. auto.
    + left. split; [exact L|]. split; [reflexivity|].
      apply (validarDatosUsuario_email_error _ (VString email) nombre); auto.
    + rewrite esEmailValido_string in V. discriminate V.
  - left. split; [exact L|].
    apply (validarDatosUsuario_name_error _ (VString nombre)); [exact Gn|].
    right. eauto.
Qed.

Lemma password_rule_string (usuario : value) (p : string) (esEdicion : bool) :
  Spec.valid_shaped usuario ->
  get usuario "password" = Return (VString p) ->
  (String.length p < 6)%nat ->
  exists e, API.validarDatosUsuario usuario esEdicion = Throw e.
Proof.
  intros Hu Hp Hs. rewrite (validarDatosUsuario_valid_shaped _ _ Hu), Hp.
  destruct esEdicion; cbn [cbind API.strict_equal_null negb].
  - rewrite (short_string_lt_6 _ Hs). eexists; reflexivity.
  - destruct (ToBoolean (VString p)); cbn [negb cbind];
      [rewrite (short_string_lt_6 _ Hs)|]; eexists; reflexivity.
Qed.

Lemma password_rule_null_create (usuario : value) :
  Spec.valid_shaped usuario ->
  get usuario "password" = Return VNull ->
  API.validarDatosUsuario usuario false =
  Throw (new_Error "La contraseña es obligatoria y debe tener al menos 6 caracteres").
Proof.
  intros Hu Hp. now rewrite (validarDatosUsuario_valid_shaped _ _ Hu), Hp.
Qed.

End RecordOrder.

(** X2. The checks of [validarDatosUsuario] run in the order name,
    email, password and the first failure decides: a name that is falsy
    or shorter than two characters once trimmed gives the name error
    whatever the email and the password are, and with a passing name an
    email that is falsy or rejected gives the email error whatever the
    password is, in either mode. *)
Theorem validarDatosUsuario_first_failure {host : Host}
        (usuario : value) (esEdicion : bool) :
  (forall nombre,
     get usuario "nombre" = Return nombre ->
     ToBoolean nombre = false \/
     (exists s, nombre = VString s /\ (String.length (trim s) < 2)%nat) ->
     API.validarDatosUsuario usuario esEdicion =
     Throw (new_Error "El nombre debe tener al menos 2 caracteres")) /\
  (forall nombre email,
     get usuario "nombre" = Return (VString nombre) ->
     (2 <= String.length (trim nombre))%nat ->
     get usuario "email" = Return email ->
     ToBoolean email = false \/ API.esEmailValido email = Return false ->
     API.validarDatosUsuario usuario esEdicion = Throw (new_Error "El email no es válido")).
Proof.
  split.
  - intros nombre. apply validarDatosUsuario_name_error.
  - intros nombre email. apply validarDatosUsuario_email_error.
Qed.

Lemma validarDatosUsuario_first_failure_witness :
  @API.validarDatosUsuario Examples.silent
     (Examples.usuario " J " "invalido.com" VNull) false =
    Throw (new_Error "El nombre debe tener al menos 2 caracteres") /\
  @API.validarDatosUsuario Examples.silent
     (Examples.usuario "Juan" "invalido.com" VNull) false =
    Throw (new_Error "El email no es válido").
Proof.
  split.
  - apply (proj1 (@validarDatosUsuario_first_failure Examples.silent
                    (Examples.usuario " J " "invalido.com" VNull) false)
             (VString " J "));
      [reflexivity | right; exists " J "%string; split; [reflexivity | simpl; lia]].
  - apply (proj2 (@validarDatosUsuario_first_failure Examples.silent
                    (Examples.usuario "Juan" "invalido.com" VNull) false)
             "Juan"%string (VString "invalido.com"));
      [reflexivity | simpl; lia | reflexivity | right; vm_compute; reflexivity].
Defined.

(** X3. A record made of a name, an email and a password passes
    [validarDatosUsuario] exactly when the trimmed name has at least two
    characters, the email is accepted and the password has at least six;
    with a [null] password it passes exactly in edit mode, under the same
    conditions on the name and the email. *)
Theorem validarDatosUsuario_accepts_exactly {host : Host}
        (nombre email : string) (esEdicion : bool) :
  (forall p,
     API.validarDatosUsuario (Examples.usuario nombre email (VString p)) esEdicion = Return tt
     <-> (2 <= String.length (trim nombre))%nat /\
         API.esEmailValido (VString email) = Return true /\
         (6 <= String.length p)%nat) /\
  (API.validarDatosUsuario (Examples.usuario nombre email VNull) esEdicion = Return tt
   <-> esEdicion = true /\
       (2 <= String.length (trim nombre))%nat /\
       API.esEmailValido (VString email) = Return true).
Proof.
  split.
  - intros p. split.
    + intros H.
      destruct (validarDatosUsuario_cases nombre email (VString p) esEdicion)
        as [[_ E] | [(_ & _ & E) | (Hn & He & Hu)]]; try congruence.
      split; [exact Hn|]. split; [exact He|].
      destruct (le_lt_dec 6 (String.length p)) as [L | L]; [exact L|].
      destruct (password_rule_string _ p esEdicion Hu eq_refl L) as [e E]. congruence.
    + intros (Hn & He & Hp).
      apply (validarDatosUsuario_accepts_password _ p); [|reflexivity | exact Hp].
      exists nombre, email. auto.
  - split.
    + intros H.
      destruct (validarDatosUsuario_cases nombre email VNull esEdicion)
        as [[_ E] | [(_ & _ & E) | (Hn & He & Hu)]]; try congruence.
      split; [|auto].
      destruct esEdicion; [reflexivity|].
      rewrite (password_rule_null_create _ Hu eq_refl) in H. discriminate H.
    + intros (-> & Hn & He).
      apply validarDatosUsuario_null_password_edit; [|reflexivity].
      exists nombre, email. auto.
Qed.

Lemma validarDatosUsuario_accepts_exactly_witness :
  @API.validarDatosUsuario Examples.silent
     (Examples.usuario "Juan Perez" "juan@example.com" (VString "secret1")) false = Return tt /\
  @API.validarDatosUsuario Examples.silent
     (Examples.usuario "Juan Perez" "juan@example.com" VNull) true = Return tt.
Proof.
  split.
  - apply (proj2 (proj1 (@validarDatosUsuario_accepts_exactly Examples.silent
                           "Juan Perez" "juan@example.com" false) "secret1"%string)).
    split; [simpl; lia|]. split; [vm_compute; reflexivity | simpl; lia].
  - apply (proj2 (proj2 (@validarDatosUsuario_accepts_exactly Examples.silent
                           "Juan Perez" "juan@example.com" true))).
    split; [reflexivity|]. split; [simpl; lia | vm_compute; reflexivity].
Defined.

(* ===================================================================== *)
(** * What the operations of the client do and return *)
(* ===================================================================== *)

Section OperationFacts.
Context {host : Host}.
Local Open Scope string_scope.
Local Open Scope Z_scope.

Lemma handleResponse_ok (r : response) :
  resp_ok r = true -> resp_status r <> 204 ->
  handleResponse r =
  if is_json (resp_content_type r) then ([ReadJson], resp_json r)
  else ([ReadText], Return (VString (resp_text r))).
Proof.
  intros Hok Hs. unfold handleResponse.
  apply Z.eqb_neq in Hs. rewrite Hs, Hok.
  destruct (is_json (resp_content_type r)); [destruct (resp_json r)|]; reflexivity.
Qed.

(** Whatever the response, [handleResponse] touches the body at most
    once and does nothing else. *)
Lemma handleResponse_reads (r : response) :
  exists reads c,
    handleResponse r = (reads, c) /\
    (reads = [] \/ reads = [ReadJson] \/ reads = [ReadText]).
Proof.
  unfold handleResponse.
  destruct (resp_status r =? 204); [eexists _, _; split; [reflexivity | auto]|].
  destruct (is_json (resp_content_type r)); [destruct (resp_json r) as [data | e]|];
    cbn [emit lift resolve await app];
    try (eexists _, _; split; [reflexivity | auto]; fail);
    destruct (negb (resp_ok r));
    try (eexists _, _; split; [reflexivity | auto]; fail);
    match goal with
    | |- context [cbind (get ?d ?k) ?f] => destruct (cbind (get d k) f)
    end;
    try match goal with
        | |- context [throw_new ?c] => destruct c
        end;
    eexists _, _; (split; [reflexivity | auto]).
Qed.

Lemma fetchWithTimeout_in_time (req : request) (ms : Z) (r : response) :
  fetch req = Settles ms (Return r) -> ms < API_CONFIG.TIMEOUT ->
  fetchWithTimeout req = ([Fetched req], Return r).
Proof.
  intros E H. unfold fetchWithTimeout. rewrite E.
  replace (ms <? API_CONFIG.TIMEOUT) with true by (symmetry; apply Z.ltb_lt; exact H).
  reflexivity.
Qed.

(** The body that the five operations share: one request, the handling
    of its response, and on failure one line on the console before the
    error is thrown again. *)
Lemma request_outcome (req : request) (label : string) :
  exists reads,
    (reads = [] \/ reads = [ReadJson] \/ reads = [ReadText]) /\
    ((exists v,
        try_catch (response <- fetchWithTimeout req ;; handleResponse response)%async
                  (API.log_and_rethrow label)
        = (Fetched req :: reads, Return v)) \/
     (exists e,
        try_catch (response <- fetchWithTimeout req ;; handleResponse response)%async
                  (API.log_and_rethrow label)
        = (Fetched req :: reads ++ [ConsoleError label e], Throw e))).
Proof.
  destruct (fetchWithTimeout_trace req) as [[r | e] ->].
  - destruct (handleResponse_reads r) as (reads & c & E & Hreads).
    exists reads. split; [exact Hreads|].
    cbn [await]. rewrite E. destruct c as [v | e]; [left | right]; eexists; reflexivity.
  - exists []. split; [auto|]. right. exists e. reflexivity.
Qed.

Lemma request_settled (req : request) (label : string) (ms : Z) (r : response) :
  fetch req = Settles ms (Return r) -> ms < API_CONFIG.TIMEOUT ->
  try_catch (response <- fetchWithTimeout req ;; handleResponse response)%async
            (API.log_and_rethrow label)
  = match handleResponse r with
    | (reads, Return v) => (Fetched req :: reads, Return v)
    | (reads, Throw e) => (Fetched req :: reads ++ [ConsoleError label e], Throw e)
    end.
Proof.
  intros E H. rewrite (fetchWithTimeout_in_time _ _ _ E H). cbn [await].
  destruct (handleResponse r) as [reads [v | e]]; reflexivity.
Qed.

Lemma requests_reads (reads : list event) (tail : list event) :
  reads = [] \/ reads = [ReadJson] \/ reads = [ReadText] ->
  Shape.requests (reads ++ tail) = Shape.requests tail /\
  Shape.logged (reads ++ tail) = Shape.logged tail.
Proof. intros [-> | [-> | ->]]; split; reflexivity. Qed.

(** One request, and the error of a failure is on the console once. *)
Lemma request_outcome_shape (req : request) (label : string) :
  Shape.requests
    (trace (try_catch (response <- fetchWithTimeout req ;; handleResponse response)%async
                      (API.log_and_rethrow label))) = [req] /\
  Shape.logged
    (trace (try_catch (response <- fetchWithTimeout req ;; handleResponse response)%async
                      (API.log_and_rethrow label)))
  = match outcome (try_catch (response <- fetchWithTimeout req ;; handleResponse response)%async
                             (API.log_and_rethrow label)) with
    | Return _ => []
    | Throw e => [e]
    end.
Proof.
  destruct (request_outcome req label) as (reads & Hreads & [[v ->] | [e ->]]);
    cbn [trace outcome fst snd Shape.requests Shape.logged].
  - replace reads with (reads ++ [])%list by apply app_nil_r.
    destruct (requests_reads reads [] Hreads) as [-> ->]. split; reflexivity.
  - destruct (requests_reads reads [ConsoleError label e] Hreads) as [-> ->].
    split; reflexivity.
Qed.

End OperationFacts.

(** X4. What [handleResponse] returns and when.  It returns a value
    exactly when the status is a success status and the value is the
    sentinel [{success: true}] for 204 or, for another status, the body
    it read, parsed under a JSON content type and as text under any
    other.  On every other status it throws; on a success status it
    throws exactly when the body is read as JSON and [response.json()]
    rejects, and then with that rejection. *)
Theorem handleResponse_returns {host : Host} (r : response) :
  (forall v,
     outcome (handleResponse r) = Return v <->
     resp_ok r = true /\
     ((resp_status r = 204%Z /\ v = VObject [("success", VBool true)]%string) \/
      (resp_status r <> 204%Z /\ Spec.parsed_body r v))) /\
  (resp_ok r = false -> exists e, outcome (handleResponse r) = Throw e) /\
  (resp_ok r = true ->
   forall e,
     outcome (handleResponse r) = Throw e <->
     resp_status r <> 204%Z /\ is_json (resp_content_type r) = true /\
     resp_json r = Throw e).
Proof.
  assert (NotOk : resp_ok r = false -> exists e, outcome (handleResponse r) = Throw e).
  { intros Hok. unfold handleResponse.
    rewrite (not_ok_not_204 r Hok), Hok.
    destruct (is_json (resp_content_type r));
      [destruct (resp_json r) as [data | e]|];
      cbn [emit lift resolve await app negb outcome snd];
      try (eexists; reflexivity);
      match goal with
      | |- context [cbind (get ?d ?k) ?f] => destruct (cbind (get d k) f)
      end;
      try match goal with
          | |- context [throw_new ?c] => destruct c
          end;
      eexists; reflexivity. }
  split; [|split; [exact NotOk|]].
  - intros v. split.
    + intros H. destruct (Z.eq_dec (resp_status r) 204) as [E | N].
      * unfold handleResponse, resp_ok in *. rewrite E in *. cbn in H.
        injection H as <-. split; [reflexivity | now left].
      * destruct (resp_ok r) eqn:Hok.
        -- split; [reflexivity|]. right. split; [exact N|].
           rewrite (handleResponse_ok r Hok N) in H. unfold Spec.parsed_body.
           destruct (is_json (resp_content_type r)); cbn in H; [exact H | congruence].
        -- destruct (NotOk eq_refl) as [e E]. congruence.
    + intros [Hok [[E ->] | [N Hb]]].
      * unfold handleResponse. now rewrite E.
      * rewrite (handleResponse_ok r Hok N). unfold Spec.parsed_body in Hb.
        destruct (is_json (resp_content_type r)); cbn; congruence.
  - intros Hok e. destruct (Z.eq_dec (resp_status r) 204) as [E | N].
    + split; [|intros [N _]; contradiction].
      unfold handleResponse. rewrite E. discriminate.
    + rewrite (handleResponse_ok r Hok N).
      destruct (is_json (resp_content_type r)); cbn [outcome snd]; split.
      * intros H. now split.
      * now intros (_ & _ & H).
      * discriminate.
      * intros (_ & H & _). discriminate H.
Qed.

Lemma handleResponse_returns_witness :
  outcome (@handleResponse Examples.silent
             (Examples.json_response 201 (Examples.juan VUndefined)))
  = Return (Examples.juan VUndefined) /\
  (exists e, outcome (@handleResponse Examples.silent
                        (Examples.json_response 404 Examples.not_found_body)) = Throw e) /\
  outcome (@handleResponse Examples.silent
             (mk_response 200 (Some "application/json"%string)
                (Throw (Native SyntaxError "SyntaxError" "Unexpected end of JSON input"))
                EmptyString))
  = Throw (Native SyntaxError "SyntaxError" "Unexpected end of JSON input").
Proof.
  split; [|split].
  - apply (proj2 (proj1 (@handleResponse_returns Examples.silent
                           (Examples.json_response 201 (Examples.juan VUndefined)))
                        (Examples.juan VUndefined))).
    split; [reflexivity|]. right. split; [discriminate | reflexivity].
  - exact (proj1 (proj2 (@handleResponse_returns Examples.silent
                           (Examples.json_response 404 Examples.not_found_body)))
                 eq_refl).
  - apply (proj2 (proj2 (proj2 (@handleResponse_returns Examples.silent
                                  (mk_response 200 (Some "application/json"%string)
                                     (Throw (Native SyntaxError "SyntaxError"
                                               "Unexpected end of JSON input"))
                                     EmptyString)))
                        eq_refl
                        (Native SyntaxError "SyntaxError" "Unexpected end of JSON input"))).
    split; [discriminate|]. split; reflexivity.
Defined.

(** X5. [fetchWithTimeout] resolves exactly with the response that
    [fetch] settles with before the time bound, and calls [fetch] once
    whatever happens. *)
Theorem fetchWithTimeout_resolves {host : Host} (req : request) (r : response) :
  trace (fetchWithTimeout req) = [Fetched req] /\
  (outcome (fetchWithTimeout req) = Return r <->
   exists ms, fetch req = Settles ms (Return r) /\ (ms < API_CONFIG.TIMEOUT)%Z).
Proof.
  split.
  - destruct (fetchWithTimeout_trace req) as [c ->]. reflexivity.
  - split.
    + unfold fetchWithTimeout. intros H.
      destruct (fetch req) as [ms [r' | e] |] eqn:E; cbn [emit await] in H.
      * destruct (ms <? API_CONFIG.TIMEOUT)%Z eqn:T.
        -- cbn in H. injection H as ->. exists ms. split; [reflexivity | now apply Z.ltb_lt].
        -- discriminate H.
      * destruct (ms <? API_CONFIG.TIMEOUT)%Z;
          [destruct (fetchWithTimeout_catch_settles e) as [e' E'];
           rewrite E' in H |]; discriminate H.
      * discriminate H.
    + intros (ms & E & T). now rewrite (fetchWithTimeout_in_time req ms r E T).
Qed.

Lemma fetchWithTimeout_resolves_witness :
  outcome (@fetchWithTimeout
             (Examples.host_with (Settles 120 (Return (Examples.json_response 200 VNull))))
             (mk_request API_CONFIG.BASE_URL "GET" API_CONFIG.HEADERS None))
  = Return (Examples.json_response 200 VNull).
Proof.
  apply (proj2 (proj2 (@fetchWithTimeout_resolves
                         (Examples.host_with (Settles 120 (Return (Examples.json_response 200 VNull))))
                         (mk_request API_CONFIG.BASE_URL "GET" API_CONFIG.HEADERS None)
                         (Examples.json_response 200 VNull)))).
  exists 120%Z. split; [reflexivity | unfold API_CONFIG.TIMEOUT; lia].
Defined.



Section GateFacts.
Context {host : Host}.
Local Open Scope string_scope.

Lemma await_lift_return {A B} (a : A) (k : A -> async B) :
  await (lift (Return a)) k = k a.
Proof. unfold lift, await. destruct (k a); reflexivity. Qed.

Lemma crearUsuario_valid (usuario : value) :
  API.validarDatosUsuario usuario false = Return tt ->
  API.crearUsuario usuario =
  try_catch (response <- fetchWithTimeout
                           (mk_request API_CONFIG.BASE_URL "POST" API_CONFIG.HEADERS
                                       (JSON_stringify usuario)) ;;
             handleResponse response)%async
            (API.log_and_rethrow "Error al crear usuario:").
Proof. intros V. unfold API.crearUsuario. now rewrite V, await_lift_return. Qed.

Lemma crearUsuario_invalid (usuario : value) (e : js_error) :
  API.validarDatosUsuario usuario false = Throw e ->
  API.crearUsuario usuario = ([ConsoleError "Error al crear usuario:" e], Throw e).
Proof. intros V. unfold API.crearUsuario. now rewrite V. Qed.

Lemma actualizarUsuario_valid (id usuario : value) :
  Spec.positive_integer id ->
  API.validarDatosUsuario usuario true = Return tt ->
  API.actualizarUsuario id usuario =
  try_catch (response <- fetchWithTimeout
                           (mk_request (API.url_of id) "PUT" API_CONFIG.HEADERS
                                       (JSON_stringify usuario)) ;;
             handleResponse response)%async
            (API.log_and_rethrow ("Error al actualizar usuario " ++ ToString id ++ ":")).
Proof.
  intros Hid V. unfold API.actualizarUsuario.
  apply id_invalido_false in Hid. now rewrite Hid, V, await_lift_return.
Qed.


End GateFacts.



(** X8. A record reaches the network only after it has passed
    validation: [crearUsuario] sends its [POST], carrying the record as
    JSON, exactly when the record passes in create mode, and
    [actualizarUsuario] sends its [PUT] exactly when the id passes the
    guard and the record passes in edit mode.  Neither sends more than
    that one request. *)
Theorem validation_gates_requests {host : Host} (id usuario : value) :
  (API.validarDatosUsuario usuario false = Return tt ->
     Shape.requests (trace (API.crearUsuario usuario)) =
     [mk_request API_CONFIG.BASE_URL "POST" API_CONFIG.HEADERS (JSON_stringify usuario)]) /\
  (forall e, API.validarDatosUsuario usuario false = Throw e ->
     Shape.requests (trace (API.crearUsuario usuario)) = []) /\
  (Spec.positive_integer id -> API.validarDatosUsuario usuario true = Return tt ->
     Shape.requests (trace (API.actualizarUsuario id usuario)) =
     [mk_request (API.url_of id) "PUT" API_CONFIG.HEADERS (JSON_stringify usuario)]) /\
  (forall e, API.validarDatosUsuario usuario true = Throw e ->
     Shape.requests (trace (API.actualizarUsuario id usuario)) = []) /\
  (~ Spec.positive_integer id ->
     Shape.requests (trace (API.actualizarUsuario id usuario)) = []).
Proof.
  split; [|split; [|split; [|split]]].
  - intros V. rewrite (crearUsuario_valid usuario V). apply request_outcome_shape.
  - intros e V. now rewrite (crearUsuario_invalid usuario e V).
  - intros Hid V. rewrite (actualizarUsuario_valid id usuario Hid V).
    apply request_outcome_shape.
  - intros e V. unfold API.actualizarUsuario.
    destruct (API.id_invalido id); [|now rewrite V].
    destruct (throw_new_id_TypeError (A := value) id) as (e0 & _ & ->). reflexivity.
  - intros Hid. apply id_invalido_true in Hid. unfold API.actualizarUsuario.
    rewrite Hid.
    destruct (throw_new_id_TypeError (A := value) id) as (e0 & _ & ->). reflexivity.
Qed.

Lemma validation_gates_requests_witness :
  Shape.requests
    (trace (@API.crearUsuario Examples.silent
              (Examples.usuario "Juan Perez" "invalido.com" (VString "secret1")))) = [] /\
  Shape.requests
    (trace (@API.crearUsuario Examples.silent
              (Examples.usuario "Juan Perez" "juan@example.com" (VString "secret1"))))
  = [mk_request API_CONFIG.BASE_URL "POST" API_CONFIG.HEADERS
       (@JSON_stringify Examples.silent
          (Examples.usuario "Juan Perez" "juan@example.com" (VString "secret1")))] /\
  Shape.requests
    (trace (@API.actualizarUsuario Examples.silent (of_Z (-5)) (Examples.juan VNull))) = [].
Proof.
  split; [|split].
  - apply (proj1 (proj2 (@validation_gates_requests Examples.silent (of_Z 1)
                           (Examples.usuario "Juan Perez" "invalido.com" (VString "secret1"))))
             (new_Error "El email no es válido")).
    vm_compute. reflexivity.
  - apply (proj1 (@validation_gates_requests Examples.silent (of_Z 1)
                    (Examples.usuario "Juan Perez" "juan@example.com" (VString "secret1")))).
    vm_compute. reflexivity.
  - apply (proj2 (proj2 (proj2 (proj2 (@validation_gates_requests Examples.silent (of_Z (-5))
                                         (Examples.juan VNull)))))).
    apply (@id_invalido_true Examples.silent). reflexivity.
Defined.

(** X9. [verificarConexion] never throws: it answers [true] exactly when
    [fetch] settles before the time bound with a response of success
    status, and [false] in every other case; it sends its one [GET] and
    never reads the body. *)
Theorem verificarConexion_never_throws {host : Host} :
  exists b : bool,
    outcome API.verificarConexion = Return b /\
    (b = true <->
     exists ms r,
       fetch (mk_request API_CONFIG.BASE_URL "GET" API_CONFIG.HEADERS None)
       = Settles ms (Return r) /\
       (ms < API_CONFIG.TIMEOUT)%Z /\ resp_ok r = true) /\
    Shape.requests (trace API.verificarConexion)
    = [mk_request API_CONFIG.BASE_URL "GET" API_CONFIG.HEADERS None] /\
    ~ In ReadJson (trace API.verificarConexion) /\
    ~ In ReadText (trace API.verificarConexion).
Proof.
  unfold API.verificarConexion.
  set (req := mk_request API_CONFIG.BASE_URL "GET" API_CONFIG.HEADERS None).
  pose proof (@fetchWithTimeout_in_time host req) as InTime.
  unfold fetchWithTimeout in *.
  destruct (fetch req) as [ms [r | e] |] eqn:E.
  - destruct (ms <? API_CONFIG.TIMEOUT)%Z eqn:T.
    + exists (resp_ok r). cbn. split; [reflexivity|]. split.
      * split.
        -- intros Hok. exists ms, r. split; [reflexivity|]. split; [now apply Z.ltb_lt | exact Hok].
        -- intros (ms' & r' & Eq & _ & Hok). now injection Eq as -> ->.
      * split; [reflexivity|]. split; intros [H | []]; discriminate H.
    + exists false. cbn. split; [reflexivity|]. split.
      * split; [discriminate|].
        intros (ms' & r' & Eq & Hlt & _). injection Eq as -> ->.
        apply Z.ltb_lt in Hlt. congruence.
      * split; [reflexivity|]. split; intros [H | [H | []]]; discriminate H.
  - exists false.
    destruct (fetchWithTimeout_catch_settles e) as [e1 C1].
    destruct (fetchWithTimeout_catch_settles abort_error) as [e2 C2].
    destruct (ms <? API_CONFIG.TIMEOUT)%Z; rewrite ?C1, ?C2; cbn;
      (split; [reflexivity|]; split;
       [split; [discriminate | intros (ms' & r' & Eq & _); discriminate Eq]
       | split; [reflexivity|]; split; intros [H | [H | []]]; discriminate H]).
  - exists false.
    destruct (fetchWithTimeout_catch_settles abort_error) as [e2 C2].
    rewrite C2. cbn.
    split; [reflexivity|]. split;
      [split; [discriminate | intros (ms' & r' & Eq & _); discriminate Eq]
      | split; [reflexivity|]; split; intros [H | [H | []]]; discriminate H].
Qed.

(** X10. A delete with an id that passes the guard, answered in time
    with status 204: [eliminarUsuario] returns the sentinel after its one
    [DELETE], reads no body and writes nothing to the console. *)
Theorem eliminarUsuario_no_content {host : Host} (id : value) (ms : Z) (r : response) :
  Spec.positive_integer id ->
  fetch (mk_request (API.url_of id) "DELETE" API_CONFIG.HEADERS None) = Settles ms (Return r) ->
  (ms < API_CONFIG.TIMEOUT)%Z ->
  resp_status r = 204%Z ->
  API.eliminarUsuario id =
  ([Fetched (mk_request (API.url_of id) "DELETE" API_CONFIG.HEADERS None)],
   Return (VObject [("success", VBool true)]%string)).
Proof.
  intros Hid E T S. unfold API.eliminarUsuario.
  apply id_invalido_false in Hid. rewrite Hid.
  rewrite (request_settled _ _ ms r E T). unfold handleResponse. now rewrite S.
Qed.

Lemma eliminarUsuario_no_content_witness :
  Spec.positive_integer (of_Z 7) /\
  @API.eliminarUsuario
     (Examples.host_with (Settles 80 (Return (mk_response 204 None (Return VNull) EmptyString))))
     (of_Z 7)
  = ([Fetched (mk_request "https://usuarios-mvgv.onrender.com/api/usuarios/7" "DELETE"
                 API_CONFIG.HEADERS None)],
     Return (VObject [("success", VBool true)]%string)).
Proof.
  assert (Hid : Spec.positive_integer (of_Z 7))
    by (apply (@id_invalido_false Examples.silent); reflexivity).
  split; [exact Hid|].
  apply (@eliminarUsuario_no_content
           (Examples.host_with (Settles 80 (Return (mk_response 204 None (Return VNull) EmptyString))))
           (of_Z 7) 80%Z (mk_response 204 None (Return VNull) EmptyString) Hid);
    [reflexivity | unfold API_CONFIG.TIMEOUT; lia | reflexivity].
Defined.

(** X11. A list request answered in time with a success status other
    than 204 and a JSON body: [obtenerUsuarios] returns the parsed body
    as it is, after one [GET] and one read of the body. *)
Theorem obtenerUsuarios_returns_body {host : Host} (ms : Z) (r : response) (data : value) :
  fetch (mk_request API_CONFIG.BASE_URL "GET" API_CONFIG.HEADERS None) = Settles ms (Return r) ->
  (ms < API_CONFIG.TIMEOUT)%Z ->
  resp_ok r = true -> resp_status r <> 204%Z ->
  is_json (resp_content_type r) = true -> resp_json r = Return data ->
  API.obtenerUsuarios =
  ([Fetched (mk_request API_CONFIG.BASE_URL "GET" API_CONFIG.HEADERS None); ReadJson],
   Return data).
Proof.
  intros E T Hok S J D. unfold API.obtenerUsuarios.
  rewrite (request_settled _ _ ms r E T), (handleResponse_ok r Hok S), J, D.
  reflexivity.
Qed.

Lemma obtenerUsuarios_returns_body_witness :
  @API.obtenerUsuarios
     (Examples.host_with
        (Settles 80 (Return (Examples.json_response 200 (VArray [Examples.juan VUndefined])))))
  = ([Fetched (mk_request API_CONFIG.BASE_URL "GET" API_CONFIG.HEADERS None); ReadJson],
     Return (VArray [Examples.juan VUndefined])).
Proof.
  apply (@obtenerUsuarios_returns_body
           (Examples.host_with
              (Settles 80 (Return (Examples.json_response 200 (VArray [Examples.juan VUndefined])))))
           80%Z (Examples.json_response 200 (VArray [Examples.juan VUndefined]))
           (VArray [Examples.juan VUndefined]));
    [reflexivity | unfold API_CONFIG.TIMEOUT; lia | reflexivity | discriminate
    | reflexivity | reflexivity].
Defined.

(** X12. A delete answered in time with status 404 and a JSON object
    from which the message can be made (a [detalles] member that is an
    array of elements that convert to strings, or an absent or falsy one
    next to an [error] member that converts to a string):
    [eliminarUsuario] throws an [ApiError] with status 404 carrying that
    object, and [manejarError] turns it into the fixed not-found alert,
    whatever message the body gave. *)
Theorem eliminarUsuario_not_found {host : Host}
        (id : value) (ms : Z) (r : response) (fields : list (string * value))
        (generic : string) :
  Spec.positive_integer id ->
  fetch (mk_request (API.url_of id) "DELETE" API_CONFIG.HEADERS None) = Settles ms (Return r) ->
  (ms < API_CONFIG.TIMEOUT)%Z ->
  resp_status r = 404%Z ->
  Spec.parsed_body r (VObject fields) ->
  Report.usable_details (lookup "detalles" fields) (lookup "error" fields) ->
  exists message,
    outcome (API.eliminarUsuario id) = Throw (ApiError message 404 (VObject fields)) /\
    App.manejarError (ApiError message 404 (VObject fields)) generic =
    MostrarAlerta "Usuario no encontrado" "danger".
Proof.
  intros Hid E T S B D. unfold API.eliminarUsuario.
  apply id_invalido_false in Hid. rewrite Hid.
  rewrite (request_settled _ _ ms r E T).
  assert (Hok : resp_ok r = false) by (unfold resp_ok; now rewrite S).
  pose proof (handleResponse_not_ok r (VObject fields) Hok B) as O.
  cbn [get cbind] in O. rewrite S in O.
  assert (M : exists message,
             outcome (handleResponse r) = Throw (ApiError message 404 (VObject fields))).
  { rewrite O. destruct D as [(xs & Ex & Cx) | [F Ce]].
    - rewrite Ex in *. cbn [ToBoolean call_join]. rewrite Cx. cbn [cbind].
      rewrite new_ApiError_convertible; [|reflexivity|discriminate].
      eexists; reflexivity.
    - rewrite F. destruct (ToBoolean (lookup "error" fields)) eqn:Te; cbn [cbind].
      + rewrite (new_ApiError_convertible _ _ _ Ce); [|discriminate].
        eexists; reflexivity.
      + rewrite new_ApiError_convertible; [|reflexivity|discriminate].
        eexists; reflexivity. }
  destruct M as [message M]. exists message. split; [|reflexivity].
  destruct (handleResponse r) as [reads [v | e]]; cbn [outcome snd] in *;
    [discriminate M | exact M].
Qed.

Lemma eliminarUsuario_not_found_witness :
  Spec.positive_integer (of_Z 7) /\
  exists message,
    outcome (@API.eliminarUsuario
               (Examples.host_with
                  (Settles 80 (Return (Examples.json_response 404 Examples.not_found_body))))
               (of_Z 7))
    = Throw (ApiError message 404 Examples.not_found_body) /\
    App.manejarError (ApiError message 404 Examples.not_found_body)
                     "Error al eliminar el usuario"
    = MostrarAlerta "Usuario no encontrado" "danger".
Proof.
  assert (Hid : Spec.positive_integer (of_Z 7))
    by (apply (@id_invalido_false Examples.silent); reflexivity).
  split; [exact Hid|].
  apply (@eliminarUsuario_not_found
           (Examples.host_with
              (Settles 80 (Return (Examples.json_response 404 Examples.not_found_body))))
           (of_Z 7) 80%Z (Examples.json_response 404 Examples.not_found_body)
           [("error", VString "not found")]%string "Error al eliminar el usuario" Hid);
    [reflexivity | unfold API_CONFIG.TIMEOUT; lia | reflexivity | reflexivity
    | right; split; reflexivity].
Defined.

(* ===================================================================== *)
(** * What escaping guarantees *)
(* ===================================================================== *)

Section EscapeProperties.
Local Open Scope string_scope.

Lemma serialize_text_char_cases (c : ascii) :
  (Markup.rewritten c = false /\ UI.serialize_text_char c = String c EmptyString /\
   c <> "&"%char) \/
  (c = "&"%char /\ UI.serialize_text_char c = "&amp;") \/
  (c = "<"%char /\ UI.serialize_text_char c = "&lt;") \/
  (c = ">"%char /\ UI.serialize_text_char c = "&gt;") \/
  (c = ascii_of_N 160 /\ UI.serialize_text_char c = "&nbsp;").
Proof.
  destruct c as [[] [] [] [] [] [] [] []];
    first [ left; split; [reflexivity | split; [reflexivity | discriminate]]
          | right; left; split; reflexivity
          | right; right; left; split; reflexivity
          | right; right; right; left; split; reflexivity
          | right; right; right; right; split; reflexivity ].
Qed.

Lemma serialize_text_char_no_bracket (c : ascii) :
  Spec.occurrences "<" (UI.serialize_text_char c) = 0%nat /\
  Spec.occurrences ">" (UI.serialize_text_char c) = 0%nat.
Proof. destruct c as [[] [] [] [] [] [] [] []]; split; reflexivity. Qed.

Lemma innerHTML_of_text_no_bracket (data : string) :
  Spec.occurrences "<" (UI.innerHTML_of_text data) = 0%nat /\
  Spec.occurrences ">" (UI.innerHTML_of_text data) = 0%nat.
Proof.
  induction data as [|c data [IH1 IH2]]; [split; reflexivity|].
  cbn [UI.innerHTML_of_text]. rewrite !occurrences_app, IH1, IH2.
  destruct (serialize_text_char_no_bracket c) as [-> ->]. split; reflexivity.
Qed.

Lemma innerHTML_of_text_injective (a b : string) :
  UI.innerHTML_of_text a = UI.innerHTML_of_text b -> a = b.
Proof.
  revert b. induction a as [|x a IH]; intros [|y b] H.
  - reflexivity.
  - exfalso. cbn [UI.innerHTML_of_text] in H.
    destruct (serialize_text_char_cases y)
      as [(_ & E & _) | [[_ E] | [[_ E] | [[_ E] | [_ E]]]]];
      rewrite E in H; discriminate H.
  - exfalso. cbn [UI.innerHTML_of_text] in H.
    destruct (serialize_text_char_cases x)
      as [(_ & E & _) | [[_ E] | [[_ E] | [[_ E] | [_ E]]]]];
      rewrite E in H; discriminate H.
  - cbn [UI.innerHTML_of_text] in H.
    destruct (serialize_text_char_cases x)
      as [(_ & Ex & Nx) | [[-> Ex] | [[-> Ex] | [[-> Ex] | [-> Ex]]]]];
      destruct (serialize_text_char_cases y)
        as [(_ & Ey & Ny) | [[-> Ey] | [[-> Ey] | [[-> Ey] | [-> Ey]]]]];
      rewrite ?Ex, ?Ey in H; cbn [append] in H;
      try discriminate H;
      try (injection H as H; f_equal; now apply IH);
      try (injection H as -> H; f_equal; now apply IH);
      try (injection H as E _; congruence).
Qed.

Lemma innerHTML_of_text_length (data : string) :
  (String.length data <= String.length (UI.innerHTML_of_text data))%nat.
Proof.
  induction data as [|c data IH]; [simpl; lia|].
  cbn [UI.innerHTML_of_text String.length]. rewrite length_append.
  destruct (serialize_text_char_cases c)
    as [(_ & E & _) | [[_ E] | [[_ E] | [[_ E] | [_ E]]]]];
    rewrite E; simpl; lia.
Qed.

Lemma innerHTML_of_text_fixed (data : string) :
  UI.innerHTML_of_text data = data <-> Shape.all_chars Markup.plain data = true.
Proof.
  induction data as [|c data IH]; [split; reflexivity|].
  cbn [UI.innerHTML_of_text Shape.all_chars]. unfold Markup.plain at 1.
  pose proof (innerHTML_of_text_length data) as L.
  destruct (serialize_text_char_cases c)
    as [(R & E & _) | [[-> E] | [[-> E] | [[-> E] | [-> E]]]]]; rewrite E.
  - rewrite R. cbn [negb andb append]. split.
    + intros H. injection H as H. now apply IH.
    + intros H. f_equal. now apply IH.
  - split; [|discriminate]. intros H. apply (f_equal String.length) in H.
    rewrite length_append in H. simpl in H. lia.
  - split; [|discriminate]. intros H. apply (f_equal String.length) in H.
    rewrite length_append in H. simpl in H. lia.
  - split; [|discriminate]. intros H. apply (f_equal String.length) in H.
    rewrite length_append in H. simpl in H. lia.
  - split; [|discriminate]. intros H. apply (f_equal String.length) in H.
    rewrite length_append in H. simpl in H. lia.
Qed.

End EscapeProperties.

(** X13. Whatever value it is given, the text that [escaparHTML]
    returns contains neither [<] nor [>]: no tag can start or end inside
    it. *)
Theorem escaparHTML_no_angle_brackets {host : Host} (texto : value) :
  Spec.occurrences "<" (UI.escaparHTML texto) = 0%nat /\
  Spec.occurrences ">" (UI.escaparHTML texto) = 0%nat.
Proof. unfold UI.escaparHTML. apply innerHTML_of_text_no_bracket. Qed.

(** X14. [escaparHTML] loses nothing: two strings with the same
    escaped form are the same string. *)
Theorem escaparHTML_injective {host : Host} (a b : string) :
  UI.escaparHTML (VString a) = UI.escaparHTML (VString b) -> a = b.
Proof. unfold UI.escaparHTML. cbn [UI.set_textContent ToString]. apply innerHTML_of_text_injective. Qed.

Lemma escaparHTML_injective_witness :
  @UI.escaparHTML Examples.silent (VString "a<b") = @UI.escaparHTML Examples.silent (VString "a<b") /\
  "a<b"%string = "a<b"%string.
Proof.
  assert (H : @UI.escaparHTML Examples.silent (VString "a<b")
              = @UI.escaparHTML Examples.silent (VString "a<b")) by reflexivity.
  split; [exact H | exact (@escaparHTML_injective Examples.silent _ _ H)].
Defined.

(** X15. The strings that [escaparHTML] returns unchanged are exactly
    those without an ampersand, an angle bracket or a no-break space,
    and no string comes back shorter than it went in. *)
Theorem escaparHTML_unchanged {host : Host} (s : string) :
  (UI.escaparHTML (VString s) = s <-> Shape.all_chars Markup.plain s = true) /\
  (String.length s <= String.length (UI.escaparHTML (VString s)))%nat.
Proof.
  unfold UI.escaparHTML. cbn [UI.set_textContent ToString].
  split; [apply innerHTML_of_text_fixed | apply innerHTML_of_text_length].
Qed.

(* ===================================================================== *)
(** * What the form hands to the client *)
(* ===================================================================== *)

Section TrimFacts.
Local Open Scope string_scope.

Lemma trimStart_clean (s : string) : Markup.starts_clean (trimStart s).
Proof.
  induction s as [|c s IH]; [exact I|].
  cbn [trimStart]. destruct (is_whitespace c) eqn:W; [exact IH | exact W].
Qed.

Lemma trimStart_of_clean (s : string) : Markup.starts_clean s -> trimStart s = s.
Proof. destruct s as [|c s]; [reflexivity|]. cbn. now intros ->. Qed.

Lemma trimEnd_clean (s : string) : Markup.starts_clean s -> Markup.starts_clean (trimEnd s).
Proof.
  destruct s as [|c s]; [intros _; exact I|]. cbn [Markup.starts_clean trimEnd].
  intros W. rewrite W. destruct (trimEnd s); exact W.
Qed.

Lemma trimEnd_idempotent (s : string) : trimEnd (trimEnd s) = trimEnd s.
Proof.
  induction s as [|c s IH]; [reflexivity|].
  cbn [trimEnd]. destruct (trimEnd s) as [|a t] eqn:E.
  - destruct (is_whitespace c) eqn:W; [reflexivity|]. cbn [trimEnd]. now rewrite W.
  - change (trimEnd (String c (String a t)))
      with (match trimEnd (String a t) with
            | EmptyString => if is_whitespace c then EmptyString else String c EmptyString
            | String a' t' => String c (String a' t')
            end).
    now rewrite IH.
Qed.

(** Trimming what is trimmed changes nothing. *)
Lemma trim_idempotent (s : string) : trim (trim s) = trim s.
Proof.
  unfold trim.
  rewrite (trimStart_of_clean (trimEnd (trimStart s))).
  - apply trimEnd_idempotent.
  - apply trimEnd_clean, trimStart_clean.
Qed.

End TrimFacts.

(** X16. The record that [obtenerDatosFormulario] reads from the form
    has a name and an email that are trimmed, and a password that is
    either [null] or a trimmed string that is not empty: an empty
    password is never handed on as a string. *)
Theorem obtenerDatosFormulario_shape (f : form) :
  exists nombre email password,
    UI.obtenerDatosFormulario f = Examples.usuario nombre email password /\
    trim nombre = nombre /\ trim email = email /\
    (password = VNull \/
     exists p, password = VString p /\ p <> EmptyString /\ trim p = p).
Proof.
  exists (trim (nombre_value f)), (trim (email_value f)),
         (UI.or_null (trim (password_value f))).
  split; [reflexivity|]. split; [apply trim_idempotent|]. split; [apply trim_idempotent|].
  unfold UI.or_null. destruct (trim (password_value f)) as [|c p] eqn:E.
  - left. reflexivity.
  - right. exists (String c p). split; [reflexivity|]. split; [discriminate|].
    rewrite <- E. apply trim_idempotent.
Qed.

(** X17. A password field with fewer than six characters once trimmed
    stops a create before any request, and when it is not empty it stops
    an update as well: the form's record then fails validation whatever
    the name, the email and the id are. *)
Theorem short_password_sends_nothing {host : Host} (f : form) (id : value) :
  (String.length (trim (password_value f)) < 6)%nat ->
  Shape.requests (trace (API.crearUsuario (UI.obtenerDatosFormulario f))) = [] /\
  (trim (password_value f) <> EmptyString ->
   Shape.requests (trace (API.actualizarUsuario id (UI.obtenerDatosFormulario f))) = []).
Proof.
  intros L.
  change (UI.obtenerDatosFormulario f)
    with (Examples.usuario (trim (nombre_value f)) (trim (email_value f))
                           (UI.or_null (trim (password_value f)))).
  set (n := trim (nombre_value f)). set (e := trim (email_value f)).
  set (p := UI.or_null (trim (password_value f))).
  assert (F : forall esEdicion,
             (esEdicion = true -> trim (password_value f) <> EmptyString) ->
             exists err, API.validarDatosUsuario (Examples.usuario n e p) esEdicion = Throw err).
  { intros esEdicion Hed.
    destruct (validarDatosUsuario_cases n e p esEdicion)
      as [[_ E] | [(_ & _ & E) | (_ & _ & Hu)]]; try (eexists; exact E).
    subst p. unfold UI.or_null in *.
    destruct (trim (password_value f)) as [|c s] eqn:Ep.
    - destruct esEdicion; [exfalso; now apply Hed|].
      eexists. apply (password_rule_null_create _ Hu). reflexivity.
    - apply (password_rule_string _ (String c s) esEdicion Hu); [reflexivity | exact L]. }
  split.
  - destruct (F false) as [err V]; [discriminate|].
    now rewrite (crearUsuario_invalid _ err V).
  - intros Hne. destruct (F true (fun _ => Hne)) as [err V].
    unfold API.actualizarUsuario. destruct (API.id_invalido id); [|now rewrite V].
    destruct (throw_new_id_TypeError (A := value) id) as (e0 & _ & ->). reflexivity.
Qed.

Lemma short_password_sends_nothing_witness :
  Shape.requests
    (trace (@API.crearUsuario Examples.silent
              (UI.obtenerDatosFormulario (mk_form "Juan Perez" "juan@example.com" " abc ")))) = [] /\
  Shape.requests
    (trace (@API.actualizarUsuario Examples.silent (of_Z 3)
              (UI.obtenerDatosFormulario (mk_form "Juan Perez" "juan@example.com" " abc ")))) = [].
Proof.
  assert (L : (String.length (trim (password_value
                 (mk_form "Juan Perez" "juan@example.com" " abc "))) < 6)%nat)
    by (simpl; lia).
  split.
  - exact (proj1 (@short_password_sends_nothing Examples.silent
                    (mk_form "Juan Perez" "juan@example.com" " abc ") (of_Z 3) L)).
  - apply (proj2 (@short_password_sends_nothing Examples.silent
                    (mk_form "Juan Perez" "juan@example.com" " abc ") (of_Z 3) L)).
    discriminate.
Defined.

(* ===================================================================== *)
(** * Debouncing *)
(* ===================================================================== *)

Section DebounceFacts.
Variable A : Type.
Variable wait : Z.
Local Open Scope Z_scope.

Lemma clearTimeout_single (tm : Timers.timer A) :
  Timers.clearTimeout (Some (Timers.handle tm)) [tm] = [].
Proof. cbn. now rewrite Nat.eqb_refl. Qed.

Lemma clearTimeout_nil (h : option nat) :
  Timers.clearTimeout h (@nil (Timers.timer A)) = [].
Proof. destruct h; reflexivity. Qed.

Lemma step_single_timer (s s' : Timers.state A) :
  Timers.single_timer wait s -> Timers.step wait s s' -> Timers.single_timer wait s'.
Proof.
  intros I H. destruct H as [s t _ | s args | s tm Hin _].
  - exact I.
  - unfold Timers.single_timer, Timers.executedFunction in *.
    cbn [Timers.pending Timers.timeout Timers.history Timers.handle Timers.due
         Timers.captured].
    destruct (Timers.pending s) as [|tm [|tm' rest]]; try contradiction.
    + rewrite clearTimeout_nil. split; [reflexivity|].
      exists (Timers.history s). f_equal. f_equal. lia.
    + destruct I as [-> _]. rewrite clearTimeout_single. split; [reflexivity|].
      exists (Timers.history s). f_equal. f_equal. lia.
  - unfold Timers.single_timer, Timers.later in *.
    cbn [Timers.pending Timers.timeout Timers.history].
    destruct (Timers.pending s) as [|tm0 [|tm' rest]]; try contradiction.
    destruct Hin as [<- | []].
    rewrite clearTimeout_single, clearTimeout_nil. exact Logic.I.
Qed.

Lemma step_quiet (s s' : Timers.state A) :
  Timers.single_timer wait s -> Timers.quiet wait (Timers.history s) ->
  Timers.step wait s s' -> Timers.quiet wait (Timers.history s').
Proof.
  intros I Q H. destruct H as [s t _ | s args | s tm Hin Hdue].
  - exact Q.
  - exact Q.
  - unfold Timers.single_timer in I. cbn [Timers.later Timers.history].
    destruct (Timers.pending s) as [|tm0 [|tm' rest]]; try contradiction.
    destruct Hin as [<- | []]. destruct I as [_ [h' E]].
    rewrite E in *. cbn [Timers.quiet]. split; [|exact Q].
    split; [reflexivity | lia].
Qed.

Lemma reachable_invariant (s : Timers.state A) :
  Timers.reachable wait s ->
  Timers.single_timer wait s /\ Timers.quiet wait (Timers.history s).
Proof.
  induction 1 as [|s s' _ [I Q] H].
  - split; exact Logic.I.
  - split; [eapply step_single_timer | eapply step_quiet]; eassumption.
Qed.

(** There are never more applications than calls, and strictly fewer
    while the newest entry is a call. *)
Lemma quiet_counts (h : list (Timers.entry A)) :
  Timers.quiet wait h ->
  (Timers.applications h <= Timers.invocations h)%nat /\
  match h with
  | Timers.Invoked _ _ :: _ => (Timers.applications h < Timers.invocations h)%nat
  | _ => True
  end.
Proof.
  induction h as [|[t a | t a] h IH]; cbn; intros Q.
  - split; [lia | exact I].
  - destruct (IH Q) as [L _]. split; lia.
  - destruct Q as [Hd Q]. destruct (IH Q) as [L S].
    destruct h as [|[t0 a0 | t0 a0] h']; try contradiction.
    cbn in *. split; [lia | exact I].
Qed.

Lemma step_armed (s s' : Timers.state A) :
  Timers.single_timer wait s -> Timers.armed wait s ->
  Timers.step wait s s' -> Timers.armed wait s'.
Proof.
  intros I R H. destruct H as [s t _ | s args | s tm Hin _].
  - exact R.
  - unfold Timers.armed, Timers.single_timer in *.
    cbn [Timers.executedFunction Timers.history Timers.pending].
    destruct (Timers.pending s) as [|tm [|tm' rest]]; try contradiction.
    + rewrite clearTimeout_nil. eexists. reflexivity.
    + destruct I as [-> _]. rewrite clearTimeout_single. eexists. reflexivity.
  - exact Logic.I.
Qed.

Lemma reachable_armed (s : Timers.state A) :
  Timers.reachable wait s -> Timers.armed wait s.
Proof.
  induction 1 as [|s s' Hs IH H]; [exact Logic.I|].
  eapply step_armed; [apply reachable_invariant, Hs | exact IH | exact H].
Qed.

(** The delay of a timer: [wait] itself below 2^31, zero for a negative
    [wait], and what is left of it once it wraps around. *)
Example delay_wraps :
  Timers.delay 300 = 300%Z /\ Timers.delay (-5) = 0%Z /\
  Timers.delay (2 ^ 31) = 0%Z /\ Timers.delay (2 ^ 32 + 300) = 300%Z.
Proof. repeat split. Qed.

End DebounceFacts.

(** The run of the examples with the delay of the form, 300 ms. *)
Lemma example_run_reachable :
  Timers.reachable 300 (Timers.example_run 300 "n"%string "no"%string).
Proof.
  pose (s1 := Timers.executedFunction 300 "n"%string Timers.initial).
  pose (s2 := Timers.executedFunction 300 "no"%string (Timers.advance 100 s1)).
  pose (s3 := Timers.advance 400 s2).
  assert (R1 : Timers.reachable 300 s1)
    by (eapply Timers.reach_step; [apply Timers.reach_initial | apply Timers.step_call]).
  assert (R1' : Timers.reachable 300 (Timers.advance 100 s1))
    by (eapply Timers.reach_step; [exact R1 | apply Timers.step_time; cbn; lia]).
  assert (R2 : Timers.reachable 300 s2)
    by (eapply Timers.reach_step; [exact R1' | apply Timers.step_call]).
  assert (R3 : Timers.reachable 300 s3)
    by (eapply Timers.reach_step; [exact R2 | apply Timers.step_time; cbn; lia]).
  change (Timers.reachable 300
            (Timers.later (Timers.mk_timer 1 (100 + Timers.delay 300) "no"%string) s3)).
  eapply Timers.reach_step; [exact R3|].
  apply Timers.step_timer; [cbn; left; reflexivity | cbn; lia].
Defined.

(** X18. [func] runs only for the newest call and only after the
    quiet time: in every state that a debounced function can reach, each
    application of [func] stands directly on the call that set its
    timer, has the arguments of that call and comes at least the delay
    of the timer after it: [wait] as [setTimeout] reads it, a signed
    integer of 32 bits, and zero when that is negative.  A call that is
    followed by another call before its timer runs is therefore never
    applied. *)
Theorem debounce_quiet (A : Type) (wait : Z) (s : Timers.state A) :
  Timers.reachable wait s -> Timers.quiet wait (Timers.history s).
Proof. intros H. now apply reachable_invariant. Qed.

Lemma debounce_quiet_witness :
  Timers.reachable 300 (Timers.example_run 300 "n"%string "no"%string) /\
  Timers.history (Timers.example_run 300 "n"%string "no"%string)
  = [Timers.Applied 400 "no"%string; Timers.Invoked 100 "no"%string;
     Timers.Invoked 0 "n"%string] /\
  Timers.quiet 300 (Timers.history (Timers.example_run 300 "n"%string "no"%string)).
Proof.
  split; [exact example_run_reachable|]. split; [reflexivity|].
  exact (debounce_quiet string 300 _ example_run_reachable).
Defined.

(** X19. A debounced function keeps at most one timer set and never
    applies [func] more often than it was called. *)
Theorem debounce_one_timer (A : Type) (wait : Z) (s : Timers.state A) :
  Timers.reachable wait s ->
  (List.length (Timers.pending s) <= 1)%nat /\
  (Timers.applications (Timers.history s) <= Timers.invocations (Timers.history s))%nat.
Proof.
  intros H. destruct (reachable_invariant A wait s H) as [I Q]. split.
  - unfold Timers.single_timer in I.
    destruct (Timers.pending s) as [|tm [|tm' rest]]; cbn; [lia | lia | contradiction].
  - now apply (quiet_counts A wait).
Qed.

Lemma debounce_one_timer_witness :
  Timers.reachable 300 (Timers.example_run 300 "n"%string "no"%string) /\
  (List.length (Timers.pending (Timers.example_run 300 "n"%string "no"%string)) <= 1)%nat /\
  (Timers.applications (Timers.history (Timers.example_run 300 "n"%string "no"%string))
   <= Timers.invocations (Timers.history (Timers.example_run 300 "n"%string "no"%string)))%nat.
Proof.
  split; [exact example_run_reachable|].
  exact (debounce_one_timer string 300 _ example_run_reachable).
Defined.

(** X20. The newest call is never dropped: as long as nothing has
    happened since it, its timer is set, due the delay of the timer
    after the call ([wait] as a signed integer of 32 bits, zero when
    that is negative) and holding the arguments of that call. *)
Theorem debounce_keeps_newest_call (A : Type) (wait : Z) (s : Timers.state A)
        (t : Z) (args : A) (older : list (Timers.entry A)) :
  Timers.reachable wait s ->
  Timers.history s = Timers.Invoked t args :: older ->
  exists h, Timers.pending s = [Timers.mk_timer h (t + Timers.delay wait) args].
Proof.
  intros H E. pose proof (reachable_armed A wait s H) as R.
  unfold Timers.armed in R. now rewrite E in R.
Qed.

Lemma debounce_keeps_newest_call_witness :
  Timers.reachable 300 (Timers.executedFunction 300 "n"%string Timers.initial) /\
  (exists h,
     Timers.pending (Timers.executedFunction 300 "n"%string Timers.initial)
     = [Timers.mk_timer h 300 "n"%string]) /\
  Timers.reachable (2 ^ 31) (Timers.executedFunction (2 ^ 31) "n"%string Timers.initial) /\
  (exists h,
     Timers.pending (Timers.executedFunction (2 ^ 31) "n"%string Timers.initial)
     = [Timers.mk_timer h 0 "n"%string]).
Proof.
  assert (R : Timers.reachable 300 (Timers.executedFunction 300 "n"%string Timers.initial))
    by (eapply Timers.reach_step; [apply Timers.reach_initial | apply Timers.step_call]).
  assert (R' : Timers.reachable (2 ^ 31)
                 (Timers.executedFunction (2 ^ 31) "n"%string Timers.initial))
    by (eapply Timers.reach_step; [apply Timers.reach_initial | apply Timers.step_call]).
  split; [exact R|]. split.
  - exact (debounce_keeps_newest_call string 300 _ 0%Z "n"%string [] R eq_refl).
  - split; [exact R'|].
    exact (debounce_keeps_newest_call string (2 ^ 31) _ 0%Z "n"%string [] R' eq_refl).
Defined.

(* ===================================================================== *)
(** * The rendering of the list *)
(* ===================================================================== *)

Section RenderFacts.
Context {host : Host}.
Local Open Scope string_scope.

Lemma strict_equal_lit_nat (n : nat) (m : Z) :
  Render.strict_equal_lit (of_Z (Z.of_nat n)) m = (Z.of_nat n =? m)%Z.
Proof.
  unfold Render.strict_equal_lit, of_Z, Qeq_bool. simpl. now rewrite !Z.mul_1_r.
Qed.

Lemma crearFilaUsuario_legible (usuario : value) :
  Render.legible usuario = true -> exists f, Render.crearFilaUsuario usuario = Return f.
Proof.
  unfold Render.legible, Render.crearFilaUsuario, ToString_completion, UI.call_escaparHTML.
  destruct (get usuario "id") as [id | e1], (get usuario "nombre") as [nombre | e2],
    (get usuario "email") as [email | e3];
    try discriminate; cbv beta iota delta [cbind];
    destruct (convertible id), (convertible nombre), (convertible email);
    intros H; try discriminate H; eexists; reflexivity.
Qed.

Lemma crearFilaUsuario_illegible (usuario : value) :
  Render.legible usuario = false -> exists e, Render.crearFilaUsuario usuario = Throw e.
Proof.
  unfold Render.legible, Render.crearFilaUsuario, ToString_completion, UI.call_escaparHTML.
  destruct usuario; cbn [get]; try (intros _; eexists; reflexivity);
    cbv beta iota delta [cbind];
    repeat match goal with
           | |- context [convertible ?v] => destruct (convertible v)
           end;
    intros H; try discriminate H; eexists; reflexivity.
Qed.

Lemma agregar_filas_all (xs : list value) :
  forallb Render.legible xs = true ->
  exists fs,
    Render.agregar_filas xs = (map Render.AgregarFila fs, Return tt) /\
    map Return fs = map Render.crearFilaUsuario xs.
Proof.
  induction xs as [|x xs IH]; cbn [forallb Render.agregar_filas]; intros H.
  - exists []. split; reflexivity.
  - apply andb_prop in H as [Hx Hxs].
    destruct (crearFilaUsuario_legible x Hx) as [f Ef].
    destruct (IH Hxs) as (fs & E & M).
    exists (f :: fs). rewrite Ef, E. split; [reflexivity|].
    cbn [map]. now rewrite Ef, M.
Qed.

Lemma agregar_filas_stop (good rest : list value) (bad : value) :
  forallb Render.legible good = true -> Render.legible bad = false ->
  exists fs e,
    Render.agregar_filas (good ++ bad :: rest) = (map Render.AgregarFila fs, Throw e) /\
    map Return fs = map Render.crearFilaUsuario good.
Proof.
  intros Hg Hb. induction good as [|x good IH]; cbn [forallb app Render.agregar_filas] in *.
  - destruct (crearFilaUsuario_illegible bad Hb) as [e Ee].
    exists [], e. rewrite Ee. split; reflexivity.
  - apply andb_prop in Hg as [Hx Hg].
    destruct (crearFilaUsuario_legible x Hx) as [f Ef].
    destruct (IH Hg) as (fs & e & E & M).
    exists (f :: fs), e. rewrite Ef, E. split; [reflexivity|].
    cbn [map]. now rewrite Ef, M.
Qed.

Lemma filas_rows (fs : list Render.fila) (tail : list Render.dom_op) (antes : list Render.fila) :
  Render.filas (map Render.AgregarFila fs ++ tail) antes = Render.filas tail (antes ++ fs).
Proof.
  revert antes. induction fs as [|f fs IH]; intros antes; cbn [map app Render.filas].
  - now rewrite app_nil_r.
  - rewrite IH, <- app_assoc. reflexivity.
Qed.

Lemma contador_rows (fs : list Render.fila) (tail : list Render.dom_op) (texto : string) :
  Render.contador (map Render.AgregarFila fs ++ tail) texto = Render.contador tail texto.
Proof. induction fs as [|f fs IH]; [reflexivity | exact IH]. Qed.

Lemma vacio_visible_rows (fs : list Render.fila) (tail : list Render.dom_op) (antes : bool) :
  Render.vacio_visible (map Render.AgregarFila fs ++ tail) antes
  = Render.vacio_visible tail antes.
Proof. induction fs as [|f fs IH]; [reflexivity | exact IH]. Qed.

(** A record whose name cannot be converted to text makes no row. *)
Example crearFilaUsuario_sin_texto :
  Render.legible ControllerExamples.sin_texto = false /\
  Render.crearFilaUsuario ControllerExamples.sin_texto = Throw conversion_TypeError.
Proof. split; reflexivity. Qed.

End RenderFacts.

(** X21. Given an array of records that are neither [null] nor
    [undefined] and whose id, name and email convert to text,
    [renderizarUsuarios] replaces the rows of the table by one row per
    record, in the order of the array, writes their number to the
    counter, singular for exactly one, and shows the empty state exactly
    when there are none. *)
Theorem renderizarUsuarios_rows {host : Host}
        (xs : list value) (antes : list Render.fila) (texto : string) (visible : bool) :
  forallb Render.legible xs = true ->
  exists ops,
    Render.renderizarUsuarios (VArray xs) = (ops, Return tt) /\
    map Return (Render.filas ops antes) = map Render.crearFilaUsuario xs /\
    Render.contador ops texto =
      ("Total: " ++ ToString (of_Z (Z.of_nat (List.length xs))) ++ " usuario"
       ++ (if Nat.eqb (List.length xs) 1 then EmptyString else "s"))%string /\
    Render.vacio_visible ops visible = match xs with [] => true | _ :: _ => false end.
Proof.
  intros H. destruct xs as [|x xs].
  - eexists. split; [reflexivity|]. repeat split.
  - destruct (agregar_filas_all (x :: xs) H) as (fs & E & M).
    unfold Render.renderizarUsuarios, Render.call_forEach.
    cbn [ToBoolean negb get String.eqb Ascii.eqb Bool.eqb cbind].
    rewrite strict_equal_lit_nat.
    replace (Z.of_nat (List.length (x :: xs)) =? 0)%Z with false
      by (symmetry; apply Z.eqb_neq; cbn [List.length]; lia).
    rewrite E.
    cbn [Eff.bind Eff.emit Eff.of_completion Render.ocultarEstadoVacio
         Render.actualizarContador app].
    eexists. split; [reflexivity|].
    cbn [Render.filas Render.contador Render.vacio_visible].
    rewrite filas_rows, contador_rows, vacio_visible_rows.
    cbn [Render.filas Render.contador Render.vacio_visible app].
    split; [exact M|]. split; [|reflexivity].
    rewrite strict_equal_lit_nat. cbn [List.length].
    destruct (List.length xs) as [|n]; [reflexivity|].
    replace (Z.of_nat (S (S n)) =? 1)%Z with false by (symmetry; apply Z.eqb_neq; lia).
    reflexivity.
Qed.

Lemma renderizarUsuarios_rows_witness :
  forallb Render.legible [ControllerExamples.registro; ControllerExamples.registro] = true /\
  exists ops,
    @Render.renderizarUsuarios Examples.silent
       (VArray [ControllerExamples.registro; ControllerExamples.registro]) = (ops, Return tt) /\
    map Return (Render.filas ops []) =
      map (@Render.crearFilaUsuario Examples.silent)
          [ControllerExamples.registro; ControllerExamples.registro] /\
    Render.contador ops EmptyString = "Total: 2 usuarios"%string /\
    Render.vacio_visible ops true = false.
Proof.
  split; [reflexivity|].
  exact (@renderizarUsuarios_rows Examples.silent
           [ControllerExamples.registro; ControllerExamples.registro] [] EmptyString true
           eq_refl).
Defined.

(** X22. A record that is [null] or [undefined], or whose id, name or
    email does not convert to text, stops the rendering where it
    stands: [renderizarUsuarios] throws, the table holds the rows of the
    records before it and no others, the empty state is hidden and the
    counter keeps the text it had. *)
Theorem renderizarUsuarios_stops {host : Host}
        (good rest : list value) (bad : value)
        (antes : list Render.fila) (texto : string) (visible : bool) :
  forallb Render.legible good = true -> Render.legible bad = false ->
  exists ops e,
    Render.renderizarUsuarios (VArray (good ++ bad :: rest)) = (ops, Throw e) /\
    map Return (Render.filas ops antes) = map Render.crearFilaUsuario good /\
    Render.contador ops texto = texto /\
    Render.vacio_visible ops visible = false.
Proof.
  intros Hg Hb.
  destruct (agregar_filas_stop good rest bad Hg Hb) as (fs & e & E & M).
  unfold Render.renderizarUsuarios, Render.call_forEach.
  cbn [ToBoolean negb get String.eqb Ascii.eqb Bool.eqb cbind].
  rewrite strict_equal_lit_nat.
  replace (Z.of_nat (List.length (good ++ bad :: rest)) =? 0)%Z with false
    by (symmetry; apply Z.eqb_neq; rewrite length_app; cbn [List.length]; lia).
  rewrite E.
  cbn [Eff.bind Eff.emit Eff.of_completion Render.ocultarEstadoVacio app].
  eexists _, e. split; [reflexivity|].
  cbn [Render.filas Render.contador Render.vacio_visible].
  replace (map Render.AgregarFila fs) with (map Render.AgregarFila fs ++ [])%list
    by apply app_nil_r.
  rewrite filas_rows, contador_rows, vacio_visible_rows.
  cbn [Render.filas Render.contador Render.vacio_visible app].
  split; [exact M|]. split; reflexivity.
Qed.

Lemma renderizarUsuarios_stops_witness :
  (exists ops e,
     @Render.renderizarUsuarios Examples.silent
        (VArray [ControllerExamples.registro; VNull; ControllerExamples.registro])
     = (ops, Throw e) /\
     map Return (Render.filas ops []) =
       map (@Render.crearFilaUsuario Examples.silent) [ControllerExamples.registro] /\
     Render.contador ops "Total: 5 usuarios" = "Total: 5 usuarios"%string /\
     Render.vacio_visible ops true = false) /\
  (exists ops e,
     @Render.renderizarUsuarios Examples.silent
        (VArray [ControllerExamples.sin_texto; ControllerExamples.registro])
     = (ops, Throw e) /\
     map Return (Render.filas ops [])
     = map (@Render.crearFilaUsuario Examples.silent) [] /\
     Render.contador ops "Total: 5 usuarios" = "Total: 5 usuarios"%string /\
     Render.vacio_visible ops true = false).
Proof.
  split.
  - exact (@renderizarUsuarios_stops Examples.silent
             [ControllerExamples.registro] [ControllerExamples.registro] VNull
             [] "Total: 5 usuarios"%string true eq_refl eq_refl).
  - exact (@renderizarUsuarios_stops Examples.silent
             [] [ControllerExamples.registro] ControllerExamples.sin_texto
             [] "Total: 5 usuarios"%string true eq_refl eq_refl).
Defined.

(** X23. Given anything that is not an array, [renderizarUsuarios]
    never adds a row: a falsy value is rendered as the empty list is, and
    a truthy one whose [length] is not the number zero makes it throw
    after it has emptied the table and hidden the empty state. *)
Theorem renderizarUsuarios_not_array {host : Host}
        (usuarios : value) (antes : list Render.fila) :
  (forall xs, usuarios <> VArray xs) ->
  Render.filas (fst (Render.renderizarUsuarios usuarios)) antes = [] /\
  (ToBoolean usuarios = false ->
   Render.renderizarUsuarios usuarios = Render.renderizarUsuarios (VArray [])) /\
  (ToBoolean usuarios = true -> ~ Render.length_is_zero usuarios ->
   Render.renderizarUsuarios usuarios =
   ([Render.VaciarFilas; Render.AgregarClase Render.emptyState "d-none";
     Render.QuitarClase Render.tablaUsuarios "d-none"],
    Throw (new_TypeError "usuarios.forEach is not a function"))).
Proof.
  intros N. unfold Render.renderizarUsuarios.
  destruct usuarios as [| | b | n | s | xs | fields];
    try (now specialize (N xs));
    cbn [ToBoolean negb];
    try (split; [reflexivity | split; [reflexivity | discriminate]]).
  - destruct b; cbn [negb].
    + split; [reflexivity | split; [discriminate | reflexivity]].
    + split; [reflexivity | split; [reflexivity | discriminate]].
  - destruct n as [q | | b];
      [destruct (negb (number_is_zero (Finite q))) eqn:T | | destruct b];
      cbn [negb];
      first [ split; [reflexivity | split; [discriminate | reflexivity]]
            | split; [reflexivity | split; [reflexivity | discriminate]] ].
  - destruct s as [|c s].
    + split; [reflexivity | split; [reflexivity | discriminate]].
    + cbn [negb get String.eqb Ascii.eqb Bool.eqb cbind]. rewrite strict_equal_lit_nat.
      replace (Z.of_nat (String.length (String c s)) =? 0)%Z with false
        by (symmetry; apply Z.eqb_neq; cbn [String.length]; lia).
      split; [reflexivity | split; [discriminate | reflexivity]].
  - cbn [negb get cbind].
    destruct (Render.strict_equal_lit (lookup "length" fields) 0) eqn:S.
    + split; [reflexivity|]. split; [discriminate|]. intros _ H. exfalso.
      unfold Render.strict_equal_lit in S.
      destruct (lookup "length" fields) as [| | | [q | |] | | |] eqn:L; try discriminate S.
      apply H. exists q. cbn [get]. rewrite L. split; [reflexivity|].
      now apply Qeq_bool_iff.
    + split; [reflexivity | split; [discriminate | reflexivity]].
Qed.

Lemma renderizarUsuarios_not_array_witness :
  (forall xs, Examples.not_found_body <> VArray xs) /\
  ToBoolean Examples.not_found_body = true /\
  ~ Render.length_is_zero Examples.not_found_body /\
  @Render.renderizarUsuarios Examples.silent Examples.not_found_body =
  ([Render.VaciarFilas; Render.AgregarClase Render.emptyState "d-none";
    Render.QuitarClase Render.tablaUsuarios "d-none"],
   Throw (new_TypeError "usuarios.forEach is not a function")).
Proof.
  assert (N : forall xs, Examples.not_found_body <> VArray xs) by (intros xs; discriminate).
  assert (Z : ~ Render.length_is_zero Examples.not_found_body)
    by (intros (q & E & _); discriminate E).
  split; [exact N|]. split; [reflexivity|]. split; [exact Z|].
  exact (proj2 (proj2 (@renderizarUsuarios_not_array Examples.silent
                         Examples.not_found_body [] N)) eq_refl Z).
Defined.

(* ===================================================================== *)
(** * The controller *)
(* ===================================================================== *)

Section ControllerFacts.
Context {host : Host} {globals : Globals}.
Local Open Scope string_scope.

Lemma peticiones_app (a b : list action) :
  Controller.peticiones (a ++ b) = (Controller.peticiones a ++ Controller.peticiones b)%list.
Proof.
  induction a as [|x a IH]; [reflexivity|].
  destruct x as [[] | | | | | | | | | | | | | | |]; cbn; now rewrite IH.
Qed.

Lemma alertas_app (a b : list action) :
  Controller.alertas (a ++ b) = (Controller.alertas a ++ Controller.alertas b)%list.
Proof.
  induction a as [|x a IH]; [reflexivity|].
  destruct x; cbn; now rewrite IH.
Qed.

Lemma peticiones_Api (t : list event) :
  Controller.peticiones (map Api t) = Shape.requests t.
Proof.
  induction t as [|ev t IH]; [reflexivity|]. destruct ev; cbn; now rewrite IH.
Qed.

Lemma alertas_Api (t : list event) : Controller.alertas (map Api t) = [].
Proof. induction t as [|ev t IH]; [reflexivity | exact IH]. Qed.

(** What [cargarUsuarios] does, by the outcome of the request, of the
    rendering and of the reading of [usuarios.length]. *)
Lemma cargarUsuarios_trace (s : app_fields) :
  Controller.cargarUsuarios s =
  (MostrarCargando ::
     map Api (fst API.obtenerUsuarios) ++
     match snd API.obtenerUsuarios with
     | Throw e =>
         [Api (ConsoleError "Error al cargar usuarios:" e);
          Alerta (App.manejarError e "Error al cargar los usuarios")]
     | Return usuarios =>
         Renderizar usuarios ::
         match snd (Render.renderizarUsuarios usuarios) with
         | Throw e =>
             [Api (ConsoleError "Error al cargar usuarios:" e);
              Alerta (App.manejarError e "Error al cargar los usuarios")]
         | Return _ =>
             match get usuarios "length" with
             | Throw e =>
                 [Api (ConsoleError "Error al cargar usuarios:" e);
                  Alerta (App.manejarError e "Error al cargar los usuarios")]
             | Return len => [ConsoleLog ("✅ " ++ ToString len ++ " usuarios cargados")]
             end
         end
     end ++ [OcultarCargando],
   s, Return tt).
Proof.
  unfold Controller.cargarUsuarios, Controller.renderizar, Controller.manejarError,
    Controller.Logger_log, Proc.finally, Proc.catch, Proc.bind, Proc.act, Proc.of_async,
    Proc.of_completion, Logger.error, emit.
  destruct API.obtenerUsuarios as [t [usuarios | e]]; cbn [fst snd API_CONFIG.DEBUG_MODE].
  - destruct (snd (Render.renderizarUsuarios usuarios)) as [[] | e].
    + destruct (get usuarios "length") as [len | e]; cbn [map app fst snd];
        rewrite ?app_nil_r, <- ?app_assoc; reflexivity.
    + cbn [map app fst snd]. rewrite ?app_nil_r, <- ?app_assoc. reflexivity.
  - cbn [map app fst snd]. rewrite ?app_nil_r, <- ?app_assoc. reflexivity.
Qed.

Lemma obtenerUsuarios_requests :
  Shape.requests (fst API.obtenerUsuarios)
  = [mk_request API_CONFIG.BASE_URL "GET" API_CONFIG.HEADERS None].
Proof.
  exact (proj1 (request_outcome_shape
                  (mk_request API_CONFIG.BASE_URL "GET" API_CONFIG.HEADERS None)
                  "Error al obtener usuarios:")).
Qed.

Lemma renderizarUsuarios_legible (xs : list value) :
  forallb Render.legible xs = true ->
  snd (Render.renderizarUsuarios (VArray xs)) = Return tt.
Proof.
  intros H. destruct xs as [|x xs]; [reflexivity|].
  destruct (agregar_filas_all (x :: xs) H) as (fs & E & _).
  unfold Render.renderizarUsuarios, Render.call_forEach.
  cbn [ToBoolean negb get String.eqb Ascii.eqb Bool.eqb cbind].
  rewrite strict_equal_lit_nat.
  replace (Z.of_nat (List.length (x :: xs)) =? 0)%Z with false
    by (symmetry; apply Z.eqb_neq; cbn [List.length]; lia).
  rewrite E. reflexivity.
Qed.

Lemma not_in_Api (a : action) (t : list event) :
  (forall ev, a <> Api ev) -> ~ In a (map Api t).
Proof.
  intros N H. apply in_map_iff in H as (ev & E & _). exact (N ev (eq_sym E)).
Qed.

End ControllerFacts.

(** X24. [cargarUsuarios] always runs to its end and never throws: it
    shows the spinner first and hides it last, sends its one [GET] in
    between, leaves the fields of the controller as they were and shows
    at most one alert; when the request fails that alert is the one that
    [manejarError] makes of the error, and the view is not asked to
    render. *)
Theorem cargarUsuarios_settles {host : Host} (s : app_fields) :
  exists middle,
    Controller.cargarUsuarios s
    = (MostrarCargando :: middle ++ [OcultarCargando], s, Return tt) /\
    Controller.peticiones middle
    = [mk_request API_CONFIG.BASE_URL "GET" API_CONFIG.HEADERS None] /\
    ~ In MostrarCargando middle /\ ~ In OcultarCargando middle /\
    (Controller.alertas middle = [] \/
     exists e, Controller.alertas middle
               = [App.manejarError e "Error al cargar los usuarios"]) /\
    (forall e, outcome API.obtenerUsuarios = Throw e ->
       Controller.alertas middle = [App.manejarError e "Error al cargar los usuarios"] /\
       forall usuarios, ~ In (Renderizar usuarios) middle).
Proof.
  rewrite cargarUsuarios_trace. pose proof obtenerUsuarios_requests as R.
  unfold outcome.
  destruct API.obtenerUsuarios as [t c]. cbn [fst snd] in *.
  rewrite app_assoc. eexists. split; [reflexivity|].
  rewrite peticiones_app, alertas_app, peticiones_Api, alertas_Api, R.
  assert (NM : ~ In MostrarCargando (map Api t)) by (apply not_in_Api; discriminate).
  assert (NO : ~ In OcultarCargando (map Api t)) by (apply not_in_Api; discriminate).
  assert (NR : forall u, ~ In (Renderizar u) (map Api t))
    by (intros u; apply not_in_Api; discriminate).
  destruct c as [usuarios | e].
  - destruct (snd (Render.renderizarUsuarios usuarios)) as [[] | e];
      [destruct (get usuarios "length") as [len | e]|];
      (split; [reflexivity|]);
      (split; [intros H; apply in_app_or in H as [H | H];
               [exact (NM H) | cbn in H; intuition discriminate]|]);
      (split; [intros H; apply in_app_or in H as [H | H];
               [exact (NO H) | cbn in H; intuition discriminate]|]);
      (split; [cbn; eauto | discriminate]).
  - split; [reflexivity|].
    split; [intros H; apply in_app_or in H as [H | H];
            [exact (NM H) | cbn in H; intuition discriminate]|].
    split; [intros H; apply in_app_or in H as [H | H];
            [exact (NO H) | cbn in H; intuition discriminate]|].
    split; [cbn; eauto|].
    intros e' E. injection E as <-. split; [reflexivity|].
    intros u H. apply in_app_or in H as [H | H];
      [exact (NR u H) | cbn in H; intuition discriminate].
Qed.

Lemma cargarUsuarios_settles_witness :
  exists middle,
    @Controller.cargarUsuarios Examples.silent (mk_app VNull VNull)
    = (MostrarCargando :: middle ++ [OcultarCargando], mk_app VNull VNull, Return tt) /\
    Controller.alertas middle
    = [MostrarAlerta "La petición excedió el tiempo de espera" "danger"] /\
    forall usuarios, ~ In (Renderizar usuarios) middle.
Proof.
  destruct (@cargarUsuarios_settles Examples.silent (mk_app VNull VNull))
    as (middle & E & _ & _ & _ & _ & F).
  exists middle. split; [exact E|].
  exact (F (ApiError "La petición excedió el tiempo de espera" 408 VNull) eq_refl).
Defined.

(** X25. When the request answers with an array of records that are
    neither [null] nor [undefined] and whose id, name and email convert
    to text, [cargarUsuarios] shows no alert: it shows the spinner, does
    what the client does, asks the view to render the array, logs the
    number of records and hides the spinner. *)
Theorem cargarUsuarios_loaded {host : Host}
        (s : app_fields) (t : list event) (xs : list value) :
  API.obtenerUsuarios = (t, Return (VArray xs)) ->
  forallb Render.legible xs = true ->
  Controller.cargarUsuarios s
  = (MostrarCargando :: map Api t ++
       [Renderizar (VArray xs);
        ConsoleLog ("✅ " ++ ToString (of_Z (Z.of_nat (List.length xs))) ++ " usuarios cargados");
        OcultarCargando],
     s, Return tt).
Proof.
  intros E L. rewrite cargarUsuarios_trace, E. cbn [fst snd].
  rewrite (renderizarUsuarios_legible xs L). reflexivity.
Qed.

Lemma cargarUsuarios_loaded_witness :
  @Controller.cargarUsuarios ControllerExamples.backend (mk_app VNull VNull)
  = ([MostrarCargando;
      Api (Fetched (mk_request API_CONFIG.BASE_URL "GET" API_CONFIG.HEADERS None));
      Api ReadJson;
      Renderizar (VArray [ControllerExamples.registro]);
      ConsoleLog ("✅ " ++ @ToString ControllerExamples.backend (of_Z 1) ++ " usuarios cargados");
      OcultarCargando],
     mk_app VNull VNull, Return tt).
Proof.
  exact (@cargarUsuarios_loaded ControllerExamples.backend (mk_app VNull VNull)
           [Fetched (mk_request API_CONFIG.BASE_URL "GET" API_CONFIG.HEADERS None); ReadJson]
           [ControllerExamples.registro] eq_refl eq_refl).
Defined.

(** X26. When the request answers with [null] or [undefined] in place of
    the list, the view renders the empty list without an error, and
    [cargarUsuarios] still shows a [danger] alert: reading the [length]
    of the answer for the log throws a [TypeError], whose message is the
    text of the alert. *)
Theorem cargarUsuarios_null_body {host : Host}
        (s : app_fields) (t : list event) (usuarios : value) :
  API.obtenerUsuarios = (t, Return usuarios) ->
  usuarios = VNull \/ usuarios = VUndefined ->
  Render.renderizarUsuarios usuarios = Render.renderizarUsuarios (VArray []) /\
  exists mensaje,
    get usuarios "length" = Throw (new_TypeError mensaje) /\
    Controller.cargarUsuarios s
    = (MostrarCargando :: map Api t ++
         [Renderizar usuarios;
          Api (ConsoleError "Error al cargar usuarios:" (new_TypeError mensaje));
          Alerta (MostrarAlerta mensaje "danger");
          OcultarCargando],
       s, Return tt).
Proof.
  intros E N. rewrite cargarUsuarios_trace, E. cbn [fst snd].
  destruct N as [-> | ->]; (split; [reflexivity|]); eexists; (split; [reflexivity|]);
    reflexivity.
Qed.

Lemma cargarUsuarios_null_body_witness :
  exists mensaje,
    get VNull "length" = Throw (new_TypeError mensaje) /\
    @Controller.cargarUsuarios
       (ControllerExamples.host_by_method
          (fun _ => Settles 50 (Return (Examples.json_response 200 VNull))))
       (mk_app VNull VNull)
    = ([MostrarCargando;
        Api (Fetched (mk_request API_CONFIG.BASE_URL "GET" API_CONFIG.HEADERS None));
        Api ReadJson;
        Renderizar VNull;
        Api (ConsoleError "Error al cargar usuarios:" (new_TypeError mensaje));
        Alerta (MostrarAlerta mensaje "danger");
        OcultarCargando],
       mk_app VNull VNull, Return tt).
Proof.
  exact (proj2 (@cargarUsuarios_null_body
                  (ControllerExamples.host_by_method
                     (fun _ => Settles 50 (Return (Examples.json_response 200 VNull))))
                  (mk_app VNull VNull)
                  [Fetched (mk_request API_CONFIG.BASE_URL "GET" API_CONFIG.HEADERS None);
                   ReadJson]
                  VNull eq_refl (or_introl eq_refl))).
Defined.

Section HandlerFacts.
Context {host : Host} {globals : Globals}.
Local Open Scope string_scope.

Lemma cargarUsuarios_returns (s : app_fields) :
  Controller.cargarUsuarios s = (fst (fst (Controller.cargarUsuarios s)), s, Return tt).
Proof. rewrite cargarUsuarios_trace. reflexivity. Qed.

(** What [handleGuardarUsuario] does with a form that the browser finds
    valid, by the outcome of the call of the client and of the reading
    of [resultado.nombre]. *)
Lemma handleGuardarUsuario_trace (p : page) (s : app_fields) :
  checkValidity p = true ->
  Controller.handleGuardarUsuario p s =
  (DeshabilitarBoton btnGuardarUsuario (btnGuardarUsuario_innerHTML p) ::
     map Api (fst (Controller.llamada_guardar p)) ++
     match (resultado <~ snd (Controller.llamada_guardar p) ;;
            nombre <~ get resultado "nombre" ;;
            Controller.plantilla_exito nombre (Controller.hecho_guardar p))%completion with
     | Throw e =>
         [Api (ConsoleError "Error al guardar usuario:" e);
          Alerta (App.manejarError e "Error al guardar el usuario")]
     | Return mensaje =>
         Alerta (MostrarAlerta mensaje "success") ::
         CerrarModalUsuario :: fst (fst (Controller.cargarUsuarios s))
     end ++ [HabilitarBoton btnGuardarUsuario],
   s, Return tt).
Proof.
  intros V.
  unfold Controller.handleGuardarUsuario, Controller.validarFormulario,
    Controller.llamada_guardar, Controller.hecho_guardar.
  rewrite V. cbn [negb].
  unfold Proc.bind at 1. cbn [Proc.ret negb].
  unfold Controller.mostrarAlerta, Controller.manejarError.
  unfold Proc.finally, Proc.catch, Proc.bind, Proc.act, Proc.of_async, Proc.of_completion,
    Logger.error, emit.
  pose proof (cargarUsuarios_returns s) as C.
  set (tr := fst (fst (Controller.cargarUsuarios s))) in *. clearbody tr.
  destruct (ToBoolean (Controller.obtenerIdUsuario p)).
  - destruct (API.actualizarUsuario _ _) as [t [resultado | e]]; cbn [fst snd cbind].
    + destruct (get resultado "nombre") as [nombre | e]; cbn [cbind];
        [unfold Controller.plantilla_exito; destruct (convertible nombre)|];
        cbn [fst snd map app cbind API_CONFIG.DEBUG_MODE];
        rewrite ?C; cbn [fst snd map app API_CONFIG.DEBUG_MODE];
        rewrite ?app_nil_r, <- ?app_assoc; reflexivity.
    + cbn [fst snd map app API_CONFIG.DEBUG_MODE]. rewrite ?app_nil_r, <- ?app_assoc. reflexivity.
  - destruct (API.crearUsuario _) as [t [resultado | e]]; cbn [fst snd cbind].
    + destruct (get resultado "nombre") as [nombre | e]; cbn [cbind];
        [unfold Controller.plantilla_exito; destruct (convertible nombre)|];
        cbn [fst snd map app cbind API_CONFIG.DEBUG_MODE];
        rewrite ?C; cbn [fst snd map app API_CONFIG.DEBUG_MODE];
        rewrite ?app_nil_r, <- ?app_assoc; reflexivity.
    + cbn [fst snd map app API_CONFIG.DEBUG_MODE]. rewrite ?app_nil_r, <- ?app_assoc. reflexivity.
Qed.

End HandlerFacts.

Section ConfirmFacts.
Context {host : Host} {globals : Globals}.
Local Open Scope string_scope.



Lemma verificarConexion_settles :
  exists b : bool,
    snd API.verificarConexion = Return b /\
    Shape.requests (fst API.verificarConexion)
    = [mk_request API_CONFIG.BASE_URL "GET" API_CONFIG.HEADERS None].
Proof.
  unfold API.verificarConexion.
  set (req := mk_request API_CONFIG.BASE_URL "GET" API_CONFIG.HEADERS None).
  unfold fetchWithTimeout.
  destruct (fetchWithTimeout_catch_settles abort_error) as [e2 C2].
  destruct (fetch req) as [ms [r | e] |].
  - destruct (ms <? API_CONFIG.TIMEOUT)%Z.
    + exists (resp_ok r). split; reflexivity.
    + exists false. rewrite C2. split; reflexivity.
  - exists false. destruct (fetchWithTimeout_catch_settles e) as [e1 C1].
    destruct (ms <? API_CONFIG.TIMEOUT)%Z; rewrite ?C1, ?C2; split; reflexivity.
  - exists false. rewrite C2. split; reflexivity.
Qed.

(** What the check of the connection does in the controller. *)
Lemma verificarConexion_trace (s : app_fields) :
  exists b : bool,
    snd API.verificarConexion = Return b /\
    Controller.verificarConexion s =
    ((map Api (fst API.verificarConexion) ++
       (if b then []
        else [Alerta (MostrarAlerta "No se pudo conectar con el servidor. Verifique que la API esté disponible en https://usuarios-mvgv.onrender.com" "warning")]))%list,
     s, Return tt).
Proof.
  destruct verificarConexion_settles as (b & E & _). exists b. split; [exact E|].
  unfold Controller.verificarConexion, Controller.mostrarAlerta,
    Proc.catch, Proc.bind, Proc.of_async, Proc.act, Proc.ret.
  rewrite E. destruct b; reflexivity.
Qed.

End ConfirmFacts.

(** X27. A save that does not go through leaves the dialog open and the
    list as it is.  When the browser finds the form invalid,
    [handleGuardarUsuario] marks the form and shows one warning, and
    nothing else.  When the form is valid and the call of the client
    throws, the handler disables the button, does what the client did,
    writes the error to the console, shows the alert that [manejarError]
    makes of it and enables the button again; it never throws and keeps
    the fields of the controller. *)
Theorem handleGuardarUsuario_not_saved {host : Host} {globals : Globals}
        (p : page) (s : app_fields) :
  (checkValidity p = false ->
   Controller.handleGuardarUsuario p s
   = ([MarcarValidado;
       Alerta (MostrarAlerta "Por favor, complete todos los campos correctamente" "warning")],
      s, Return tt)) /\
  (forall t e,
     checkValidity p = true ->
     Controller.llamada_guardar p = (t, Throw e) ->
     Controller.handleGuardarUsuario p s
     = (DeshabilitarBoton btnGuardarUsuario (btnGuardarUsuario_innerHTML p) ::
          map Api t ++
          [Api (ConsoleError "Error al guardar usuario:" e);
           Alerta (App.manejarError e "Error al guardar el usuario");
           HabilitarBoton btnGuardarUsuario],
        s, Return tt)).
Proof.
  split.
  - intros V. unfold Controller.handleGuardarUsuario, Controller.validarFormulario.
    rewrite V. reflexivity.
  - intros t e V E. rewrite (handleGuardarUsuario_trace p s V), E. reflexivity.
Qed.



(** X30. [init] always starts the application: whatever the check of
    the connection finds, it never throws, configures the listeners,
    loads the list as [cargarUsuarios] does and logs that the
    application has started.  The check sends one [GET]; it shows the
    warning exactly when the client answers [false], and the [danger]
    alert of its handler is never shown. *)
Theorem init_always_starts {host : Host} (s : app_fields) :
  exists (conectado : bool) (antes : list action),
    outcome API.verificarConexion = Return conectado /\
    Controller.init s
    = (ConsoleLog "🚀 Iniciando aplicación..." ::
         antes ++
         ConfigurarEventListeners ::
         fst (fst (Controller.cargarUsuarios s)) ++
         [InicializarTogglePassword; ConsoleLog "✅ Aplicación iniciada correctamente"],
       s, Return tt) /\
    Controller.peticiones antes
    = [mk_request API_CONFIG.BASE_URL "GET" API_CONFIG.HEADERS None] /\
    Controller.alertas antes
    = (if conectado then []
       else [MostrarAlerta "No se pudo conectar con el servidor. Verifique que la API esté disponible en https://usuarios-mvgv.onrender.com" "warning"]).
Proof.
  destruct (verificarConexion_trace s) as (b & E & V).
  destruct verificarConexion_settles as (b' & E' & R).
  exists b.
  exists (map Api (fst API.verificarConexion) ++
          (if b then []
           else [Alerta (MostrarAlerta "No se pudo conectar con el servidor. Verifique que la API esté disponible en https://usuarios-mvgv.onrender.com" "warning")]))%list.
  split; [exact E|].
  unfold Controller.init, Controller.Logger_log. cbn [API_CONFIG.DEBUG_MODE].
  unfold Proc.bind at 1. unfold Proc.act at 1. cbv beta iota.
  unfold Proc.bind at 1. rewrite V.
  unfold Proc.bind at 1. unfold Proc.act at 1. cbv beta iota.
  unfold Proc.bind at 1. rewrite (cargarUsuarios_returns s) at 1.
  unfold Proc.bind at 1. unfold Proc.act. cbv beta iota.
  cbn [app]. split; [reflexivity|].
  rewrite peticiones_app, alertas_app, peticiones_Api, alertas_Api, R.
  destruct b; split; reflexivity.
Qed.

Lemma handleGuardarUsuario_not_saved_witness :
  @Controller.handleGuardarUsuario ControllerExamples.backend ControllerExamples.decimal_parseInt
     (mk_page (mk_form EmptyString EmptyString EmptyString) EmptyString false
              "Guardar" "Eliminar Usuario")
     (mk_app VNull VNull)
  = ([MarcarValidado;
      Alerta (MostrarAlerta "Por favor, complete todos los campos correctamente" "warning")],
     mk_app VNull VNull, Return tt) /\
  @Controller.handleGuardarUsuario ControllerExamples.backend ControllerExamples.decimal_parseInt
     (ControllerExamples.pagina EmptyString "123") (mk_app VNull VNull)
  = ([DeshabilitarBoton btnGuardarUsuario "Guardar";
      Api (ConsoleError "Error al crear usuario:"
             (Native Error "Error"
                "La contraseña es obligatoria y debe tener al menos 6 caracteres"));
      Api (ConsoleError "Error al guardar usuario:"
             (Native Error "Error"
                "La contraseña es obligatoria y debe tener al menos 6 caracteres"));
      Alerta (MostrarAlerta "La contraseña es obligatoria y debe tener al menos 6 caracteres"
                            "danger");
      HabilitarBoton btnGuardarUsuario],
     mk_app VNull VNull, Return tt).
Proof.
  split.
  - exact (proj1 (@handleGuardarUsuario_not_saved
                    ControllerExamples.backend ControllerExamples.decimal_parseInt
                    (mk_page (mk_form EmptyString EmptyString EmptyString) EmptyString false
                             "Guardar" "Eliminar Usuario")
                    (mk_app VNull VNull))
                 eq_refl).
  - exact (proj2 (@handleGuardarUsuario_not_saved
                    ControllerExamples.backend ControllerExamples.decimal_parseInt
                    (ControllerExamples.pagina EmptyString "123") (mk_app VNull VNull))
                 [ConsoleError "Error al crear usuario:"
                    (Native Error "Error"
                       "La contraseña es obligatoria y debe tener al menos 6 caracteres")]
                 (Native Error "Error"
                    "La contraseña es obligatoria y debe tener al menos 6 caracteres")
                 eq_refl eq_refl).
Defined.


